(** * Tide-Tracker: the client application (App.js and its components)
      and the aggregation engine it talks to.

    The client is embedded from the JavaScript sources: handlers of [App]
    become functions over an explicit application state and an explicit
    [localStorage]; components become functions from props to a view, with
    [None] for a component that returns [null].  The backend
    ([backend/main.py]) is modelled from its specification where a property
    is about it. *)

From Stdlib Require Import ZArith QArith Qround Qabs List Lia Permutation Sorted.
From Stdlib Require Import Strings.String Strings.Ascii Numbers.DecimalString.
From stdpp Require Import base gmap strings.

Local Open Scope Z_scope.
Local Set Warnings "-register-all".

(** ** JavaScript values the client computes with *)

Module JS.

(** A value as [JSON.parse] builds it, plus [undefined], which reading a
    missing property yields.  JSON numbers are rationals. *)
Inductive value : Type :=
| VUndefined
| VNull
| VBool (b : bool)
| VNum (q : Q)
| VStr (s : string)
| VArr (items : list value)
| VObj (fields : list (string * value)).

(** A number that may be NaN ([None]). *)
Definition num : Type := option Q.

Inductive exn : Type := TypeError | SyntaxError.

(** How an expression or block completes: with a value, or by throwing. *)
Inductive completion (A : Type) : Type :=
| Normal (a : A)
| Throw (e : exn).
Arguments Normal {A} a.
Arguments Throw {A} e.

Definition Qlt_bool (x y : Q) : bool := negb (Qle_bool y x).

(** [ToBoolean]: what [if (v)], [!v], [v ? a : b], [v || d] test. *)
Definition ToBoolean (v : value) : bool :=
  match v with
  | VUndefined | VNull => false
  | VBool b => b
  | VNum q => negb (Qeq_bool q 0)
  | VStr s => negb (String.eqb s "")
  | VArr _ | VObj _ => true
  end.

Fixpoint own_property (k : string) (fields : list (string * value)) : value :=
  match fields with
  | [] => VUndefined
  | (k', v) :: rest => if String.eqb k k' then v else own_property k rest
  end.

(** [v.k] for a property name [k] that no built-in prototype defines
    (as [timestamp] and [coords] are): a TypeError on [null] and
    [undefined], the own property of an object, [undefined] elsewhere. *)
Definition Get (v : value) (k : string) : completion value :=
  match v with
  | VUndefined | VNull => Throw TypeError
  | VObj fields => Normal (own_property k fields)
  | VBool _ | VNum _ | VStr _ | VArr _ => Normal VUndefined
  end.

(** [a < b] on numbers: false as soon as one side is NaN. *)
Definition lt (a b : num) : bool :=
  match a, b with
  | Some x, Some y => Qlt_bool x y
  | _, _ => false
  end.

Definition sub (a b : num) : num :=
  match a, b with
  | Some x, Some y => Some (x - y)%Q
  | _, _ => None
  end.

(** [`${n}`] for an integral number: its decimal digits, with a leading
    minus sign when negative. *)
Definition Number_toString (n : Z) : string :=
  NilZero.string_of_int (Z.to_int n).

(** [Math.floor(a / b)] for integral [a] and positive [b]. *)
Definition floor_div (a b : Z) : Z := a / b.

(** [a % b]: the remainder takes the sign of the dividend. *)
Definition remainder (a b : Z) : Z := Z.rem a b.

Fixpoint zeros (n : nat) : string :=
  match n with
  | O => ""
  | S n => String "0" (zeros n)
  end.

(** [x.toFixed(f)] (for [|x| < 1e21]): the integer [n] with [n / 10^f]
    nearest to [|x|], the larger one on a tie, printed with [f] digits
    after the point. *)
Definition toFixed (f : nat) (x : Q) : string :=
  let n := Qfloor (Qabs x * inject_Z (10 ^ Z.of_nat f) + (1 # 2))%Q in
  let digits := Number_toString n in
  let padded :=
    if (String.length digits <=? f)%nat
    then zeros (f + 1 - String.length digits) +:+ digits
    else digits in
  let k := String.length padded in
  let body :=
    match f with
    | O => padded
    | _ => String.substring 0 (k - f) padded +:+ "."
           +:+ String.substring (k - f) f padded
    end in
  if Qlt_bool x 0 then "-" +:+ body else body.

End JS.

(** ** The text of a JavaScript string *)

Module JSText.

(** A JavaScript string is a sequence of UTF-16 code units; [length] counts
    them and [substring] cuts between them.  The strings of this
    development hold the UTF-8 bytes of a text, and [utf16] gives its code
    units: a byte below 0x80 is a unit by itself; a lead byte of a 2- or
    3-byte sequence (0xC0 to 0xEF) gives the one unit of a character of the
    basic plane, made of its own payload bits and those of the continuation
    bytes that follow; a lead byte of a 4-byte sequence (from 0xF0) gives
    the surrogate pair of a character beyond the basic plane; a
    continuation byte (0x80 to 0xBF) was read with its lead byte and gives
    nothing more. *)
Definition byte (c : ascii) : Z := Z.of_N (N_of_ascii c).

Fixpoint continuation (k : nat) (rest : string) (acc : Z) : Z :=
  match k, rest with
  | S k, String c rest => continuation k rest (acc * 64 + byte c mod 64)
  | _, _ => acc
  end.

Definition surrogates (code_point : Z) : list Z :=
  [ 55296 + (code_point - 65536) / 1024;
    56320 + (code_point - 65536) mod 1024 ].

Fixpoint utf16 (s : string) : list Z :=
  match s with
  | EmptyString => []
  | String c rest =>
      let b := byte c in
      if b <? 128 then b :: utf16 rest
      else if b <? 192 then utf16 rest
      else if b <? 224 then continuation 1 rest (b - 192) :: utf16 rest
      else if b <? 240 then continuation 2 rest (b - 224) :: utf16 rest
      else surrogates (continuation 3 rest (b - 240)) ++ utf16 rest
  end.

(** [s.length] *)
Definition length (s : string) : nat := List.length (utf16 s).

End JSText.

(** ** What the browser provides

    Built-ins whose results depend on the engine, the locale or the
    serialisation of host objects are taken as an interface. *)

Class Platform : Type := {
  (** [JSON.parse(text)]; [None] when it throws a SyntaxError. *)
  JSON_parse : string -> option JS.value;
  (** [ToNumber] of a string. *)
  StringToNumber : string -> JS.num;
  (** [ToPrimitive] with hint number of an array or object: its string. *)
  ObjectToString : JS.value -> string;
  (** [`${x}`] for a number that need not be integral. *)
  NumberToString : Q -> string;
  (** [new Date(t).toLocaleTimeString([], options)], with and without the
      [hour12] option. *)
  toLocaleTimeString : bool -> Z -> string;
  (** [JSON.stringify(localStorage)]. *)
  JSON_stringify_storage : gmap string string -> string
}.

Module JSCoercions.
Section WithPlatform.
Context `{Platform}.

(** [ToNumber(v)], which the operator [-] applies to its operands. *)
Definition ToNumber (v : JS.value) : JS.num :=
  match v with
  | JS.VUndefined => None
  | JS.VNull => Some 0%Q
  | JS.VBool b => Some (if b then 1%Q else 0%Q)
  | JS.VNum q => Some q
  | JS.VStr s => StringToNumber s
  | JS.VArr _ | JS.VObj _ => StringToNumber (ObjectToString v)
  end.

End WithPlatform.
End JSCoercions.

(** ** The response shapes the client reads (spec section 3 and 6) *)

Module Wire.

Inductive TideType : Type := High | Low.

Definition TideType_text (t : TideType) : string :=
  match t with High => "High" | Low => "Low" end.

Record TideEvent : Type := {
  time : Z;                 (* time value in ms of the event's timestamp *)
  type : TideType;
  height : Q;
  relative_time : string
}.

Record DailyTideSummary : Type := {
  high_tides_count : Z;
  low_tides_count : Z;
  max_height : Q;
  min_height : Q
}.

Record WeatherSnapshot : Type := {
  temperature : Q;
  feels_like : Q;
  condition : string;
  wind_speed : Q;
  humidity : Z;
  visibility : option Q;    (* optional: [None] when absent or null *)
  pressure : Z
}.

Record ForecastPoint : Type := {
  fc_time : string;
  fc_temperature : Q;
  fc_condition : string;
  fc_wind_speed : Q
}.

Record Weather : Type := {
  current : option WeatherSnapshot;
  forecast : option (list ForecastPoint)
}.

Inductive Rating : Type := Excellent | Good | Fair | Poor.

Record MarineConditions : Type := {
  overall_rating : Rating;
  suitability : list (string * Q);
  warnings : list string
}.

Record Recommendation : Type := {
  best_activity : string;
  best_time : option Z;
  tips : list string
}.

Record TideWeatherBundle : Type := {
  location_name : option string;
  lat : Q;
  lon : Q;
  next_tides : list TideEvent;
  daily_summary : option DailyTideSummary;
  weather : option Weather;
  marine_conditions : option MarineConditions;
  recommendations : option Recommendation
}.

Record Services : Type := {
  tides_api : string;
  weather_api : string
}.

(** The health response; [services] is read with [?.] by the client. *)
Record Health : Type := {
  status : string;
  cache_entries : Z;
  services : option Services
}.

End Wire.

(** ** components/WeatherCard.jsx

    A view keeps the text a component puts on the page; icons and style
    classes are left out. *)

Module WeatherCard.
Section WithPlatform.
Context `{Platform}.

Record CurrentView : Type := {
  temperature_text : string;
  feels_like_text : string;
  condition_text : string;
  wind_text : string;
  humidity_text : string;
  visibility_text : string;
  pressure_text : string
}.

Record ForecastRow : Type := {
  row_time : string;
  row_temperature : string;
  row_wind : string
}.

Record View : Type := {
  current_view : CurrentView;
  forecast_rows : option (list ForecastRow)
}.

(** [current.visibility ? `${current.visibility}km` : 'N/A'].  An absent
    field reads as [undefined] (or null), which is falsy; a number is
    falsy when it is zero. *)
Definition visibility_display (current : Wire.WeatherSnapshot) : string :=
  match Wire.visibility current with
  | Some v =>
      if JS.ToBoolean (JS.VNum v) then NumberToString v +:+ "km" else "N/A"
  | None => "N/A"
  end.

Definition render_current (current : Wire.WeatherSnapshot) : CurrentView :=
  {| temperature_text := NumberToString (Wire.temperature current) +:+ "°C";
     feels_like_text :=
       "Feels like " +:+ NumberToString (Wire.feels_like current) +:+ "°C";
     condition_text := Wire.condition current;
     wind_text := NumberToString (Wire.wind_speed current) +:+ " m/s";
     humidity_text := JS.Number_toString (Wire.humidity current) +:+ "%";
     visibility_text := visibility_display current;
     pressure_text := JS.Number_toString (Wire.pressure current) +:+ " hPa" |}.

Definition render_forecast_row (item : Wire.ForecastPoint) : ForecastRow :=
  {| row_time := Wire.fc_time item;
     row_temperature := NumberToString (Wire.fc_temperature item) +:+ "°C";
     row_wind := NumberToString (Wire.fc_wind_speed item) +:+ " m/s" |}.

(** [const WeatherCard = ({ weather }) => ...]; [None] is [return null]. *)
Definition WeatherCard (weather : option Wire.Weather) : option View :=
  match weather with
  | None => None
  | Some w =>
      match Wire.current w with
      | None => None
      | Some current =>
          Some {| current_view := render_current current;
                  forecast_rows :=
                    match Wire.forecast w with
                    | Some forecast =>
                        if (0 <? length forecast)%nat
                        then Some (map render_forecast_row (take 4 forecast))
                        else None
                    | None => None
                    end |}
      end
  end.

End WithPlatform.
End WeatherCard.

(** ** components/TideChart.jsx *)

Module TideChart.
Section WithPlatform.
Context `{Platform}.

Record Row : Type := {
  row_title : string;
  row_time : string;
  row_relative : string;
  row_height : string
}.

Definition formatTime (t : Z) : string := toLocaleTimeString false t.

Definition render_row (tide : Wire.TideEvent) : Row :=
  {| row_title := Wire.TideType_text (Wire.type tide) +:+ " Tide";
     row_time := formatTime (Wire.time tide);
     row_relative := Wire.relative_time tide;
     row_height := "Height: " +:+ NumberToString (Wire.height tide) +:+ "m" |}.

(** [const TideChart = ({ tideData }) => ...] on the [next_tides] array. *)
Definition TideChart (tideData : list Wire.TideEvent) : option (list Row) :=
  if (length tideData =? 0)%nat then None
  else Some (map render_row (take 6 tideData)).

End WithPlatform.
End TideChart.

(** ** components/LocationSettings.jsx: the backend status panel *)

Module LocationSettings.

(** The rows shown under "Backend Status", each a label and the value read
    from the [backendStatus] prop; absent when the prop is null.
    [services?.x] on a missing [services] renders nothing. *)
Definition backend_status_rows (backendStatus : option Wire.Health)
  : option (list (string * string)) :=
  match backendStatus with
  | None => None
  | Some h =>
      Some [ ("Status:", Wire.status h);
             ("Cache entries:", JS.Number_toString (Wire.cache_entries h));
             ("Tides API:",
               match Wire.services h with
               | Some sv => Wire.tides_api sv
               | None => ""
               end);
             ("Weather API:",
               match Wire.services h with
               | Some sv => Wire.weather_api sv
               | None => ""
               end) ]
  end.

End LocationSettings.

(** ** App.js *)

Module App.

Inductive NotificationType : Type := Info | Success | Warning | Error.

Record Notification : Type := {
  notif_id : nat;
  message : string;
  ntype : NotificationType
}.

(** The values of [apiHealth]: 'unknown', 'healthy', 'error', 'offline'. *)
Inductive ApiHealth : Type := Unknown | Healthy | Issues | Offline.

(** The component state of [App] ([useState] cells). [location] holds
    whatever [loadStoredLocation] or geolocation produced. *)
Record AppState : Type := {
  location : JS.value;
  tideData : option Wire.TideWeatherBundle;
  loading : bool;
  error : option string;
  lastUpdated : option Z;
  showSettings : bool;
  showMap : bool;
  autoRefresh : bool;
  refreshInterval : Z;
  backendStatus : option Wire.Health;
  apiHealth : ApiHealth;
  notifications : list Notification
}.

Inductive TimerAction : Type :=
| RemoveNotification (n : nat)
| InitializeApp.

(** What a handler can read and change: the component state, the
    browser's [localStorage], the timers scheduled with [setTimeout]
    (delay and callback), and the supply of notification ids (standing for
    [Date.now() + Math.random()]). *)
Record World : Type := {
  state : AppState;
  localStorage : gmap string string;
  timers : list (Z * TimerAction);
  next_id : nat
}.

Definition with_state (f : AppState -> AppState) (w : World) : World :=
  {| state := f (state w); localStorage := localStorage w;
     timers := timers w; next_id := next_id w |}.

Definition setLocation (v : JS.value) (s : AppState) : AppState :=
  {| location := v; tideData := tideData s; loading := loading s;
     error := error s; lastUpdated := lastUpdated s;
     showSettings := showSettings s; showMap := showMap s;
     autoRefresh := autoRefresh s; refreshInterval := refreshInterval s;
     backendStatus := backendStatus s; apiHealth := apiHealth s;
     notifications := notifications s |}.

Definition setTideData (v : option Wire.TideWeatherBundle) (s : AppState)
  : AppState :=
  {| location := location s; tideData := v; loading := loading s;
     error := error s; lastUpdated := lastUpdated s;
     showSettings := showSettings s; showMap := showMap s;
     autoRefresh := autoRefresh s; refreshInterval := refreshInterval s;
     backendStatus := backendStatus s; apiHealth := apiHealth s;
     notifications := notifications s |}.

Definition setError (v : option string) (s : AppState) : AppState :=
  {| location := location s; tideData := tideData s; loading := loading s;
     error := v; lastUpdated := lastUpdated s;
     showSettings := showSettings s; showMap := showMap s;
     autoRefresh := autoRefresh s; refreshInterval := refreshInterval s;
     backendStatus := backendStatus s; apiHealth := apiHealth s;
     notifications := notifications s |}.

Definition setAutoRefresh (v : bool) (s : AppState) : AppState :=
  {| location := location s; tideData := tideData s; loading := loading s;
     error := error s; lastUpdated := lastUpdated s;
     showSettings := showSettings s; showMap := showMap s;
     autoRefresh := v; refreshInterval := refreshInterval s;
     backendStatus := backendStatus s; apiHealth := apiHealth s;
     notifications := notifications s |}.

Definition setRefreshInterval (v : Z) (s : AppState) : AppState :=
  {| location := location s; tideData := tideData s; loading := loading s;
     error := error s; lastUpdated := lastUpdated s;
     showSettings := showSettings s; showMap := showMap s;
     autoRefresh := autoRefresh s; refreshInterval := v;
     backendStatus := backendStatus s; apiHealth := apiHealth s;
     notifications := notifications s |}.

Definition setBackendStatus (v : option Wire.Health) (s : AppState)
  : AppState :=
  {| location := location s; tideData := tideData s; loading := loading s;
     error := error s; lastUpdated := lastUpdated s;
     showSettings := showSettings s; showMap := showMap s;
     autoRefresh := autoRefresh s; refreshInterval := refreshInterval s;
     backendStatus := v; apiHealth := apiHealth s;
     notifications := notifications s |}.

Definition setApiHealth (v : ApiHealth) (s : AppState) : AppState :=
  {| location := location s; tideData := tideData s; loading := loading s;
     error := error s; lastUpdated := lastUpdated s;
     showSettings := showSettings s; showMap := showMap s;
     autoRefresh := autoRefresh s; refreshInterval := refreshInterval s;
     backendStatus := backendStatus s; apiHealth := v;
     notifications := notifications s |}.

Definition setNotifications (f : list Notification -> list Notification)
  (s : AppState) : AppState :=
  {| location := location s; tideData := tideData s; loading := loading s;
     error := error s; lastUpdated := lastUpdated s;
     showSettings := showSettings s; showMap := showMap s;
     autoRefresh := autoRefresh s; refreshInterval := refreshInterval s;
     backendStatus := backendStatus s; apiHealth := apiHealth s;
     notifications := f (notifications s) |}.

(** [setTimeout(callback, delay)] *)
Definition setTimeout (action : TimerAction) (delay : Z) (w : World) : World :=
  {| state := state w; localStorage := localStorage w;
     timers := timers w ++ [(delay, action)]; next_id := next_id w |}.

(** [localStorage.clear()] *)
Definition localStorage_clear (w : World) : World :=
  {| state := state w; localStorage := ∅;
     timers := timers w; next_id := next_id w |}.

(** [addNotification(message, type = 'info', duration = 3000)] *)
Definition addNotification (msg : string) (type : NotificationType)
  (duration : Z) (w : World) : World :=
  let n := {| notif_id := next_id w; message := msg; ntype := type |} in
  let w1 :=
    {| state := setNotifications (fun prev => prev ++ [n]) (state w);
       localStorage := localStorage w;
       timers := timers w;
       next_id := S (next_id w) |} in
  if 0 <? duration then setTimeout (RemoveNotification (notif_id n)) duration w1
  else w1.

Definition DEFAULT_DURATION : Z := 3000.

(** [removeNotification(id)] *)
Definition removeNotification (n : nat) (w : World) : World :=
  with_state
    (setNotifications (filter (fun notif => negb (Nat.eqb (notif_id notif) n)))) w.

(** *** Handlers that can throw: state passing with a completion *)

Definition M (A : Type) : Type := World -> JS.completion A * World.

Definition ret {A : Type} (a : A) : M A := fun w => (JS.Normal a, w).

Definition throw {A : Type} (e : JS.exn) : M A := fun w => (JS.Throw e, w).

Definition bind {A B : Type} (m : M A) (k : A -> M B) : M B :=
  fun w =>
    match m w with
    | (JS.Normal a, w') => k a w'
    | (JS.Throw e, w') => (JS.Throw e, w')
    end.

(** A statement run for its effect on the world. *)
Definition exec (f : World -> World) : M unit := fun w => (JS.Normal tt, f w).

(** An expression that completes without touching the world. *)
Definition lift {A : Type} (c : JS.completion A) : M A := fun w => (c, w).

(** [try { body } catch (error) { handler }] *)
Definition try_catch {A : Type} (body : M A) (handler : JS.exn -> M A) : M A :=
  fun w =>
    match body w with
    | (JS.Normal a, w') => (JS.Normal a, w')
    | (JS.Throw e, w') => handler e w'
    end.

Notation "x <- m ;; k" := (bind m (fun x => k))
  (at level 100, m at next level, right associativity).
Notation "m ;;; k" := (bind m (fun _ => k))
  (at level 100, right associativity).

Definition MS_PER_HOUR : Z := 1000 * 60 * 60.
Definition MS_PER_MINUTE : Z := 1000 * 60.

(** [getTimeUntilTide(tideTime)], with the clock reading [new Date()] as
    the argument [now].  A [Date] is represented by its time value in
    milliseconds; [None] is the Invalid Date, whose time value is NaN:
    the comparison [diff < 0] is then false, both [Math.floor] results are
    NaN, and [hours === 0] is false. *)
Definition getTimeUntilTide (now : Z) (tide : option Z) : string :=
  match tide with
  | None => "NaNh NaNm"
  | Some tide =>
      let diff := tide - now in
      if diff <? 0 then "Past"
      else
        let hours := JS.floor_div diff MS_PER_HOUR in
        let minutes :=
          JS.floor_div (JS.remainder diff MS_PER_HOUR) MS_PER_MINUTE in
        if hours =? 0 then JS.Number_toString minutes +:+ "m"
        else JS.Number_toString hours +:+ "h "
             +:+ JS.Number_toString minutes +:+ "m"
  end.

(** *** Responses and caught values *)

Record HttpResponse : Type := {
  ok : bool;
  status : Z
}.

(** A caught value: its [message] property (absent on a value that has
    none) and the [response] that [fetchTideData] attaches. *)
Record Thrown : Type := {
  thrown_message : option string;
  thrown_response : option HttpResponse
}.

(** How [await fetch(url)] followed by [await response.json()] can end:
    the request fails, or a response arrives whose body parses or not. *)
Inductive FetchOutcome (A : Type) : Type :=
| NetworkFailure
| Response (r : HttpResponse) (json : option A).
Arguments NetworkFailure {A}.
Arguments Response {A} r json.

Section WithPlatform.
Context `{Platform}.

(** *** Error reporting *)

Definition INVALID_COORDINATES : string :=
  "Invalid location coordinates provided. Please check your location settings.".
Definition SERVER_ERROR : string :=
  "Server error occurred. This might be due to missing API keys or service unavailability.".
Definition ENDPOINT_NOT_FOUND : string :=
  "API endpoint not found. Please check if the backend server is running.".
Definition UNEXPECTED_ERROR : string := "An unexpected error occurred".

(** [response?.status === code] *)
Definition status_is (response : option HttpResponse) (code : Z) : bool :=
  match response with
  | Some r => status r =? code
  | None => false
  end.

(** [error.message || 'An unexpected error occurred'] *)
Definition message_or_default (err : Thrown) : string :=
  match thrown_message err with
  | Some m => if JS.ToBoolean (JS.VStr m) then m else UNEXPECTED_ERROR
  | None => UNEXPECTED_ERROR
  end.

(** The text the branches of [handleAPIError] pass to [setError]. *)
Definition category_message (err : Thrown) (response : option HttpResponse)
  : string :=
  if status_is response 422 then INVALID_COORDINATES
  else if status_is response 500 then SERVER_ERROR
  else if status_is response 404 then ENDPOINT_NOT_FOUND
  else message_or_default err.

(** [handleAPIError(error, response)] *)
Definition handleAPIError (err : Thrown) (response : option HttpResponse)
  (w : World) : World :=
  if status_is response 422 then
    with_state (setError (Some INVALID_COORDINATES)) w
  else if status_is response 500 then
    with_state (setError (Some SERVER_ERROR)) w
  else if status_is response 404 then
    with_state (setError (Some ENDPOINT_NOT_FOUND)) w
  else
    with_state (setError (Some (message_or_default err))) w.

(** *** Backend health *)

(** [checkBackendHealth()], given how the request to [/health] ends. *)
Definition checkBackendHealth (outcome : FetchOutcome Wire.Health)
  (w : World) : World :=
  let offline w :=
    addNotification "Backend is offline or unreachable" Error
      DEFAULT_DURATION (with_state (setApiHealth Offline) w) in
  match outcome with
  | NetworkFailure => offline w
  | Response r json =>
      if ok r then
        match json with
        | Some health =>
            addNotification "Backend health check successful" Success 2000
              (with_state (setApiHealth Healthy)
                 (with_state (setBackendStatus (Some health)) w))
        | None => offline w
        end
      else
        addNotification "Backend health check returned errors" Warning
          DEFAULT_DURATION (with_state (setApiHealth Issues) w)
  end.

(** *** Local storage *)

Definition LOCATION_KEY : string := "tideApp_location".

(** The [try] block of [loadStoredLocation]: [Some v] when it executes
    [return v], [None] when control runs off its end. *)
Definition loadStoredLocation_try (now : Z) : M (option JS.value) :=
  fun w =>
    match localStorage w !! LOCATION_KEY with
    | None => ret None w
    | Some stored =>
        if JS.ToBoolean (JS.VStr stored) then
          (parsed <- (match JSON_parse stored with
                      | Some v => ret v
                      | None => throw JS.SyntaxError
                      end) ;;
           timestamp <- lift (JS.Get parsed "timestamp") ;;
           let age :=
             JS.sub (Some (inject_Z now)) (JSCoercions.ToNumber timestamp) in
           if JS.lt age (Some (inject_Z 3600000)) then
             (exec (addNotification "Using stored location" Info 2000) ;;;
              coords <- lift (JS.Get parsed "coords") ;;
              ret (Some coords))
           else
             (exec (addNotification
                      "Stored location expired, getting fresh location"
                      Info 2000) ;;;
              ret None)) w
        else ret None w
    end.

(** [loadStoredLocation()], with [Date.now()] as [now]. *)
Definition loadStoredLocation (now : Z) : M JS.value :=
  returned <-
    try_catch (loadStoredLocation_try now)
      (fun _ =>
         exec (addNotification "Failed to load stored location" Warning
                 DEFAULT_DURATION) ;;;
         ret None) ;;
  match returned with
  | Some v => ret v
  | None => ret JS.VNull
  end.

(** [clearAllLocalStorage()], with the answer of [window.confirm] as
    [confirmClear].  Nothing in the [try] block throws. *)
Definition clearAllLocalStorage (confirmClear : bool) (w : World) : World :=
  if confirmClear then
    let storageSize :=
      Z.of_nat (JSText.length (JSON_stringify_storage (localStorage w))) in
    let w := localStorage_clear w in
    let w :=
      addNotification
        ("Local storage cleared successfully. Freed "
         +:+ JS.toFixed 1 (inject_Z storageSize / inject_Z 1024)%Q
         +:+ " KB of space")
        Success 5000 w in
    let w := with_state (setLocation JS.VNull) w in
    let w := with_state (setTideData None) w in
    let w := with_state (setAutoRefresh true) w in
    let w := with_state (setRefreshInterval (30 * 60 * 1000)) w in
    setTimeout InitializeApp 1000 w
  else w.

(** *** What [App] renders for a bundle *)

Record TideCard : Type := {
  heading : string;
  time_text : string;
  relative_text : string;
  height_text : string
}.

Record SummaryView : Type := {
  high_tides_text : string;
  low_tides_text : string;
  max_height_text : string;
  min_height_text : string
}.

Record MainView : Type := {
  title : string;
  coordinates : string;
  tide_cards : list TideCard;
  summary : option SummaryView;
  chart : option (list TideChart.Row);
  weather_card : option WeatherCard.View
}.

Definition formatTime (t : Z) : string := toLocaleTimeString true t.

(** The body of [tideData.next_tides.slice(0, 2).map((tide, index) => ...)] *)
Definition render_tide_card (index : nat) (tide : Wire.TideEvent) : TideCard :=
  {| heading :=
       (if Nat.eqb index 0 then "Next" else "Following") +:+ " "
       +:+ Wire.TideType_text (Wire.type tide) +:+ " Tide";
     time_text := formatTime (Wire.time tide);
     relative_text := Wire.relative_time tide;
     height_text := "Height: " +:+ NumberToString (Wire.height tide) +:+ "m" |}.

Definition next_tide_cards (next_tides : list Wire.TideEvent) : list TideCard :=
  imap render_tide_card (take 2 next_tides).

Definition render_summary (d : Wire.DailyTideSummary) : SummaryView :=
  {| high_tides_text := JS.Number_toString (Wire.high_tides_count d);
     low_tides_text := JS.Number_toString (Wire.low_tides_count d);
     max_height_text := NumberToString (Wire.max_height d) +:+ "m";
     min_height_text := NumberToString (Wire.min_height d) +:+ "m" |}.

(** [{tideData && ( ... )}]: the location card with the tide pair and the
    daily summary, the tide timeline, and the weather card.  The
    recommendation, marine-condition and quick-action panels are not part
    of this view. *)
Definition render_main (data : option Wire.TideWeatherBundle) : option MainView :=
  match data with
  | None => None
  | Some d =>
      Some {| title :=
                match Wire.location_name d with
                | Some name =>
                    if JS.ToBoolean (JS.VStr name) then name
                    else "Current Location"
                | None => "Current Location"
                end;
              coordinates :=
                JS.toFixed 4 (Wire.lat d) +:+ "°, "
                +:+ JS.toFixed 4 (Wire.lon d) +:+ "°";
              tide_cards := next_tide_cards (Wire.next_tides d);
              summary := option_map render_summary (Wire.daily_summary d);
              chart := TideChart.TideChart (Wire.next_tides d);
              weather_card := WeatherCard.WeatherCard (Wire.weather d) |}
  end.

End WithPlatform.
End App.

(** ** The aggregation engine (backend/main.py, not among the sources) *)

Module Backend.

(** Modelled from the spec: the Coordinate of section 3; the engine's code
    is missing from the sources. *)
Record Coordinate : Type := {
  lat : Q;
  lon : Q
}.

(** Modelled from the spec: the range check of section 3 ([lat] in
    [-90,90], [lon] in [-180,180]); the engine's code is missing. *)
Definition valid_coordinate (c : Coordinate) : bool :=
  Qle_bool (-90) (lat c) && Qle_bool (lat c) 90
  && Qle_bool (-180) (lon c) && Qle_bool (lon c) 180.

(** Modelled from the spec: the error taxonomy of section 7. *)
Inductive EngineError : Type :=
| InvalidInput
| MisconfiguredService
| UpstreamUnavailable
| UpstreamRejected.

Inductive Result (A : Type) : Type :=
| Returned (a : A)
| Failed (e : EngineError).
Arguments Returned {A} a.
Arguments Failed {A} e.

(** Modelled from the spec: one entry of the raw extrema list of section
    4.2, with the provider's own classification when it gives one. *)
Record RawExtremum : Type := {
  raw_time : Z;
  raw_height : Q;
  raw_type : option Wire.TideType
}.

Record Extremum : Type := {
  ex_time : Z;
  ex_type : Wire.TideType;
  ex_height : Q
}.

Section TideDeriver.

(** How an extremum is classified from its height and its neighbours'
    (a local maximum is High, a local minimum Low); the spec leaves the
    ends of the list and ties to the implementation. *)
Variable derive_type : option Q -> Q -> option Q -> Wire.TideType.

(** Modelled from the spec: step 1 of section 4.2. The provider's
    classification is used when present and derived only when absent. *)
Fixpoint classify (prev : option Q) (raw : list RawExtremum) : list Extremum :=
  match raw with
  | [] => []
  | e :: rest =>
      {| ex_time := raw_time e;
         ex_type :=
           match raw_type e with
           | Some t => t
           | None =>
               derive_type prev (raw_height e)
                 (option_map raw_height (head rest))
           end;
         ex_height := raw_height e |}
      :: classify (Some (raw_height e)) rest
  end.

(** Modelled from the spec: step 2 of section 4.2, the events with
    [time >= now]. *)
Definition upcoming (now : Z) (events : list Extremum) : list Extremum :=
  List.filter (fun e => now <=? ex_time e) events.

(** Modelled from the spec: step 3 of section 4.2, the duration-until
    string of a kept event. *)
Definition annotate (now : Z) (e : Extremum) : Wire.TideEvent :=
  {| Wire.time := ex_time e;
     Wire.type := ex_type e;
     Wire.height := ex_height e;
     Wire.relative_time := App.getTimeUntilTide now (Some (ex_time e)) |}.

(** Modelled from the spec: the Tide Deriver of section 4.2, steps 1 to 3,
    from the raw ordered extrema list to [next_tides]. *)
Definition derive_next_tides (now : Z) (raw : list RawExtremum)
  : list Wire.TideEvent :=
  map (annotate now) (upcoming now (classify None raw)).

(** The tide provider behind [fetch_tides(coord, window)], and the two
    window spans the deriver asks for. *)
Variable fetch_tides : Coordinate -> Z -> Result (list RawExtremum).
Variable window : Z.
Variable extended_window : Z.

(** Modelled from the spec: [next_tides] of a bundle that is built afresh
    at time [now] (on a cache miss; what a request is answered with is
    [Aggregation.get_or_build] below). An invalid coordinate fails with
    InvalidInput before any upstream call (section 8); with fewer than 2
    future events the window is extended by re-querying once, and what that
    yields is returned even if still short (section 4.2); an upstream
    failure propagates.  The list is taken in the provider's order: the
    steps of section 4.2 have no sorting step. *)
Definition next_tides_for (now : Z) (coord : Coordinate)
  : Result (list Wire.TideEvent) :=
  if valid_coordinate coord then
    match fetch_tides coord window with
    | Failed e => Failed e
    | Returned raw =>
        let tides := derive_next_tides now raw in
        if (length tides <? 2)%nat then
          match fetch_tides coord extended_window with
          | Failed e => Failed e
          | Returned raw' => Returned (derive_next_tides now raw')
          end
        else Returned tides
    end
  else Failed InvalidInput.

End TideDeriver.

(** *** Orderings by time, to state that a list is non-decreasing *)

Definition raw_in_order (a b : RawExtremum) : Prop :=
  raw_time a <= raw_time b.

Definition extrema_in_order (a b : Extremum) : Prop :=
  ex_time a <= ex_time b.

Definition events_in_order (a b : Wire.TideEvent) : Prop :=
  Wire.time a <= Wire.time b.

(** *** Marine Condition Scorer: the overall rating *)

(** Modelled from the spec: the two aggregates section 4.3 allows, one of
    which an engine fixes. *)
Inductive AggregatePolicy : Type := MeanPolicy | MinimumPolicy.

Definition scores (suitability : list (string * Q)) : list Q :=
  map snd suitability.

Fixpoint total (l : list Q) : Q :=
  match l with
  | [] => 0%Q
  | x :: rest => (x + total rest)%Q
  end.

Fixpoint least (x : Q) (l : list Q) : Q :=
  match l with
  | [] => x
  | y :: rest => if Qle_bool y (least x rest) then y else least x rest
  end.

(** Modelled from the spec: "the mean (or the minimum ...) of all
    suitability scores" of section 4.3; there is none for an empty map. *)
Definition aggregate (policy : AggregatePolicy) (suitability : list (string * Q))
  : option Q :=
  match scores suitability with
  | [] => None
  | x :: rest =>
      Some match policy with
           | MeanPolicy =>
               (total (x :: rest) / inject_Z (Z.of_nat (length (x :: rest))))%Q
           | MinimumPolicy => least x rest
           end
  end.

(** Modelled from the spec: the buckets of section 4.3,
    ">=8 Excellent, >=6 Good, >=4 Fair, else Poor". *)
Definition bucket (a : Q) : Wire.Rating :=
  if Qle_bool 8 a then Wire.Excellent
  else if Qle_bool 6 a then Wire.Good
  else if Qle_bool 4 a then Wire.Fair
  else Wire.Poor.

(** Modelled from the spec: [overall_rating] as a function of the
    suitability map alone (sections 4.3 and 8). *)
Definition overall_rating (policy : AggregatePolicy)
  (suitability : list (string * Q)) : option Wire.Rating :=
  option_map bucket (aggregate policy suitability).

(** *** Health/Status Reporter *)

Record CacheEntry : Type := {
  entry_value : Wire.TideWeatherBundle;
  created_at : Z;
  expires_at : Z
}.

(** Modelled from the spec: what the reporter of section 4.6 reads: the
    credentials of the two upstream services, the outcome of the last
    probe, and the cache keyed by rounded coordinate. *)
Record Engine : Type := {
  tides_credentials : option string;
  weather_credentials : option string;
  last_probe_succeeded : bool;
  cache : gmap (Z * Z) CacheEntry
}.

(** Modelled from the spec: the per-service configuration state of
    section 4.6, [configured] or [missing_credentials]. *)
Definition service_state (credentials : option string) : string :=
  match credentials with
  | Some _ => "configured"
  | None => "missing_credentials"
  end.

(** Modelled from the spec: the health operation of sections 4.6 and 6,
    [{status, cache_entries, services: {tides_api, weather_api}}];
    [healthy] if both services are configured and the last probe
    succeeded, else [degraded]. *)
Definition health (e : Engine) : Wire.Health :=
  {| Wire.status :=
       if bool_decide (is_Some (tides_credentials e))
          && bool_decide (is_Some (weather_credentials e))
          && last_probe_succeeded e
       then "healthy" else "degraded";
     Wire.cache_entries := Z.of_nat (size (cache e));
     Wire.services :=
       Some {| Wire.tides_api := service_state (tides_credentials e);
               Wire.weather_api := service_state (weather_credentials e) |} |}.

End Backend.

(** ** The aggregation cache (backend/main.py, not among the sources) *)

Module Aggregation.

(** Modelled from the spec: the cache key of section 3, the coordinate
    rounded to 3 decimal places, held as the pair of its thousandths. *)
Definition round_to_thousandths (x : Q) : Z := Qfloor (x * 1000 + (1 # 2)).

(** Modelled from the spec: the identity key of a coordinate in the cache
    (section 3). *)
Definition cache_key (c : Backend.Coordinate) : Z * Z :=
  (round_to_thousandths (Backend.lat c), round_to_thousandths (Backend.lon c)).

(** Modelled from the spec: what a request is answered with, the bundle
    and whether it is a stale one, "annotated as degraded" (section 4.4). *)
Record Served : Type := {
  bundle : Wire.TideWeatherBundle;
  degraded : bool
}.

(** Modelled from the spec: the two operations on the cache of section 6,
    the read for a coordinate, at the time it is made, and the clear. *)
Inductive Request : Type :=
| Query (now : Z) (coord : Backend.Coordinate)
| Clear.

Section Engine.

Variable derive_type : option Q -> Q -> option Q -> Wire.TideType.

(** The tide provider as it answers at a given time, and the two window
    spans of the deriver. *)
Variable fetch_tides :
  Z -> Backend.Coordinate -> Z -> Backend.Result (list Backend.RawExtremum).
Variable window : Z.
Variable extended_window : Z.

(** The time an entry lives (15 to 30 minutes are recommended). *)
Variable ttl : Z.

(** The other parts of a bundle built at a time for a coordinate: location
    echo, daily summary, weather, marine conditions and recommendations
    (sections 4.1 to 4.5). *)
Variable other_parts : Z -> Backend.Coordinate -> Wire.TideWeatherBundle.

(** Modelled from the spec: the composed bundle of section 2, the derived
    tides put together with the other parts. *)
Definition with_next_tides (tides : list Wire.TideEvent)
  (b : Wire.TideWeatherBundle) : Wire.TideWeatherBundle :=
  {| Wire.location_name := Wire.location_name b;
     Wire.lat := Wire.lat b;
     Wire.lon := Wire.lon b;
     Wire.next_tides := tides;
     Wire.daily_summary := Wire.daily_summary b;
     Wire.weather := Wire.weather b;
     Wire.marine_conditions := Wire.marine_conditions b;
     Wire.recommendations := Wire.recommendations b |}.

(** Modelled from the spec: the build of a bundle at time [now], which
    fails when the tide part fails. *)
Definition build (now : Z) (coord : Backend.Coordinate)
  : Backend.Result Wire.TideWeatherBundle :=
  match Backend.next_tides_for derive_type (fetch_tides now) window
          extended_window now coord with
  | Backend.Returned tides =>
      Backend.Returned (with_next_tides tides (other_parts now coord))
  | Backend.Failed e => Backend.Failed e
  end.

(** Modelled from the spec: what [get_or_build] does without a fresh entry
    (section 4.4): it builds, stores the bundle with a fresh time to live
    and returns it; when the build fails with UpstreamUnavailable and an
    expired entry is present, that stale entry is returned, marked
    degraded, and the cache is left as it is. *)
Definition rebuild (now : Z) (coord : Backend.Coordinate)
  (stale : option Backend.CacheEntry) (cache : gmap (Z * Z) Backend.CacheEntry)
  : Backend.Result Served * gmap (Z * Z) Backend.CacheEntry :=
  match build now coord with
  | Backend.Returned b =>
      (Backend.Returned {| bundle := b; degraded := false |},
       <[cache_key coord :=
           {| Backend.entry_value := b;
              Backend.created_at := now;
              Backend.expires_at := now + ttl |}]> cache)
  | Backend.Failed Backend.UpstreamUnavailable =>
      match stale with
      | Some entry =>
          (Backend.Returned {| bundle := Backend.entry_value entry;
                               degraded := true |}, cache)
      | None => (Backend.Failed Backend.UpstreamUnavailable, cache)
      end
  | Backend.Failed e => (Backend.Failed e, cache)
  end.

(** Modelled from the spec: [get_or_build(coord)] of section 4.4 at time
    [now], as the answer and the cache afterwards.  An entry for the
    rounded coordinate that has not expired is returned as it is (a hit
    within TTL); single-flight concerns concurrent requests and is not
    part of this sequential model. *)
Definition get_or_build (now : Z) (coord : Backend.Coordinate)
  (cache : gmap (Z * Z) Backend.CacheEntry)
  : Backend.Result Served * gmap (Z * Z) Backend.CacheEntry :=
  if Backend.valid_coordinate coord then
    match cache !! cache_key coord with
    | Some entry =>
        if now <? Backend.expires_at entry then
          (Backend.Returned {| bundle := Backend.entry_value entry;
                               degraded := false |}, cache)
        else rebuild now coord (Some entry) cache
    | None => rebuild now coord None cache
    end
  else (Backend.Failed Backend.InvalidInput, cache).

(** Modelled from the spec: [clear()] evicts all entries. *)
Definition clear (cache : gmap (Z * Z) Backend.CacheEntry)
  : gmap (Z * Z) Backend.CacheEntry := ∅.

(** Modelled from the spec: what a request leaves in the cache. *)
Definition serve (cache : gmap (Z * Z) Backend.CacheEntry) (r : Request)
  : gmap (Z * Z) Backend.CacheEntry :=
  match r with
  | Query now coord => snd (get_or_build now coord cache)
  | Clear => clear cache
  end.

(** Modelled from the spec: the cache of an engine that started with an
    empty cache (section 9) and served the requests, in order. *)
Definition cache_after (requests : list Request)
  : gmap (Z * Z) Backend.CacheEntry :=
  fold_left serve requests ∅.

(** What holds of every entry the engine stores: its tides are in order,
    none is before the time the entry was made, and it expires one time
    to live later. *)
Definition entry_built_in_order (entry : Backend.CacheEntry) : Prop :=
  Sorted Backend.events_in_order
    (Wire.next_tides (Backend.entry_value entry)) /\
  Forall (fun e => Backend.created_at entry <= Wire.time e)
    (Wire.next_tides (Backend.entry_value entry)) /\
  Backend.expires_at entry = Backend.created_at entry + ttl.

End Engine.

End Aggregation.

(** ** Data for worked examples *)

Module Fixture.

Definition dq : string := String (ascii_of_nat 34) "".

Definition quoted (s : string) : string := dq +:+ s +:+ dq.

(** The document [saveLocation] writes for New York at time 1000:
    an object with [coords] (lat 40.7128, lon -74.006) and [timestamp]. *)
Definition stored_document : string :=
  "{" +:+ quoted "coords" +:+ ":{" +:+ quoted "lat" +:+ ":40.7128,"
  +:+ quoted "lon" +:+ ":-74.006}," +:+ quoted "timestamp" +:+ ":1000}".

Definition stored_coords : JS.value :=
  JS.VObj [("lat", JS.VNum (407128 # 10000)); ("lon", JS.VNum (-74006 # 1000))].

Definition stored_value : JS.value :=
  JS.VObj [("coords", stored_coords); ("timestamp", JS.VNum 1000)].

(** A browser for the examples: each function agrees with a real one on
    the arguments the examples give it. *)
Definition browser : Platform :=
  {| JSON_parse s :=
       if String.eqb s stored_document then Some stored_value
       else if String.eqb s "null" then Some JS.VNull
       else None;
     StringToNumber s := if String.eqb s "" then Some 0%Q else None;
     ObjectToString _ := "[object Object]";
     NumberToString q :=
       if (Qden q =? 1)%positive then JS.Number_toString (Qnum q)
       else JS.toFixed 1 q;
     toLocaleTimeString _ t := JS.Number_toString t;
     JSON_stringify_storage m :=
       "{"
       +:+ fold_right
             (fun kv acc => quoted (fst kv) +:+ ":" +:+ quoted (snd kv) +:+ acc)
             "" (map_to_list m)
       +:+ "}" |}.

Definition initial_state : App.AppState :=
  {| App.location := JS.VNull;
     App.tideData := None;
     App.loading := true;
     App.error := None;
     App.lastUpdated := None;
     App.showSettings := false;
     App.showMap := false;
     App.autoRefresh := true;
     App.refreshInterval := 30 * 60 * 1000;
     App.backendStatus := None;
     App.apiHealth := App.Unknown;
     App.notifications := [] |}.

(** A 403 response, and a caught error whose message is the empty text
    (as [new Error()] has) with that response attached. *)
Definition forbidden : App.HttpResponse :=
  {| App.ok := false; App.status := 403 |}.

Definition silent_failure : App.Thrown :=
  {| App.thrown_message := Some ""; App.thrown_response := Some forbidden |}.

(** A world in which a location was saved at time 1000. *)
Definition saved_world : App.World :=
  {| App.state := initial_state;
     App.localStorage := {[ App.LOCATION_KEY := stored_document ]};
     App.timers := [];
     App.next_id := 0 |}.

(** The scenario of spec section 8 with the query at time [T = 0]: a High
    tide of 1.8 m at T+1h and a Low tide of 0.2 m at T+7h. *)
Definition scenario_raw : list Backend.RawExtremum :=
  [ {| Backend.raw_time := 3600000; Backend.raw_height := 18 # 10;
       Backend.raw_type := Some Wire.High |};
    {| Backend.raw_time := 25200000; Backend.raw_height := 2 # 10;
       Backend.raw_type := Some Wire.Low |} ].

Definition new_york : Backend.Coordinate :=
  {| Backend.lat := 407128 # 10000; Backend.lon := -740060 # 10000 |}.

Definition scenario_provider (c : Backend.Coordinate) (window : Z)
  : Backend.Result (list Backend.RawExtremum) :=
  Backend.Returned scenario_raw.

Definition higher_is_high (prev : option Q) (h : Q) (next : option Q)
  : Wire.TideType :=
  match prev with
  | Some p => if Qle_bool p h then Wire.High else Wire.Low
  | None =>
      match next with
      | Some n => if Qle_bool n h then Wire.High else Wire.Low
      | None => Wire.High
      end
  end.

Definition scenario_tides : list Wire.TideEvent :=
  Backend.derive_next_tides higher_is_high 0 scenario_raw.

(** A bundle with tide data and no weather (partial success). *)
Definition tide_only_bundle : Wire.TideWeatherBundle :=
  {| Wire.location_name := None;
     Wire.lat := 407128 # 10000;
     Wire.lon := -740060 # 10000;
     Wire.next_tides := scenario_tides;
     Wire.daily_summary :=
       Some {| Wire.high_tides_count := 1; Wire.low_tides_count := 1;
               Wire.max_height := 18 # 10; Wire.min_height := 2 # 10 |};
     Wire.weather := None;
     Wire.marine_conditions := None;
     Wire.recommendations := None |}.

End Fixture.

(** ** App.js, continued: saving locations, fetching, and the handlers
    built from them *)

Module AppFlow.

Definition setLoading (v : bool) (s : App.AppState) : App.AppState :=
  {| App.location := App.location s; App.tideData := App.tideData s;
     App.loading := v; App.error := App.error s;
     App.lastUpdated := App.lastUpdated s;
     App.showSettings := App.showSettings s; App.showMap := App.showMap s;
     App.autoRefresh := App.autoRefresh s;
     App.refreshInterval := App.refreshInterval s;
     App.backendStatus := App.backendStatus s;
     App.apiHealth := App.apiHealth s;
     App.notifications := App.notifications s |}.

Definition setLastUpdated (v : option Z) (s : App.AppState) : App.AppState :=
  {| App.location := App.location s; App.tideData := App.tideData s;
     App.loading := App.loading s; App.error := App.error s;
     App.lastUpdated := v;
     App.showSettings := App.showSettings s; App.showMap := App.showMap s;
     App.autoRefresh := App.autoRefresh s;
     App.refreshInterval := App.refreshInterval s;
     App.backendStatus := App.backendStatus s;
     App.apiHealth := App.apiHealth s;
     App.notifications := App.notifications s |}.

(** [localStorage.setItem(key, value)] and [localStorage.removeItem(key)] *)
Definition localStorage_setItem (key value : string) (w : App.World)
  : App.World :=
  {| App.state := App.state w;
     App.localStorage := <[key := value]> (App.localStorage w);
     App.timers := App.timers w; App.next_id := App.next_id w |}.

Definition localStorage_removeItem (key : string) (w : App.World)
  : App.World :=
  {| App.state := App.state w;
     App.localStorage := delete key (App.localStorage w);
     App.timers := App.timers w; App.next_id := App.next_id w |}.

(** How an [async] function ends: its promise resolves with a value or
    rejects with the value thrown. *)
Inductive outcome (A : Type) : Type :=
| Resolved (a : A)
| RejectedWith (err : App.Thrown).
Arguments Resolved {A} a.
Arguments RejectedWith {A} err.

(** [new Error(message)]: a message and no [response] property. *)
Definition new_Error (msg : string) : App.Thrown :=
  {| App.thrown_message := Some msg; App.thrown_response := None |}.

(** What [navigator.geolocation] does with a request: the API is missing,
    a position arrives, or the error callback is called with a code. *)
Inductive GeoResult : Type :=
| Unsupported
| Position (latitude longitude accuracy : Q)
| GeoError (code : Z).

(** The [switch (error.code)] of [getCurrentLocation], whose cases are
    PERMISSION_DENIED (1), POSITION_UNAVAILABLE (2) and TIMEOUT (3). *)
Definition geolocation_message (code : Z) : string :=
  if code =? 1 then "Location access denied by user"
  else if code =? 2 then "Location information unavailable"
  else if code =? 3 then "Location request timed out"
  else "Unable to retrieve location".

(** [getCurrentLocation()] *)
Definition getCurrentLocation (geo : GeoResult) (w : App.World)
  : outcome JS.value * App.World :=
  match geo with
  | Unsupported =>
      (RejectedWith (new_Error "Geolocation is not supported by this browser"),
       w)
  | Position latitude longitude accuracy =>
      let w :=
        App.addNotification "Getting your current location..." App.Info 2000 w in
      let coords :=
        JS.VObj [ ("lat", JS.VNum latitude); ("lon", JS.VNum longitude);
                  ("accuracy", JS.VNum accuracy) ] in
      (Resolved coords,
       App.addNotification "Location obtained successfully" App.Success 2000 w)
  | GeoError code =>
      let w :=
        App.addNotification "Getting your current location..." App.Info 2000 w in
      let errorMessage := geolocation_message code in
      (RejectedWith (new_Error errorMessage),
       App.addNotification errorMessage App.Error App.DEFAULT_DURATION w)
  end.

(** [clearStoredLocation()] *)
Definition clearStoredLocation (w : App.World) : App.World :=
  App.addNotification "Stored location cleared" App.Success 2000
    (localStorage_removeItem App.LOCATION_KEY w).

(** How the request of [fetchTideData] ends. [fetch] rejects with an
    error (its message), or a response arrives: its text is what
    [response.text()] gives, its body what [response.json()] gives, a
    bundle or a rejection with an error. *)
Inductive Body : Type :=
| Parsed (data : Wire.TideWeatherBundle)
| Unreadable (message : option string).

Inductive TideResponse : Type :=
| NoResponse (message : option string)
| HttpAnswer (r : App.HttpResponse) (text : string) (json : Body).

(** How the POST of [clearAPICache] ends. *)
Inductive CacheResponse : Type :=
| CacheNoResponse (message : option string)
| CacheAnswer (r : App.HttpResponse).

Section WithPlatform.
Context `{Platform}.

(** [JSON.stringify(value)] *)
Variable JSON_stringify : JS.value -> string.

(** [`${v}`]: ToString of a value. *)
Definition ToString (v : JS.value) : string :=
  match v with
  | JS.VUndefined => "undefined"
  | JS.VNull => "null"
  | JS.VBool b => if b then "true" else "false"
  | JS.VNum q => NumberToString q
  | JS.VStr s => s
  | JS.VArr _ | JS.VObj _ => ObjectToString v
  end.

(** The inner [try] of [fetchTideData]:
    [errorJson.detail || errorText], and [errorText] when parsing or the
    property access throws. *)
Definition errorDetail (errorText : string) : JS.value :=
  match JSON_parse errorText with
  | None => JS.VStr errorText
  | Some errorJson =>
      match JS.Get errorJson "detail" with
      | JS.Throw _ => JS.VStr errorText
      | JS.Normal detail =>
          if JS.ToBoolean detail then detail else JS.VStr errorText
      end
  end.

(** The object [fetchTideData] throws for a response that is not ok. *)
Definition api_error (r : App.HttpResponse) (errorText : string) : App.Thrown :=
  {| App.thrown_message :=
       Some ("API Error: " +:+ JS.Number_toString (App.status r) +:+ " - "
             +:+ ToString (errorDetail errorText));
     App.thrown_response := Some r |}.

(** The [catch] block of [fetchTideData], which rethrows. *)
Definition fetchTideData_catch (err : App.Thrown) (w : App.World)
  : outcome Wire.TideWeatherBundle * App.World :=
  let w :=
    match App.thrown_response err with
    | Some r => App.handleAPIError err (Some r) w
    | None => w
    end in
  (RejectedWith err,
   App.addNotification "Failed to fetch tide data" App.Error
     App.DEFAULT_DURATION w).

(** [fetchTideData(lat, lon)], given how the request ends. *)
Definition fetchTideData (response : TideResponse) (w : App.World)
  : outcome Wire.TideWeatherBundle * App.World :=
  match response with
  | NoResponse message =>
      fetchTideData_catch
        {| App.thrown_message := message; App.thrown_response := None |} w
  | HttpAnswer r text json =>
      if App.ok r then
        match json with
        | Parsed data =>
            (Resolved data,
             App.addNotification "Tide data updated successfully" App.Success
               2000 w)
        | Unreadable message =>
            fetchTideData_catch
              {| App.thrown_message := message; App.thrown_response := None |}
              w
        end
      else fetchTideData_catch (api_error r text) w
  end.

(** The object [saveLocation] stores. *)
Definition locationData (coords : JS.value) (now : Z) : JS.value :=
  JS.VObj [ ("coords", coords); ("timestamp", JS.VNum (inject_Z now)) ].

(** [saveLocation(coords)], with [Date.now()] as [now]; [written] tells
    whether [localStorage.setItem] succeeds or throws (quota). *)
Definition saveLocation (written : bool) (now : Z) (coords : JS.value)
  (w : App.World) : App.World :=
  if written then
    App.addNotification "Location saved to device" App.Success 2000
      (localStorage_setItem App.LOCATION_KEY
         (JSON_stringify (locationData coords now)) w)
  else
    App.addNotification "Failed to save location" App.Warning
      App.DEFAULT_DURATION w.

(** What one run of [initializeApp] or [updateLocation] meets: the answers
    to its requests and the clock readings it takes. *)
Record Inputs : Type := {
  health_outcome : App.FetchOutcome Wire.Health;
  load_time : Z;
  geo : GeoResult;
  written : bool;
  save_time : Z;
  tide_response : TideResponse;
  updated_time : Z
}.

(** [setTideData(data); setLastUpdated(new Date())] *)
Definition show_data (data : Wire.TideWeatherBundle) (now : Z) (w : App.World)
  : App.World :=
  App.with_state (setLastUpdated (Some now))
    (App.with_state (App.setTideData (Some data)) w).

(** [handleAPIError(error, error.response)], as every [catch] calls it. *)
Definition report (err : App.Thrown) (w : App.World) : App.World :=
  App.handleAPIError err (App.thrown_response err) w.

(** The [try] block of [initializeApp] from [loadStoredLocation()] to
    [setLocation(coords)]. *)
Definition locate (i : Inputs) (w : App.World) : outcome JS.value * App.World :=
  match App.loadStoredLocation (load_time i) w with
  | (JS.Throw _, w) =>
      (RejectedWith {| App.thrown_message := None;
                       App.thrown_response := None |}, w)
  | (JS.Normal stored, w) =>
      if JS.ToBoolean stored then
        (Resolved stored, App.with_state (App.setLocation stored) w)
      else
        match getCurrentLocation (geo i) w with
        | (RejectedWith err, w) => (RejectedWith err, w)
        | (Resolved coords, w) =>
            let w := saveLocation (written i) (save_time i) coords w in
            (Resolved coords, App.with_state (App.setLocation coords) w)
        end
  end.

(** [initializeApp()] *)
Definition initializeApp (i : Inputs) (w : App.World) : App.World :=
  let w := App.with_state (setLoading true) w in
  let w := App.with_state (App.setError None) w in
  let w := App.addNotification "Initializing TideTracker Pro..." App.Info 2000 w in
  let w := App.checkBackendHealth (health_outcome i) w in
  let failed err w :=
    App.addNotification "Application initialization failed" App.Error
      App.DEFAULT_DURATION (report err w) in
  let w :=
    match locate i w with
    | (RejectedWith err, w) => failed err w
    | (Resolved coords, w) =>
        match fetchTideData (tide_response i) w with
        | (RejectedWith err, w) => failed err w
        | (Resolved data, w) =>
            App.addNotification "Application initialized successfully"
              App.Success App.DEFAULT_DURATION
              (show_data data (updated_time i) w)
        end
    end in
  App.with_state (setLoading false) w.

(** [refreshData()] *)
Definition refreshData (tide : TideResponse)
  (health : App.FetchOutcome Wire.Health) (now : Z) (w : App.World)
  : App.World :=
  if negb (JS.ToBoolean (App.location (App.state w))) then w
  else
    let w := App.with_state (App.setError None) w in
    let w := App.addNotification "Refreshing data..." App.Info 1000 w in
    match fetchTideData tide w with
    | (Resolved data, w) => App.checkBackendHealth health (show_data data now w)
    | (RejectedWith err, w) => report err w
    end.

(** [updateLocation()] *)
Definition updateLocation (i : Inputs) (w : App.World) : App.World :=
  let w := App.with_state (setLoading true) w in
  let w :=
    match getCurrentLocation (geo i) w with
    | (RejectedWith err, w) => report err w
    | (Resolved coords, w) =>
        let w := saveLocation (written i) (save_time i) coords w in
        let w := App.with_state (App.setLocation coords) w in
        match fetchTideData (tide_response i) w with
        | (RejectedWith err, w) => report err w
        | (Resolved data, w) => show_data data (updated_time i) w
        end
    end in
  App.with_state (setLoading false) w.

(** ['Error clearing API cache: ' + error.message] *)
Definition cache_error_text (message : option string) : string :=
  "Error clearing API cache: "
  +:+ match message with Some m => m | None => "undefined" end.

(** [clearAPICache()]; the refresh it awaits gets its own answers. *)
Definition clearAPICache (response : CacheResponse) (tide : TideResponse)
  (health : App.FetchOutcome Wire.Health) (now : Z) (w : App.World)
  : App.World :=
  let w := App.addNotification "Clearing API cache..." App.Info 1000 w in
  match response with
  | CacheNoResponse message =>
      App.addNotification (cache_error_text message) App.Error
        App.DEFAULT_DURATION w
  | CacheAnswer r =>
      if App.ok r then
        refreshData tide health now
          (App.addNotification "API cache cleared successfully" App.Success
             App.DEFAULT_DURATION w)
      else
        App.addNotification "Failed to clear API cache" App.Error
          App.DEFAULT_DURATION w
  end.

(** The [onClearLocation] callback given to the settings panel:
    [clearStoredLocation(); setLocation(null); setTideData(null);
    initializeApp()]. *)
Definition onClearLocation (i : Inputs) (w : App.World) : App.World :=
  let w := clearStoredLocation w in
  let w := App.with_state (App.setLocation JS.VNull) w in
  let w := App.with_state (App.setTideData None) w in
  initializeApp i w.

(** *** The values the [catch] blocks receive *)

(** What the browser rejects with ([fetch], [response.json()]) is an Error
    object, whose message is a text that is not empty. *)
Definition carries_message (message : option string) : Prop :=
  exists m, message = Some m /\ m <> "".

Definition browser_errors_carry_messages (response : TideResponse) : Prop :=
  match response with
  | NoResponse message => carries_message message
  | HttpAnswer r text (Unreadable message) =>
      App.ok r = true -> carries_message message
  | HttpAnswer r text (Parsed data) => True
  end.

(** The values [handleAPIError] is called with.  The [catch] blocks of
    [initializeApp], [refreshData] and [updateLocation] receive what
    [getCurrentLocation] or [fetchTideData] rejects with (nothing else in
    their [try] blocks throws), and the [catch] block of [fetchTideData]
    receives what it then rethrows. *)
Inductive caught : App.Thrown -> Prop :=
| caught_from_getCurrentLocation (geo : GeoResult) (w w' : App.World)
    (err : App.Thrown) :
    getCurrentLocation geo w = (RejectedWith err, w') -> caught err
| caught_from_fetchTideData (response : TideResponse) (w w' : App.World)
    (err : App.Thrown) :
    browser_errors_carry_messages response ->
    fetchTideData response w = (RejectedWith err, w') -> caught err.

(** *** [getLocalStorageInfo()] *)

Record StorageItem : Type := {
  item_key : string;
  item_size : Z
}.

Record StorageInfo : Type := {
  totalSize : Z;
  itemCount : Z;
  items : list StorageItem
}.

(** One turn of the loop: [{ key, size: (key + value).length }]. *)
Definition storage_item (entry : string * string) : StorageItem :=
  {| item_key := fst entry;
     item_size := Z.of_nat (JSText.length (fst entry +:+ snd entry)) |}.

(** [items.sort((a, b) => b.size - a.size)]: the stable sort by size,
    largest first, as an insertion sort. *)
Fixpoint insert_by_size (x : StorageItem) (l : list StorageItem)
  : list StorageItem :=
  match l with
  | [] => [x]
  | y :: rest =>
      if item_size x <? item_size y then y :: insert_by_size x rest
      else x :: y :: rest
  end.

Fixpoint sort_by_size (l : list StorageItem) : list StorageItem :=
  match l with
  | [] => []
  | x :: rest => insert_by_size x (sort_by_size rest)
  end.

(** [getLocalStorageInfo()]. The keys are visited in the order
    [localStorage.key(i)] gives them, which the browser chooses; here it is
    the order of [map_to_list]. *)
Definition getLocalStorageInfo (w : App.World) : StorageInfo :=
  let visited := map storage_item (map_to_list (App.localStorage w)) in
  {| totalSize :=
       Z.of_nat
         (JSText.length (JSON_stringify_storage (App.localStorage w)));
     itemCount := Z.of_nat (length visited);
     items := sort_by_size visited |}.

End WithPlatform.

(** The order of the sorted report: no later item is larger. *)
Definition largest_first (a b : StorageItem) : Prop :=
  item_size b <= item_size a.

(** A world without its notifications, timers and id supply: what is left
    is the data a handler works on.  Used to state what a handler leaves
    alone. *)
Definition unnotified (w : App.World) : App.World :=
  {| App.state := App.setNotifications (fun _ => []) (App.state w);
     App.localStorage := App.localStorage w;
     App.timers := [];
     App.next_id := 0 |}.

End AppFlow.

(** ** components/LocationSettings.jsx: the storage details *)

Module StorageDetails.

(** [item.key.length > 20 ? item.key.substring(0, 20) + '...' : item.key],
    as the code units of the label: [length] counts the units of the key
    and [substring(0, 20)] keeps its first 20 units. *)
Definition key_label (key : string) : list Z :=
  if (20 <? JSText.length key)%nat
  then take 20 (JSText.utf16 key) ++ JSText.utf16 "..."
  else JSText.utf16 key.

End StorageDetails.

(** ** More data for worked examples *)

Module Scenario.

Definition snapshot : Wire.WeatherSnapshot :=
  {| Wire.temperature := 18; Wire.feels_like := 17;
     Wire.condition := "clear sky"; Wire.wind_speed := 4;
     Wire.humidity := 60; Wire.visibility := Some 10%Q;
     Wire.pressure := 1015 |}.

Definition weather : Wire.Weather :=
  {| Wire.current := Some snapshot;
     Wire.forecast :=
       Some [ {| Wire.fc_time := "15:00"; Wire.fc_temperature := 19;
                 Wire.fc_condition := "clouds"; Wire.fc_wind_speed := 5 |} ] |}.

(** A world with a location on display and nothing stored. *)
Definition located_world : App.World :=
  {| App.state :=
       App.setTideData (Some Fixture.tide_only_bundle)
         (App.setLocation Fixture.stored_coords Fixture.initial_state);
     App.localStorage := ∅;
     App.timers := [];
     App.next_id := 0 |}.

Definition unprocessable : App.HttpResponse :=
  {| App.ok := false; App.status := 422 |}.

Definition fine : App.HttpResponse :=
  {| App.ok := true; App.status := 200 |}.

Definition tide_failure : AppFlow.TideResponse :=
  AppFlow.HttpAnswer unprocessable "Invalid coordinates"
    (AppFlow.Unreadable None).

Definition tide_success : AppFlow.TideResponse :=
  AppFlow.HttpAnswer fine "" (AppFlow.Parsed Fixture.tide_only_bundle).

(** A start of the app with a saved location at hand. *)
Definition inputs : AppFlow.Inputs :=
  {| AppFlow.health_outcome := App.NetworkFailure;
     AppFlow.load_time := 2000;
     AppFlow.geo := AppFlow.GeoError 1;
     AppFlow.written := true;
     AppFlow.save_time := 2000;
     AppFlow.tide_response := tide_success;
     AppFlow.updated_time := 3000 |}.

(** A tide provider that reports, whenever it is asked, a High tide of
    1.8 m ten minutes after time 0 and a Low tide of 0.2 m seven hours
    after it; an engine with a time to live of 30 minutes; and the other
    parts of its bundles. *)
Definition near_raw : list Backend.RawExtremum :=
  [ {| Backend.raw_time := 600000; Backend.raw_height := 18 # 10;
       Backend.raw_type := Some Wire.High |};
    {| Backend.raw_time := 25200000; Backend.raw_height := 2 # 10;
       Backend.raw_type := Some Wire.Low |} ].

Definition near_provider (asked_at : Z) (c : Backend.Coordinate) (window : Z)
  : Backend.Result (list Backend.RawExtremum) :=
  Backend.Returned near_raw.

Definition half_hour : Z := 30 * 60 * 1000.

Definition other_parts (now : Z) (c : Backend.Coordinate)
  : Wire.TideWeatherBundle :=
  Fixture.tide_only_bundle.

(** A tide provider that gives the two events of the scenario of section 8
    with the later one first. *)
Definition unordered_provider (c : Backend.Coordinate) (window : Z)
  : Backend.Result (list Backend.RawExtremum) :=
  Backend.Returned (rev Fixture.scenario_raw).

End Scenario.

(** * Properties *)

Section RelativeTime.

Example getTimeUntilTide_2h15 :
  App.getTimeUntilTide 1000 (Some (1000 + 2 * 3600000 + 15 * 60000 + 59999))
  = "2h 15m".
Proof. reflexivity. Qed.

Example getTimeUntilTide_15m :
  App.getTimeUntilTide 1000 (Some (1000 + 15 * 60000)) = "15m".
Proof. reflexivity. Qed.

Example getTimeUntilTide_now :
  App.getTimeUntilTide 1000 (Some 1000) = "0m".
Proof. reflexivity. Qed.

Example getTimeUntilTide_past :
  App.getTimeUntilTide 1000 (Some 999) = "Past".
Proof. reflexivity. Qed.

(** An unparsable time is not reported as past. *)
Example getTimeUntilTide_invalid_date :
  App.getTimeUntilTide 1000 None = "NaNh NaNm".
Proof. reflexivity. Qed.

Lemma string_append_assoc (s1 s2 s3 : string) :
  s1 +:+ (s2 +:+ s3) = (s1 +:+ s2) +:+ s3.
Proof.
  induction s1 as [|c s1 IH]; [reflexivity |].
  change (String c (s1 +:+ (s2 +:+ s3)) = String c ((s1 +:+ s2) +:+ s3)).
  now rewrite IH.
Qed.

(** A string that ends in the unit letter [m] is not the word "Past". *)
Lemma append_m_not_Past (s : string) : s +:+ "m" <> "Past".
Proof.
  destruct s as [|a [|b [|c [|d s]]]]; simpl; try discriminate.
  intros H. injection H as _ _ _ _ H. destruct s; discriminate.
Qed.

Lemma duration_not_Past (h m : Z) :
  (if h =? 0 then JS.Number_toString m +:+ "m"
   else JS.Number_toString h +:+ "h " +:+ JS.Number_toString m +:+ "m")
  <> "Past".
Proof.
  destruct (h =? 0).
  - apply append_m_not_Past.
  - rewrite !string_append_assoc. apply append_m_not_Past.
Qed.

(** C1. For every event time [t] and clock reading [now],
    [getTimeUntilTide] answers "Past" exactly when [t] is strictly before
    [now]; otherwise it answers the duration until [t] as [h] whole hours
    and [m] remaining whole minutes ([0 <= m < 60], the seconds dropped),
    written "<h>h <m>m", or "<m>m" when [h] is zero. *)
Theorem getTimeUntilTide_past_or_duration (now t : Z) :
  (App.getTimeUntilTide now (Some t) = "Past" <-> t < now) /\
  (now <= t ->
   exists h m : Z,
     0 <= h /\ 0 <= m < 60 /\
     h * 3600000 + m * 60000 <= t - now < h * 3600000 + (m + 1) * 60000 /\
     App.getTimeUntilTide now (Some t) =
       if h =? 0 then JS.Number_toString m +:+ "m"
       else JS.Number_toString h +:+ "h "
            +:+ JS.Number_toString m +:+ "m").
Proof.
  unfold App.getTimeUntilTide, JS.floor_div, JS.remainder,
    App.MS_PER_HOUR, App.MS_PER_MINUTE.
  change (1000 * 60 * 60) with 3600000. change (1000 * 60) with 60000.
  destruct (Z.ltb_spec (t - now) 0) as [Hlt | Hge].
  - split; [split; [lia | reflexivity] | lia].
  - split.
    + split; [intros H; exfalso; revert H; apply duration_not_Past | lia].
    + intros _.
      rewrite Z.rem_mod_nonneg by lia.
      exists ((t - now) / 3600000), ((t - now) mod 3600000 / 60000).
      repeat split; try reflexivity;
        Z.to_euclidean_division_equations; lia.
Qed.

End RelativeTime.

Section Fixtures.

Example scenario_next_tides :
  map (fun e => (Wire.time e, Wire.type e, Wire.relative_time e))
    Fixture.scenario_tides
  = [ (3600000, Wire.High, "1h 0m"); (25200000, Wire.Low, "7h 0m") ].
Proof. reflexivity. Qed.

Example scenario_tide_cards :
  map App.heading
    (App.next_tide_cards (H := Fixture.browser) Fixture.scenario_tides)
  = [ "Next High Tide"; "Following Low Tide" ].
Proof. reflexivity. Qed.

Example scenario_height_text :
  map App.height_text
    (App.next_tide_cards (H := Fixture.browser) Fixture.scenario_tides)
  = [ "Height: 1.8m"; "Height: 0.2m" ].
Proof. vm_compute. reflexivity. Qed.

Example saved_location_is_loaded :
  fst (App.loadStoredLocation (H := Fixture.browser) 2000 Fixture.saved_world)
  = JS.Normal Fixture.stored_coords.
Proof. vm_compute. reflexivity. Qed.

Example saved_location_expires :
  fst (App.loadStoredLocation (H := Fixture.browser) (1000 + 3600000)
         Fixture.saved_world)
  = JS.Normal JS.VNull.
Proof. vm_compute. reflexivity. Qed.

End Fixtures.

(** ** Error categories of the client *)

Section ErrorHandling.
Context `{Platform}.

Lemma handleAPIError_with_state
  (err : App.Thrown) (response : option App.HttpResponse) (w : App.World) :
  App.handleAPIError err response w
  = App.with_state
      (App.setError (Some (App.category_message err response))) w.
Proof.
  unfold App.handleAPIError, App.category_message.
  destruct (App.status_is response 422); [reflexivity |].
  destruct (App.status_is response 500); [reflexivity |].
  destruct (App.status_is response 404); reflexivity.
Qed.

(** The three category messages are three different texts. *)
Lemma category_messages_distinct :
  App.INVALID_COORDINATES <> App.SERVER_ERROR /\
  App.INVALID_COORDINATES <> App.ENDPOINT_NOT_FOUND /\
  App.SERVER_ERROR <> App.ENDPOINT_NOT_FOUND.
Proof. repeat split; discriminate. Qed.

(** The fallback of the last branch, on a value made by hand: an error
    with the empty message and a 403 response gets the generic text.  No
    [catch] block receives such a value (see [caught_carries_message]
    below). *)
Lemma handleAPIError_empty_message_shows_generic_text :
  App.thrown_message Fixture.silent_failure = Some "" /\
  App.status Fixture.forbidden = 403 /\
  App.error
    (App.state
       (App.handleAPIError Fixture.silent_failure (Some Fixture.forbidden)
          Fixture.saved_world))
  = Some "An unexpected error occurred".
Proof. repeat split; reflexivity. Qed.

(** [handleAPIError] on any error and response: the text by HTTP status,
    and in the last branch the error's own message when it has a
    non-empty one, the generic text otherwise.  Nothing but the error text
    changes. *)
Lemma handleAPIError_message_by_status
  (err : App.Thrown) (response : option App.HttpResponse) (w : App.World) :
  let shown := App.error (App.state (App.handleAPIError err response w)) in
  (forall r, response = Some r -> App.status r = 422 ->
     shown = Some "Invalid location coordinates provided. Please check your location settings.") /\
  (forall r, response = Some r -> App.status r = 500 ->
     shown = Some "Server error occurred. This might be due to missing API keys or service unavailability.") /\
  (forall r, response = Some r -> App.status r = 404 ->
     shown = Some "API endpoint not found. Please check if the backend server is running.") /\
  ((response = None \/
    exists r, response = Some r /\
      App.status r <> 422 /\ App.status r <> 500 /\ App.status r <> 404) ->
   (forall m, App.thrown_message err = Some m -> m <> "" -> shown = Some m) /\
   (App.thrown_message err = None \/ App.thrown_message err = Some "" ->
    shown = Some "An unexpected error occurred")) /\
  (App.INVALID_COORDINATES <> App.SERVER_ERROR /\
   App.INVALID_COORDINATES <> App.ENDPOINT_NOT_FOUND /\
   App.SERVER_ERROR <> App.ENDPOINT_NOT_FOUND) /\
  App.handleAPIError err response w = App.with_state (App.setError shown) w.
Proof.
  intros shown.
  assert (Hshown : shown = Some (App.category_message err response)).
  { subst shown. rewrite handleAPIError_with_state. reflexivity. }
  split; [| split; [| split; [| split; [| split]]]].
  - intros r -> Hst. rewrite Hshown. unfold App.category_message.
    cbn [App.status_is]. rewrite Hst. reflexivity.
  - intros r -> Hst. rewrite Hshown. unfold App.category_message.
    cbn [App.status_is]. rewrite Hst. reflexivity.
  - intros r -> Hst. rewrite Hshown. unfold App.category_message.
    cbn [App.status_is]. rewrite Hst. reflexivity.
  - intros Hother.
    assert (Hmsg : App.category_message err response
                   = App.message_or_default err).
    { unfold App.category_message.
      destruct Hother as [-> | (r & -> & H422 & H500 & H404)];
        [reflexivity |].
      cbn [App.status_is].
      apply Z.eqb_neq in H422, H500, H404.
      rewrite H422, H500, H404. reflexivity. }
    rewrite Hshown, Hmsg. unfold App.message_or_default. split.
    + intros m Hm Hne. rewrite Hm. cbn [JS.ToBoolean].
      destruct (String.eqb_spec m ""); [contradiction | reflexivity].
    + intros [-> | ->]; reflexivity.
  - exact category_messages_distinct.
  - rewrite Hshown. apply handleAPIError_with_state.
Qed.

(** What [getCurrentLocation] rejects with is an Error made with one of
    its five texts. *)
Lemma getCurrentLocation_rejection (geo : AppFlow.GeoResult)
  (w w' : App.World) (err : App.Thrown) :
  AppFlow.getCurrentLocation geo w = (AppFlow.RejectedWith err, w') ->
  App.thrown_response err = None /\
  exists m, App.thrown_message err = Some m /\ m <> "".
Proof.
  destruct geo as [| latitude longitude accuracy | code]; cbn;
    intros Hrejected; [| discriminate |];
    injection Hrejected as <- _; (split; [reflexivity |]).
  - eexists. split; [reflexivity | discriminate].
  - eexists. split; [reflexivity |].
    unfold AppFlow.geolocation_message.
    destruct (code =? 1); [discriminate |].
    destruct (code =? 2); [discriminate |].
    destruct (code =? 3); discriminate.
Qed.

(** Every value a [catch] block receives has a message that is not the
    empty text. *)
Lemma caught_carries_message (err : App.Thrown) :
  AppFlow.caught err ->
  exists m, App.thrown_message err = Some m /\ m <> "".
Proof.
  intros [geo w w' e Hgeo | response w w' e Hbrowser Hfetch].
  - apply (getCurrentLocation_rejection _ _ _ _ Hgeo).
  - destruct response as [message | r text json]; cbn in Hbrowser, Hfetch.
    + injection Hfetch as <- _. exact Hbrowser.
    + destruct (App.ok r) eqn:Hok.
      * destruct json as [data | message]; [discriminate |].
        injection Hfetch as <- _. apply Hbrowser. reflexivity.
      * injection Hfetch as <- _. eexists. split; [reflexivity |].
        discriminate.
Qed.

(** C4. On every value a [catch] block passes to [handleAPIError] (what
    [getCurrentLocation] or [fetchTideData] rejects with, the errors of
    the browser carrying a message), together with its [response]: status
    422 gives the invalid-coordinates text, status 500 the
    server/configuration text, status 404 the endpoint-not-found text,
    three different texts, and any other failure (no response, or another
    status) shows the error's own message.  Nothing but the error text
    changes. *)
Theorem caught_error_message_by_status (err : App.Thrown) (w : App.World) :
  AppFlow.caught err ->
  let response := App.thrown_response err in
  let shown := App.error (App.state (App.handleAPIError err response w)) in
  (forall r, response = Some r -> App.status r = 422 ->
     shown = Some "Invalid location coordinates provided. Please check your location settings.") /\
  (forall r, response = Some r -> App.status r = 500 ->
     shown = Some "Server error occurred. This might be due to missing API keys or service unavailability.") /\
  (forall r, response = Some r -> App.status r = 404 ->
     shown = Some "API endpoint not found. Please check if the backend server is running.") /\
  ((response = None \/
    exists r, response = Some r /\
      App.status r <> 422 /\ App.status r <> 500 /\ App.status r <> 404) ->
   shown = App.thrown_message err /\
   exists m, shown = Some m /\ m <> "") /\
  (App.INVALID_COORDINATES <> App.SERVER_ERROR /\
   App.INVALID_COORDINATES <> App.ENDPOINT_NOT_FOUND /\
   App.SERVER_ERROR <> App.ENDPOINT_NOT_FOUND) /\
  App.handleAPIError err response w = App.with_state (App.setError shown) w.
Proof.
  intros Hcaught response shown.
  destruct (caught_carries_message err Hcaught) as (m & Hm & Hne).
  destruct (handleAPIError_message_by_status err response w)
    as (H422 & H500 & H404 & Hother & Hdistinct & Hframe).
  fold shown in H422, H500, H404, Hother, Hframe.
  split; [exact H422 |]. split; [exact H500 |]. split; [exact H404 |].
  split; [| split; [exact Hdistinct | exact Hframe]].
  intros Hstatus. destruct (Hother Hstatus) as [Hown _].
  rewrite (Hown m Hm Hne). split; [symmetry; exact Hm |].
  exists m. split; [reflexivity | exact Hne].
Qed.

End ErrorHandling.

(** A 403 answer with the text "Forbidden": [fetchTideData] rejects with
    the object of line 237, and its message is what is shown. *)
Lemma caught_error_message_by_status_witness :
  AppFlow.caught (H := Fixture.browser)
    (AppFlow.api_error (H := Fixture.browser) Fixture.forbidden "Forbidden") /\
  App.error
    (App.state
       (App.handleAPIError
          (AppFlow.api_error (H := Fixture.browser) Fixture.forbidden
             "Forbidden")
          (Some Fixture.forbidden) Fixture.saved_world))
  = Some "API Error: 403 - Forbidden".
Proof.
  assert (Hcaught : AppFlow.caught (H := Fixture.browser)
                      (AppFlow.api_error (H := Fixture.browser)
                         Fixture.forbidden "Forbidden")).
  { eapply AppFlow.caught_from_fetchTideData
      with (response := AppFlow.HttpAnswer Fixture.forbidden "Forbidden"
                          (AppFlow.Unreadable None))
           (w := Fixture.saved_world).
    - intros Hok. discriminate Hok.
    - reflexivity. }
  split; [exact Hcaught |].
  destruct (caught_error_message_by_status (H := Fixture.browser) _
              Fixture.saved_world Hcaught)
    as (_ & _ & _ & Hother & _).
  destruct Hother as [Hown _].
  { right. exists Fixture.forbidden.
    split; [reflexivity |]. repeat split; discriminate. }
  cbn [AppFlow.api_error App.thrown_response] in Hown.
  rewrite Hown. vm_compute. reflexivity.
Defined.

(** ** Clearing local storage *)

Section LocalStorageReset.
Context `{Platform}.

(** C10. If the user declines the confirmation dialog,
    [clearAllLocalStorage] leaves the whole world as it was: local storage,
    every state field (location, tideData, autoRefresh, refreshInterval
    among them), notifications and timers.  On confirmation local storage
    is emptied and the four fields are reset to null, null, true and 30
    minutes. *)
Theorem clearAllLocalStorage_declined_changes_nothing (w : App.World) :
  App.clearAllLocalStorage false w = w /\
  (let w' := App.clearAllLocalStorage true w in
   App.localStorage w' = ∅ /\
   App.location (App.state w') = JS.VNull /\
   App.tideData (App.state w') = None /\
   App.autoRefresh (App.state w') = true /\
   App.refreshInterval (App.state w') = 1800000).
Proof.
  split; [reflexivity |].
  cbv zeta. unfold App.clearAllLocalStorage.
  repeat split; reflexivity.
Qed.

(** On confirmation exactly one notification is added, and the app is
    scheduled to initialise again after one second. *)
Lemma clearAllLocalStorage_confirmed_effects (w : App.World) :
  let w' := App.clearAllLocalStorage true w in
  length (App.notifications (App.state w'))
  = S (length (App.notifications (App.state w))) /\
  last (App.timers w') = Some (1000, App.InitializeApp).
Proof.
  cbv zeta. unfold App.clearAllLocalStorage. split.
  - cbn. rewrite length_app. cbn. lia.
  - cbn. apply last_snoc.
Qed.

End LocalStorageReset.

(** ** Health of the backend *)

Section Health.

Lemma service_state_values (credentials : option string) :
  Backend.service_state credentials = "configured" \/
  Backend.service_state credentials = "missing_credentials".
Proof. destruct credentials; [left | right]; reflexivity. Qed.

Lemma service_state_configured (credentials : option string) :
  Backend.service_state credentials = "configured" <-> is_Some credentials.
Proof.
  destruct credentials; cbn; split; try discriminate; eauto.
  intros [x Hx]. discriminate.
Qed.

(** C8. The health operation answers with a status ([healthy] or
    [degraded]), the number of cache entries, and the two service states,
    each [configured] or [missing_credentials]; after a successful check
    the client holds that answer as [backendStatus], and the settings panel
    shows exactly these four values. *)
Theorem health_shape_is_read_by_client (e : Backend.Engine) (w : App.World) :
  let h := Backend.health e in
  let w' :=
    App.checkBackendHealth
      (App.Response {| App.ok := true; App.status := 200 |} (Some h)) w in
  (Wire.status h = "healthy" \/ Wire.status h = "degraded") /\
  Wire.cache_entries h = Z.of_nat (size (Backend.cache e)) /\
  (exists sv, Wire.services h = Some sv /\
     (Wire.tides_api sv = "configured" \/
      Wire.tides_api sv = "missing_credentials") /\
     (Wire.weather_api sv = "configured" \/
      Wire.weather_api sv = "missing_credentials") /\
     LocationSettings.backend_status_rows (App.backendStatus (App.state w'))
     = Some [ ("Status:", Wire.status h);
              ("Cache entries:", JS.Number_toString (Wire.cache_entries h));
              ("Tides API:", Wire.tides_api sv);
              ("Weather API:", Wire.weather_api sv) ]) /\
  App.backendStatus (App.state w') = Some h /\
  App.apiHealth (App.state w') = App.Healthy.
Proof.
  cbv zeta. split; [| split; [| split; [| split]]].
  - unfold Backend.health. cbn [Wire.status].
    match goal with |- context [if ?b then _ else _] => destruct b end;
      [left | right]; reflexivity.
  - reflexivity.
  - eexists. split; [reflexivity |].
    split; [apply service_state_values |].
    split; [apply service_state_values |]. reflexivity.
  - reflexivity.
  - reflexivity.
Qed.

End Health.

(** ** The weather card *)

Section Weather.
Context `{Platform}.

Lemma visibility_display_absent (c : Wire.WeatherSnapshot) :
  Wire.visibility c = None -> WeatherCard.visibility_display c = "N/A".
Proof.
  intros Hv. unfold WeatherCard.visibility_display. rewrite Hv. reflexivity.
Qed.

Lemma visibility_display_nonzero (c : Wire.WeatherSnapshot) (v : Q) :
  Wire.visibility c = Some v -> ~ (v == 0)%Q ->
  WeatherCard.visibility_display c = NumberToString v +:+ "km".
Proof.
  intros Hv Hnz. unfold WeatherCard.visibility_display.
  rewrite Hv. cbn [JS.ToBoolean].
  destruct (Qeq_bool v 0) eqn:Heq; [| reflexivity].
  apply Qeq_bool_iff in Heq. contradiction.
Qed.

(** C7 fails on the code at a visibility of 0 km: the field is present,
    yet the card shows the placeholder, because the test
    [current.visibility ? ... : 'N/A'] is on truthiness and 0 is falsy. *)
Theorem visibility_zero_shows_placeholder
  (temperature feels_like wind_speed : Q) (condition : string)
  (humidity pressure : Z) :
  WeatherCard.visibility_display
    {| Wire.temperature := temperature;
       Wire.feels_like := feels_like;
       Wire.condition := condition;
       Wire.wind_speed := wind_speed;
       Wire.humidity := humidity;
       Wire.visibility := Some 0%Q;
       Wire.pressure := pressure |}
  = "N/A".
Proof. reflexivity. Qed.

End Weather.

(** ** The tide pair and the tide portions of the page *)

Section TideDisplay.
Context `{Platform}.

Lemma next_tide_cards_length (next_tides : list Wire.TideEvent) :
  length (App.next_tide_cards next_tides) = Nat.min 2 (length next_tides).
Proof.
  unfold App.next_tide_cards. rewrite length_imap. apply length_take.
Qed.

Lemma next_tide_cards_lookup (next_tides : list Wire.TideEvent) (i : nat) :
  App.next_tide_cards next_tides !! i
  = if (i <? 2)%nat
    then App.render_tide_card i <$> next_tides !! i
    else None.
Proof.
  unfold App.next_tide_cards. rewrite list_lookup_imap.
  destruct (Nat.ltb_spec i 2) as [Hlt | Hge].
  - rewrite lookup_take_lt by exact Hlt. reflexivity.
  - rewrite lookup_take_ge by exact Hge. reflexivity.
Qed.

(** C6. The page made from a bundle shows one card per entry among the
    first two of [next_tides] and none beyond (so at most two, fewer when
    fewer exist); the card of entry 0 is headed "Next <type> Tide", the
    card of entry 1 "Following <type> Tide", and each card carries the
    entry's formatted time, its [relative_time] and "Height: <height>m". *)
Theorem primary_display_shows_first_two (d : Wire.TideWeatherBundle) :
  exists v, App.render_main (Some d) = Some v /\
    length (App.tide_cards v) = Nat.min 2 (length (Wire.next_tides d)) /\
    (forall tide, Wire.next_tides d !! 0%nat = Some tide ->
       App.tide_cards v !! 0%nat
       = Some {| App.heading :=
                   "Next " +:+ Wire.TideType_text (Wire.type tide) +:+ " Tide";
                 App.time_text := toLocaleTimeString true (Wire.time tide);
                 App.relative_text := Wire.relative_time tide;
                 App.height_text :=
                   "Height: " +:+ NumberToString (Wire.height tide) +:+ "m" |}) /\
    (forall tide, Wire.next_tides d !! 1%nat = Some tide ->
       App.tide_cards v !! 1%nat
       = Some {| App.heading :=
                   "Following " +:+ Wire.TideType_text (Wire.type tide)
                   +:+ " Tide";
                 App.time_text := toLocaleTimeString true (Wire.time tide);
                 App.relative_text := Wire.relative_time tide;
                 App.height_text :=
                   "Height: " +:+ NumberToString (Wire.height tide) +:+ "m" |}) /\
    (forall i, (2 <= i)%nat -> App.tide_cards v !! i = None).
Proof.
  eexists. split; [reflexivity |]. cbn [App.tide_cards].
  split; [apply next_tide_cards_length |].
  split; [| split].
  - intros tide Htide. rewrite next_tide_cards_lookup, Htide. reflexivity.
  - intros tide Htide. rewrite next_tide_cards_lookup, Htide. reflexivity.
  - intros i Hi. rewrite next_tide_cards_lookup.
    destruct (Nat.ltb_spec i 2); [lia | reflexivity].
Qed.

Lemma lookup_of_map {A B : Type} (f : A -> B) (l : list A) (i : nat) :
  map f l !! i = f <$> l !! i.
Proof.
  revert i. induction l as [|x l IH]; intros [|i]; cbn; try reflexivity.
  apply IH.
Qed.

(** C5. For a bundle whose weather is absent, or present without a current
    snapshot, [WeatherCard] returns null and the page is still made, without
    a weather card and with the tide portions of the bundle: one card per
    entry among the first two of [next_tides], headed "Next" or "Following"
    with the entry's type and carrying its time, relative time and height;
    the daily summary, when the bundle has one, with its two counts and its
    two heights in metres; and the tide timeline, when [next_tides] is not
    empty, with one row per entry among the first six carrying the entry's
    type, time, relative time and height.  Those portions are the same for
    any bundle that agrees on the tide fields, whatever its weather. *)
Theorem weather_absent_still_renders_tides (d : Wire.TideWeatherBundle) :
  (Wire.weather d = None \/
   exists w, Wire.weather d = Some w /\ Wire.current w = None) ->
  WeatherCard.WeatherCard (Wire.weather d) = None /\
  exists v, App.render_main (Some d) = Some v /\
    App.weather_card v = None /\
    length (App.tide_cards v) = Nat.min 2 (length (Wire.next_tides d)) /\
    (forall i tide, (i < 2)%nat -> Wire.next_tides d !! i = Some tide ->
       App.tide_cards v !! i
       = Some {| App.heading :=
                   (if Nat.eqb i 0 then "Next" else "Following") +:+ " "
                   +:+ Wire.TideType_text (Wire.type tide) +:+ " Tide";
                 App.time_text := toLocaleTimeString true (Wire.time tide);
                 App.relative_text := Wire.relative_time tide;
                 App.height_text :=
                   "Height: " +:+ NumberToString (Wire.height tide)
                   +:+ "m" |}) /\
    (Wire.daily_summary d = None -> App.summary v = None) /\
    (forall s, Wire.daily_summary d = Some s ->
       App.summary v
       = Some {| App.high_tides_text :=
                   JS.Number_toString (Wire.high_tides_count s);
                 App.low_tides_text :=
                   JS.Number_toString (Wire.low_tides_count s);
                 App.max_height_text :=
                   NumberToString (Wire.max_height s) +:+ "m";
                 App.min_height_text :=
                   NumberToString (Wire.min_height s) +:+ "m" |}) /\
    (Wire.next_tides d = [] -> App.chart v = None) /\
    (Wire.next_tides d <> [] ->
     exists rows, App.chart v = Some rows /\
       length rows = Nat.min 6 (length (Wire.next_tides d)) /\
       forall i tide, (i < 6)%nat -> Wire.next_tides d !! i = Some tide ->
         rows !! i
         = Some {| TideChart.row_title :=
                     Wire.TideType_text (Wire.type tide) +:+ " Tide";
                   TideChart.row_time :=
                     toLocaleTimeString false (Wire.time tide);
                   TideChart.row_relative := Wire.relative_time tide;
                   TideChart.row_height :=
                     "Height: " +:+ NumberToString (Wire.height tide)
                     +:+ "m" |}) /\
    (forall d' v',
       Wire.next_tides d' = Wire.next_tides d ->
       Wire.daily_summary d' = Wire.daily_summary d ->
       App.render_main (Some d') = Some v' ->
       App.tide_cards v' = App.tide_cards v /\
       App.summary v' = App.summary v /\
       App.chart v' = App.chart v).
Proof.
  intros Habsent.
  assert (Hcard : WeatherCard.WeatherCard (Wire.weather d) = None).
  { destruct Habsent as [-> | (w & -> & Hcur)]; [reflexivity |].
    unfold WeatherCard.WeatherCard. rewrite Hcur. reflexivity. }
  split; [exact Hcard |].
  eexists. split; [reflexivity |].
  cbn [App.weather_card App.tide_cards App.summary App.chart].
  split; [exact Hcard |].
  split; [apply next_tide_cards_length |].
  split.
  { intros i tide Hi Htide. rewrite next_tide_cards_lookup, Htide.
    destruct (Nat.ltb_spec i 2); [reflexivity | lia]. }
  split; [intros ->; reflexivity |].
  split; [intros s ->; reflexivity |].
  split; [intros ->; reflexivity |].
  split.
  { intros Hsome. unfold TideChart.TideChart.
    destruct (Nat.eqb_spec (length (Wire.next_tides d)) 0) as [Hempty | _].
    - apply length_zero_iff_nil in Hempty. contradiction.
    - eexists. split; [reflexivity |].
      split; [rewrite length_map; apply length_take |].
      intros i tide Hi Htide.
      rewrite lookup_of_map, lookup_take_lt, Htide by exact Hi.
      reflexivity. }
  intros d' v' Htides Hsummary Hrender.
  injection Hrender as <-.
  cbn [App.tide_cards App.summary App.chart].
  rewrite Htides, Hsummary. repeat split; reflexivity.
Qed.

End TideDisplay.

(** The tide-only bundle of the examples has no weather: its page has no
    weather card and shows the two tide cards, the counts and heights of
    the day and the two rows of the timeline. *)
Lemma weather_absent_still_renders_tides_witness :
  (Wire.weather Fixture.tide_only_bundle = None \/
   exists w, Wire.weather Fixture.tide_only_bundle = Some w /\
             Wire.current w = None) /\
  WeatherCard.WeatherCard (H := Fixture.browser)
    (Wire.weather Fixture.tide_only_bundle) = None /\
  exists v,
    App.render_main (H := Fixture.browser) (Some Fixture.tide_only_bundle)
    = Some v /\
    App.weather_card v = None /\
    App.tide_cards v !! 0%nat
    = Some {| App.heading := "Next High Tide";
              App.time_text := "3600000";
              App.relative_text := "1h 0m";
              App.height_text := "Height: 1.8m" |} /\
    App.summary v
    = Some {| App.high_tides_text := "1"; App.low_tides_text := "1";
              App.max_height_text := "1.8m";
              App.min_height_text := "0.2m" |} /\
    exists rows, App.chart v = Some rows /\
      rows !! 1%nat
      = Some {| TideChart.row_title := "Low Tide";
                TideChart.row_time := "25200000";
                TideChart.row_relative := "7h 0m";
                TideChart.row_height := "Height: 0.2m" |}.
Proof.
  split; [left; reflexivity |].
  destruct (weather_absent_still_renders_tides (H := Fixture.browser)
              Fixture.tide_only_bundle (or_introl eq_refl))
    as (Hcard & v & Hv & Hw & _ & Hcards & _ & Hsummary & _ & Hchart & _).
  split; [exact Hcard |].
  exists v. split; [exact Hv |]. split; [exact Hw |].
  split.
  { rewrite (Hcards 0%nat {| Wire.time := 3600000; Wire.type := Wire.High;
                              Wire.height := 18 # 10;
                              Wire.relative_time := "1h 0m" |}).
    - vm_compute. reflexivity.
    - lia.
    - vm_compute. reflexivity. }
  split.
  { rewrite (Hsummary _ eq_refl). vm_compute. reflexivity. }
  destruct Hchart as (rows & Hrows & _ & Hrow).
  { intros Hempty. vm_compute in Hempty. discriminate Hempty. }
  exists rows. split; [exact Hrows |].
  rewrite (Hrow 1%nat {| Wire.time := 25200000; Wire.type := Wire.Low;
                         Wire.height := 2 # 10;
                         Wire.relative_time := "7h 0m" |}).
  - vm_compute. reflexivity.
  - lia.
  - vm_compute. reflexivity.
Defined.

(** ** The stored location *)

Section StoredLocation.
Context `{Platform}.

Lemma Qlt_bool_iff (x y : Q) : JS.Qlt_bool x y = true <-> (x < y)%Q.
Proof.
  unfold JS.Qlt_bool. rewrite negb_true_iff.
  destruct (Qle_bool y x) eqn:Hle.
  - apply Qle_bool_iff in Hle. split; [discriminate |].
    intros Hlt. exfalso. exact (Qlt_not_le _ _ Hlt Hle).
  - split; [intros _ | reflexivity].
    apply Qnot_le_lt. intros Hle'. apply Qle_bool_iff in Hle'. congruence.
Qed.

(** The age test [Date.now() - timestamp < 3600000] holds exactly when the
    timestamp coerces to a number less than an hour before [now]. *)
Lemma age_test_iff (now : Z) (timestamp : JS.value) :
  JS.lt (JS.sub (Some (inject_Z now)) (JSCoercions.ToNumber timestamp))
        (Some (inject_Z 3600000)) = true
  <-> exists t, JSCoercions.ToNumber timestamp = Some t /\
                (inject_Z now - t < inject_Z 3600000)%Q.
Proof.
  destruct (JSCoercions.ToNumber timestamp) as [t|]; cbn [JS.sub JS.lt].
  - rewrite Qlt_bool_iff. split.
    + intros Hlt. exists t. split; [reflexivity | exact Hlt].
    + intros (t' & Ht & Hlt). injection Ht as <-. exact Hlt.
  - split; [discriminate | intros (t & Ht & _); discriminate].
Qed.

(** A successful read of [timestamp] means the parsed value is not null,
    so reading [coords] succeeds too. *)
Lemma Get_timestamp_then_coords (parsed timestamp : JS.value) :
  JS.Get parsed "timestamp" = JS.Normal timestamp ->
  exists coords, JS.Get parsed "coords" = JS.Normal coords.
Proof. destruct parsed; cbn; try discriminate; eauto. Qed.

(** What [loadStoredLocation] returns, path by path. *)
Lemma loadStoredLocation_result (now : Z) (w : App.World) :
  fst (App.loadStoredLocation now w)
  = JS.Normal
      match App.localStorage w !! App.LOCATION_KEY with
      | Some stored =>
          if JS.ToBoolean (JS.VStr stored) then
            match JSON_parse stored with
            | Some parsed =>
                match JS.Get parsed "timestamp" with
                | JS.Normal timestamp =>
                    if JS.lt (JS.sub (Some (inject_Z now))
                                (JSCoercions.ToNumber timestamp))
                         (Some (inject_Z 3600000))
                    then match JS.Get parsed "coords" with
                         | JS.Normal coords => coords
                         | JS.Throw _ => JS.VNull
                         end
                    else JS.VNull
                | JS.Throw _ => JS.VNull
                end
            | None => JS.VNull
            end
          else JS.VNull
      | None => JS.VNull
      end.
Proof.
  unfold App.loadStoredLocation, App.try_catch, App.loadStoredLocation_try,
    App.bind, App.ret, App.throw, App.lift, App.exec.
  destruct (App.localStorage w !! App.LOCATION_KEY) as [stored|];
    [| reflexivity].
  destruct (JS.ToBoolean (JS.VStr stored)); [| reflexivity].
  destruct (JSON_parse stored) as [parsed|]; [| reflexivity].
  destruct (JS.Get parsed "timestamp") as [timestamp | e] eqn:Hts;
    [| reflexivity].
  destruct (JS.lt _ _); [| reflexivity].
  destruct (Get_timestamp_then_coords _ _ Hts) as (coords & ->).
  reflexivity.
Qed.

(** Handlers only add notifications and timers: storage is not written. *)
Lemma loadStoredLocation_keeps_storage (now : Z) (w : App.World) :
  App.localStorage (snd (App.loadStoredLocation now w)) = App.localStorage w.
Proof.
  unfold App.loadStoredLocation, App.try_catch, App.loadStoredLocation_try,
    App.bind, App.ret, App.throw, App.lift, App.exec.
  destruct (App.localStorage w !! App.LOCATION_KEY) as [stored|];
    [| reflexivity].
  destruct (JS.ToBoolean (JS.VStr stored)); [| reflexivity].
  destruct (JSON_parse stored) as [parsed|]; [| reflexivity].
  destruct (JS.Get parsed "timestamp") as [timestamp | e] eqn:Hts;
    [| reflexivity].
  destruct (JS.lt _ _); [| reflexivity].
  destruct (Get_timestamp_then_coords _ _ Hts) as (coords & ->).
  reflexivity.
Qed.

(** C9. With [JSON.parse] rejecting the empty text (as it does),
    [loadStoredLocation] returns the stored [coords] when the entry
    'tideApp_location' exists, parses, and its timestamp is less than
    3,600,000 ms before now; in every other case it returns null; it always
    completes normally (never throws), and leaves local storage as it
    was. *)
Theorem loadStoredLocation_fresh_or_null (now : Z) (w : App.World) :
  JSON_parse "" = None ->
  (forall stored parsed timestamp t,
     App.localStorage w !! "tideApp_location" = Some stored ->
     JSON_parse stored = Some parsed ->
     JS.Get parsed "timestamp" = JS.Normal timestamp ->
     JSCoercions.ToNumber timestamp = Some t ->
     (inject_Z now - t < inject_Z 3600000)%Q ->
     exists coords,
       JS.Get parsed "coords" = JS.Normal coords /\
       fst (App.loadStoredLocation now w) = JS.Normal coords) /\
  (~ (exists stored parsed timestamp t,
        App.localStorage w !! "tideApp_location" = Some stored /\
        JSON_parse stored = Some parsed /\
        JS.Get parsed "timestamp" = JS.Normal timestamp /\
        JSCoercions.ToNumber timestamp = Some t /\
        (inject_Z now - t < inject_Z 3600000)%Q) ->
   fst (App.loadStoredLocation now w) = JS.Normal JS.VNull) /\
  (exists v, fst (App.loadStoredLocation now w) = JS.Normal v) /\
  App.localStorage (snd (App.loadStoredLocation now w)) = App.localStorage w.
Proof.
  intros Hempty.
  split; [| split; [| split]].
  - intros stored parsed timestamp t Hstored Hparsed Hts Ht Hage.
    destruct (Get_timestamp_then_coords _ _ Hts) as (coords & Hcoords).
    exists coords. split; [exact Hcoords |].
    rewrite loadStoredLocation_result.
    change App.LOCATION_KEY with "tideApp_location". rewrite Hstored.
    assert (Htruthy : JS.ToBoolean (JS.VStr stored) = true).
    { cbn [JS.ToBoolean]. destruct (String.eqb_spec stored "") as [-> |];
        [congruence | reflexivity]. }
    rewrite Htruthy, Hparsed, Hts, Hcoords.
    assert (Hfresh : JS.lt (JS.sub (Some (inject_Z now))
                              (JSCoercions.ToNumber timestamp))
                       (Some (inject_Z 3600000)) = true).
    { apply age_test_iff. exists t. split; assumption. }
    rewrite Hfresh. reflexivity.
  - intros Hnot. rewrite loadStoredLocation_result.
    change App.LOCATION_KEY with "tideApp_location".
    destruct (App.localStorage w !! "tideApp_location") as [stored|];
      [| reflexivity].
    destruct (JS.ToBoolean (JS.VStr stored)); [| reflexivity].
    destruct (JSON_parse stored) as [parsed|] eqn:Hparsed; [| reflexivity].
    destruct (JS.Get parsed "timestamp") as [timestamp | e] eqn:Hts;
      [| reflexivity].
    destruct (JS.lt _ _) eqn:Hage; [| reflexivity].
    exfalso. apply Hnot. apply age_test_iff in Hage.
    destruct Hage as (t & Ht & Hlt).
    exists stored, parsed, timestamp, t. repeat split; assumption.
  - rewrite loadStoredLocation_result. eexists. reflexivity.
  - apply loadStoredLocation_keeps_storage.
Qed.

End StoredLocation.

(** A location saved at time 1000 is returned when loaded at time 2000. *)
Lemma loadStoredLocation_fresh_or_null_witness :
  JSON_parse (Platform := Fixture.browser) "" = None /\
  fst (App.loadStoredLocation (H := Fixture.browser) 2000 Fixture.saved_world)
  = JS.Normal Fixture.stored_coords.
Proof.
  split; [reflexivity |].
  destruct (loadStoredLocation_fresh_or_null (H := Fixture.browser)
              2000 Fixture.saved_world eq_refl) as (Hfresh & _).
  destruct (Hfresh Fixture.stored_document Fixture.stored_value
              (JS.VNum 1000) 1000%Q)
    as (coords & Hcoords & Hresult).
  - reflexivity.
  - reflexivity.
  - reflexivity.
  - reflexivity.
  - reflexivity.
  - injection Hcoords as <-. exact Hresult.
Defined.

(** ** Ordering of the upcoming tides *)

Section TideOrdering.

Variable derive_type : option Q -> Q -> option Q -> Wire.TideType.

#[local] Instance raw_in_order_transitive : Transitive Backend.raw_in_order.
Proof. unfold Backend.raw_in_order. intros a b c Hab Hbc. lia. Qed.

Lemma classify_Forall (P : Z -> Prop) (prev : option Q)
  (raw : list Backend.RawExtremum) :
  Forall (fun r => P (Backend.raw_time r)) raw ->
  Forall (fun x => P (Backend.ex_time x))
    (Backend.classify derive_type prev raw).
Proof.
  intros Hall. revert prev.
  induction Hall as [|e rest He Hrest IH]; intros prev; cbn;
    constructor; [exact He | apply IH].
Qed.

Lemma classify_sorted (prev : option Q) (raw : list Backend.RawExtremum) :
  StronglySorted Backend.raw_in_order raw ->
  StronglySorted Backend.extrema_in_order (Backend.classify derive_type prev raw).
Proof.
  intros Hsorted. revert prev.
  induction Hsorted as [|e rest Hrest IH Hall]; intros prev; cbn;
    constructor.
  - apply IH.
  - apply (classify_Forall (fun t => Backend.raw_time e <= t)). exact Hall.
Qed.

Lemma upcoming_Forall (P : Backend.Extremum -> Prop) (now : Z)
  (events : list Backend.Extremum) :
  Forall P events -> Forall P (Backend.upcoming now events).
Proof.
  intros Hall. induction Hall as [|e rest He Hrest IH]; cbn;
    [constructor |].
  destruct (now <=? Backend.ex_time e); [constructor |]; assumption.
Qed.

Lemma upcoming_sorted (now : Z) (events : list Backend.Extremum) :
  StronglySorted Backend.extrema_in_order events ->
  StronglySorted Backend.extrema_in_order (Backend.upcoming now events).
Proof.
  intros Hsorted. induction Hsorted as [|e rest Hrest IH Hall]; cbn;
    [constructor |].
  destruct (now <=? Backend.ex_time e); [| exact IH].
  constructor; [exact IH | apply upcoming_Forall; exact Hall].
Qed.

Lemma upcoming_not_past (now : Z) (events : list Backend.Extremum) :
  Forall (fun e => now <= Backend.ex_time e) (Backend.upcoming now events).
Proof.
  induction events as [|e rest IH]; cbn; [constructor |].
  destruct (Z.leb_spec now (Backend.ex_time e)); [constructor |]; assumption.
Qed.

Lemma annotate_sorted (now : Z) (events : list Backend.Extremum) :
  StronglySorted Backend.extrema_in_order events ->
  StronglySorted Backend.events_in_order (map (Backend.annotate now) events).
Proof.
  intros Hsorted. induction Hsorted as [|e rest Hrest IH Hall]; cbn;
    constructor; [exact IH |].
  apply Forall_map. exact Hall.
Qed.

Lemma derive_next_tides_sorted (now : Z) (raw : list Backend.RawExtremum) :
  Sorted Backend.raw_in_order raw ->
  Sorted Backend.events_in_order (Backend.derive_next_tides derive_type now raw).
Proof.
  intros Hsorted. apply StronglySorted_Sorted.
  unfold Backend.derive_next_tides.
  apply annotate_sorted, upcoming_sorted, classify_sorted.
  apply Sorted_StronglySorted; [exact raw_in_order_transitive | exact Hsorted].
Qed.

Lemma derive_next_tides_not_past (now : Z) (raw : list Backend.RawExtremum) :
  Forall (fun e => now <= Wire.time e)
    (Backend.derive_next_tides derive_type now raw).
Proof.
  unfold Backend.derive_next_tides. apply Forall_map.
  apply upcoming_not_past.
Qed.

Variable fetch_tides :
  Backend.Coordinate -> Z -> Backend.Result (list Backend.RawExtremum).
Variable window : Z.
Variable extended_window : Z.

(** An invalid coordinate is refused before the provider is asked. *)
Lemma next_tides_for_invalid (now : Z) (coord : Backend.Coordinate) :
  Backend.valid_coordinate coord = false ->
  Backend.next_tides_for derive_type fetch_tides window extended_window
    now coord
  = Backend.Failed Backend.InvalidInput.
Proof. intros Hinv. unfold Backend.next_tides_for. rewrite Hinv. reflexivity. Qed.

(** What is returned was derived from one of the provider's answers. *)
Lemma next_tides_for_returned (now : Z) (coord : Backend.Coordinate)
  (tides : list Wire.TideEvent) :
  Backend.next_tides_for derive_type fetch_tides window extended_window
    now coord
  = Backend.Returned tides ->
  exists span raw,
    fetch_tides coord span = Backend.Returned raw /\
    tides = Backend.derive_next_tides derive_type now raw.
Proof.
  unfold Backend.next_tides_for.
  destruct (Backend.valid_coordinate coord); [| discriminate].
  destruct (fetch_tides coord window) as [raw | e] eqn:Hfirst;
    [| discriminate].
  destruct (length _ <? 2)%nat.
  - destruct (fetch_tides coord extended_window) as [raw' | e] eqn:Hsecond;
      [| discriminate].
    intros Hret. injection Hret as <-. eauto.
  - intros Hret. injection Hret as <-. eauto.
Qed.

(** A fresh build.  With a provider whose extrema lists are ordered by
    time (the input contract of section 4.2), the [next_tides] built at
    time [now] is non-decreasing in event time and holds no event whose
    time is strictly before [now]. *)
Lemma next_tides_sorted_and_not_past (now : Z) (coord : Backend.Coordinate)
  (tides : list Wire.TideEvent) :
  (forall c span raw,
     fetch_tides c span = Backend.Returned raw ->
     Sorted (fun a b => Backend.raw_time a <= Backend.raw_time b) raw) ->
  Backend.valid_coordinate coord = true ->
  Backend.next_tides_for derive_type fetch_tides window extended_window
    now coord
  = Backend.Returned tides ->
  Sorted (fun a b => Wire.time a <= Wire.time b) tides /\
  (forall e, In e tides -> ~ Wire.time e < now).
Proof.
  intros Hprovider _ Hreturned.
  destruct (next_tides_for_returned _ _ _ Hreturned)
    as (span & raw & Hfetch & ->).
  split.
  - apply derive_next_tides_sorted. exact (Hprovider _ _ _ Hfetch).
  - intros e Hin.
    pose proof (derive_next_tides_not_past now raw) as Hall.
    rewrite List.Forall_forall in Hall. specialize (Hall e Hin). lia.
Qed.

End TideOrdering.

(** The scenario of spec section 8: the two events come back in order,
    none before the query time. *)
Lemma next_tides_sorted_and_not_past_witness :
  Backend.valid_coordinate Fixture.new_york = true /\
  Backend.next_tides_for Fixture.higher_is_high Fixture.scenario_provider
    48 96 0 Fixture.new_york
  = Backend.Returned Fixture.scenario_tides /\
  Sorted (fun a b => Wire.time a <= Wire.time b) Fixture.scenario_tides /\
  (forall e, In e Fixture.scenario_tides -> ~ Wire.time e < 0).
Proof.
  split; [reflexivity |]. split; [reflexivity |].
  apply (next_tides_sorted_and_not_past Fixture.higher_is_high
           Fixture.scenario_provider 48 96 0 Fixture.new_york).
  - intros c span raw Hfetch. injection Hfetch as <-.
    repeat constructor; cbn; lia.
  - reflexivity.
  - reflexivity.
Defined.

(** ** The tides of a bundle served from the cache *)

Section ServedTides.

Variable derive_type : option Q -> Q -> option Q -> Wire.TideType.
Variable fetch_tides :
  Z -> Backend.Coordinate -> Z -> Backend.Result (list Backend.RawExtremum).
Variable window : Z.
Variable extended_window : Z.
Variable ttl : Z.
Variable other_parts : Z -> Backend.Coordinate -> Wire.TideWeatherBundle.

(** The provider's lists are ordered by time (section 4.2). *)
Hypothesis provider_in_order :
  forall asked_at c span raw,
    fetch_tides asked_at c span = Backend.Returned raw ->
    Sorted (fun a b => Backend.raw_time a <= Backend.raw_time b) raw.

#[local] Abbreviation build :=
  (Aggregation.build derive_type fetch_tides window extended_window
     other_parts).
#[local] Abbreviation rebuild :=
  (Aggregation.rebuild derive_type fetch_tides window extended_window ttl
     other_parts).
#[local] Abbreviation get_or_build :=
  (Aggregation.get_or_build derive_type fetch_tides window extended_window
     ttl other_parts).
#[local] Abbreviation serve :=
  (Aggregation.serve derive_type fetch_tides window extended_window ttl
     other_parts).
#[local] Abbreviation cache_after :=
  (Aggregation.cache_after derive_type fetch_tides window extended_window
     ttl other_parts).
#[local] Abbreviation in_order := (map_Forall (fun _ => Aggregation.entry_built_in_order ttl)).

(** A bundle built at time [now] has its tides in order and none before
    [now]. *)
Lemma build_in_order (now : Z) (coord : Backend.Coordinate)
  (b : Wire.TideWeatherBundle) :
  build now coord = Backend.Returned b ->
  Sorted Backend.events_in_order (Wire.next_tides b) /\
  Forall (fun e => now <= Wire.time e) (Wire.next_tides b).
Proof.
  unfold Aggregation.build.
  destruct (Backend.next_tides_for _ _ _ _ _ _) as [tides | e] eqn:Htides;
    [| discriminate].
  intros Hbuilt. injection Hbuilt as <-. cbn [Wire.next_tides
    Aggregation.with_next_tides].
  destruct (next_tides_for_returned _ _ _ _ _ _ _ Htides)
    as (span & raw & Hfetch & ->).
  split.
  - apply derive_next_tides_sorted. exact (provider_in_order _ _ _ _ Hfetch).
  - apply derive_next_tides_not_past.
Qed.

Lemma rebuild_keeps_order (now : Z) (coord : Backend.Coordinate)
  (stale : option Backend.CacheEntry)
  (cache : gmap (Z * Z) Backend.CacheEntry) :
  in_order cache -> in_order (snd (rebuild now coord stale cache)).
Proof.
  intros Hcache. unfold Aggregation.rebuild.
  destruct (build now coord) as [b | e] eqn:Hbuilt.
  - cbn [snd]. apply map_Forall_insert_2; [| exact Hcache].
    destruct (build_in_order _ _ _ Hbuilt) as [Hsorted Hfrom].
    repeat split; assumption.
  - destruct e; try exact Hcache. destruct stale; exact Hcache.
Qed.

Lemma serve_keeps_order (cache : gmap (Z * Z) Backend.CacheEntry)
  (r : Aggregation.Request) :
  in_order cache -> in_order (serve cache r).
Proof.
  intros Hcache. destruct r as [now coord |]; cbn [Aggregation.serve].
  - unfold Aggregation.get_or_build.
    destruct (Backend.valid_coordinate coord); [| exact Hcache].
    destruct (cache !! Aggregation.cache_key coord) as [entry |].
    + destruct (now <? Backend.expires_at entry); [exact Hcache |].
      apply rebuild_keeps_order. exact Hcache.
    + apply rebuild_keeps_order. exact Hcache.
  - apply map_Forall_empty.
Qed.

(** Every entry of the cache of a running engine was built in order. *)
Lemma cache_after_in_order (requests : list Aggregation.Request) :
  in_order (cache_after requests).
Proof.
  unfold Aggregation.cache_after.
  assert (Hfrom : forall cache, in_order cache ->
            in_order (fold_left serve requests cache)).
  { induction requests as [|r requests IH]; intros cache Hcache;
      [exact Hcache |].
    cbn [fold_left]. apply IH, serve_keeps_order, Hcache. }
  apply Hfrom, map_Forall_empty.
Qed.


End ServedTides.



(** ** The overall rating *)

Section OverallRating.

Lemma Qle_bool_compat (c a b : Q) :
  (a == b)%Q -> Qle_bool c a = Qle_bool c b.
Proof.
  intros Hab. destruct (Qle_bool c b) eqn:Hb.
  - apply Qle_bool_iff. apply Qle_bool_iff in Hb. rewrite Hab. exact Hb.
  - destruct (Qle_bool c a) eqn:Ha; [| reflexivity].
    apply Qle_bool_iff in Ha. rewrite Hab in Ha.
    apply Qle_bool_iff in Ha. congruence.
Qed.

Lemma bucket_compat (a b : Q) :
  (a == b)%Q -> Backend.bucket a = Backend.bucket b.
Proof.
  intros Hab. unfold Backend.bucket.
  rewrite (Qle_bool_compat 8 a b Hab), (Qle_bool_compat 6 a b Hab),
    (Qle_bool_compat 4 a b Hab).
  reflexivity.
Qed.

Lemma Qle_bool_false (x y : Q) : Qle_bool x y = false <-> (y < x)%Q.
Proof.
  split.
  - intros Hf. apply Qnot_le_lt. intros Hle.
    apply Qle_bool_iff in Hle. congruence.
  - intros Hlt. destruct (Qle_bool x y) eqn:Hle; [| reflexivity].
    apply Qle_bool_iff in Hle. exfalso. exact (Qlt_not_le _ _ Hlt Hle).
Qed.

(** The buckets, threshold by threshold. *)
Lemma bucket_thresholds (a : Q) :
  ((8 <= a)%Q -> Backend.bucket a = Wire.Excellent) /\
  ((6 <= a)%Q /\ (a < 8)%Q -> Backend.bucket a = Wire.Good) /\
  ((4 <= a)%Q /\ (a < 6)%Q -> Backend.bucket a = Wire.Fair) /\
  ((a < 4)%Q -> Backend.bucket a = Wire.Poor).
Proof.
  unfold Backend.bucket. repeat split.
  - intros H8. apply Qle_bool_iff in H8. rewrite H8. reflexivity.
  - intros [H6 H8]. apply Qle_bool_iff in H6. apply Qle_bool_false in H8.
    rewrite H8, H6. reflexivity.
  - intros [H4 H6]. apply Qle_bool_iff in H4.
    assert (H8 : (a < 8)%Q) by (eapply Qlt_trans; [exact H6 | reflexivity]).
    apply Qle_bool_false in H6, H8. rewrite H8, H6, H4. reflexivity.
  - intros H4.
    assert (H6 : (a < 6)%Q) by (eapply Qlt_trans; [exact H4 | reflexivity]).
    assert (H8 : (a < 8)%Q) by (eapply Qlt_trans; [exact H4 | reflexivity]).
    apply Qle_bool_false in H4, H6, H8. rewrite H8, H6, H4. reflexivity.
Qed.

Lemma total_permutation (l l' : list Q) :
  Permutation l l' -> (Backend.total l == Backend.total l')%Q.
Proof.
  induction 1 as [| x l l' _ IH | x y l | l l' l'' _ IH1 _ IH2]; cbn.
  - reflexivity.
  - rewrite IH. reflexivity.
  - ring.
  - rewrite IH1. exact IH2.
Qed.

Lemma least_le_start (x : Q) (l : list Q) : (Backend.least x l <= x)%Q.
Proof.
  induction l as [|y l IH]; cbn; [apply Qle_refl |].
  destruct (Qle_bool y (Backend.least x l)) eqn:Hle; [| exact IH].
  apply Qle_bool_iff in Hle. eapply Qle_trans; eassumption.
Qed.

Lemma least_le_each (x : Q) (l : list Q) (y : Q) :
  In y l -> (Backend.least x l <= y)%Q.
Proof.
  induction l as [|z l IH]; cbn; [contradiction |].
  intros [-> | Hin].
  - destruct (Qle_bool y (Backend.least x l)) eqn:Hle; [apply Qle_refl |].
    apply Qle_bool_false in Hle. apply Qlt_le_weak. exact Hle.
  - destruct (Qle_bool z (Backend.least x l)) eqn:Hle; [| exact (IH Hin)].
    apply Qle_bool_iff in Hle. eapply Qle_trans; [exact Hle | exact (IH Hin)].
Qed.

Lemma least_is_member (x : Q) (l : list Q) : In (Backend.least x l) (x :: l).
Proof.
  induction l as [|y l IH]; cbn; [left; reflexivity |].
  destruct (Qle_bool y (Backend.least x l)); [right; left; reflexivity |].
  destruct IH as [Hx | Hin]; [left; exact Hx | right; right; exact Hin].
Qed.

Lemma least_lower_bound (x : Q) (l : list Q) (y : Q) :
  In y (x :: l) -> (Backend.least x l <= y)%Q.
Proof.
  intros [<- | Hin]; [apply least_le_start | apply least_le_each; exact Hin].
Qed.

Lemma least_permutation (x y : Q) (l l' : list Q) :
  Permutation (x :: l) (y :: l') ->
  (Backend.least x l == Backend.least y l')%Q.
Proof.
  intros Hperm. apply Qle_antisym.
  - apply least_lower_bound.
    apply (Permutation_in _ (Permutation_sym Hperm)), least_is_member.
  - apply least_lower_bound.
    apply (Permutation_in _ Hperm), least_is_member.
Qed.

Lemma scores_length (suitability : list (string * Q)) :
  length (Backend.scores suitability) = length suitability.
Proof. apply length_map. Qed.

Lemma aggregate_None (policy : Backend.AggregatePolicy)
  (suitability : list (string * Q)) :
  Backend.aggregate policy suitability = None <-> suitability = [].
Proof.
  unfold Backend.aggregate, Backend.scores.
  destruct suitability as [|entry rest]; cbn; split; congruence.
Qed.

(** The mean and the minimum do not depend on the order of the entries. *)
Lemma aggregate_permutation (policy : Backend.AggregatePolicy)
  (s s' : list (string * Q)) :
  Permutation s s' ->
  match Backend.aggregate policy s, Backend.aggregate policy s' with
  | Some a, Some a' => (a == a')%Q
  | None, None => True
  | _, _ => False
  end.
Proof.
  intros Hperm.
  assert (Hscores : Permutation (Backend.scores s) (Backend.scores s'))
    by (apply Permutation_map; exact Hperm).
  unfold Backend.aggregate.
  destruct (Backend.scores s) as [|x l] eqn:Hs,
           (Backend.scores s') as [|y l'] eqn:Hs'.
  - exact I.
  - apply Permutation_nil in Hscores. discriminate.
  - apply Permutation_sym, Permutation_nil in Hscores. discriminate.
  - destruct policy.
    + rewrite (total_permutation _ _ Hscores),
        (Permutation_length Hscores). reflexivity.
    + apply least_permutation. exact Hscores.
Qed.

(** C3. [overall_rating] is a function of the suitability map alone: it
    exists exactly for a non-empty map; it is the bucket of the aggregate
    of all scores under the one policy the engine fixes (the mean: the sum
    of the scores over their number; or the minimum: a score no other
    score is below), Excellent when the aggregate is at least 8, Good when
    at least 6, Fair when at least 4, Poor otherwise; and maps with the same
    entries, in whatever order, get the same rating. *)
Theorem overall_rating_buckets_aggregate (policy : Backend.AggregatePolicy)
  (suitability : list (string * Q)) :
  (Backend.overall_rating policy suitability = None <-> suitability = []) /\
  (forall a, Backend.aggregate policy suitability = Some a ->
     match policy with
     | Backend.MeanPolicy =>
         (a * inject_Z (Z.of_nat (length suitability))
          == Backend.total (Backend.scores suitability))%Q
     | Backend.MinimumPolicy =>
         In a (Backend.scores suitability) /\
         forall x, In x (Backend.scores suitability) -> (a <= x)%Q
     end /\
     exists r, Backend.overall_rating policy suitability = Some r /\
       ((8 <= a)%Q -> r = Wire.Excellent) /\
       ((6 <= a)%Q /\ (a < 8)%Q -> r = Wire.Good) /\
       ((4 <= a)%Q /\ (a < 6)%Q -> r = Wire.Fair) /\
       ((a < 4)%Q -> r = Wire.Poor)) /\
  (forall suitability', Permutation suitability suitability' ->
     Backend.overall_rating policy suitability'
     = Backend.overall_rating policy suitability).
Proof.
  split; [| split].
  - unfold Backend.overall_rating.
    destruct (Backend.aggregate policy suitability) as [a|] eqn:Ha; cbn.
    + split; [discriminate |]. intros Hnil.
      apply (aggregate_None policy) in Hnil. congruence.
    + apply aggregate_None in Ha. split; [intros _; exact Ha | reflexivity].
  - intros a Ha. split.
    + unfold Backend.aggregate in Ha. rewrite <- scores_length.
      destruct (Backend.scores suitability) as [|x rest]; [discriminate |].
      injection Ha as <-. destruct policy.
      * rewrite Qmult_comm. apply Qmult_div_r.
        intros Hzero. unfold Qeq in Hzero. cbn in Hzero. lia.
      * split; [apply least_is_member | apply least_lower_bound].
    + exists (Backend.bucket a). split.
      * unfold Backend.overall_rating. rewrite Ha. reflexivity.
      * apply bucket_thresholds.
  - intros suitability' Hperm. unfold Backend.overall_rating.
    pose proof (aggregate_permutation policy _ _ Hperm) as Hagg.
    destruct (Backend.aggregate policy suitability) as [a|],
             (Backend.aggregate policy suitability') as [a'|];
      cbn; try contradiction; [| reflexivity].
    f_equal. symmetry. apply bucket_compat. exact Hagg.
Qed.

Example overall_rating_mean :
  Backend.overall_rating Backend.MeanPolicy
    [("swimming", 9); ("surfing", 7); ("fishing", 8); ("boating", 3)]%Q
  = Some Wire.Good.
Proof. reflexivity. Qed.

Example overall_rating_minimum :
  Backend.overall_rating Backend.MinimumPolicy
    [("swimming", 9); ("surfing", 7); ("fishing", 8); ("boating", 3)]%Q
  = Some Wire.Poor.
Proof. reflexivity. Qed.

End OverallRating.

(** * Further properties of the client *)

(** ** What the notification helpers touch *)

Section NotificationFrame.

Lemma addNotification_localStorage (msg : string) (type : App.NotificationType)
  (duration : Z) (w : App.World) :
  App.localStorage (App.addNotification msg type duration w)
  = App.localStorage w.
Proof. unfold App.addNotification. destruct (0 <? duration); reflexivity. Qed.

Lemma addNotification_state (msg : string) (type : App.NotificationType)
  (duration : Z) (w : App.World) :
  App.state (App.addNotification msg type duration w)
  = App.setNotifications
      (fun prev =>
         prev ++ [ {| App.notif_id := App.next_id w; App.message := msg;
                      App.ntype := type |} ])
      (App.state w).
Proof. unfold App.addNotification. destruct (0 <? duration); reflexivity. Qed.

Lemma addNotification_timers (msg : string) (type : App.NotificationType)
  (duration : Z) (w : App.World) :
  App.timers (App.addNotification msg type duration w)
  = App.timers w
    ++ (if 0 <? duration
        then [(duration, App.RemoveNotification (App.next_id w))]
        else []).
Proof.
  unfold App.addNotification. destruct (0 <? duration); cbn;
    [reflexivity | now rewrite app_nil_r].
Qed.

Lemma filter_other_ids (n : nat) (l : list App.Notification) :
  Forall (fun notif => App.notif_id notif <> n) l ->
  filter (fun notif => negb (Nat.eqb (App.notif_id notif) n)) l = l.
Proof.
  induction 1 as [|x l Hx _ IH]; [reflexivity |].
  rewrite filter_cons_True.
  - now rewrite IH.
  - apply Nat.eqb_neq in Hx. rewrite Hx. exact I.
Qed.

(** X1. A notification added for a positive duration comes with a timer that
    removes it by its id after that duration (none for duration 0), and
    when no notification on display already has that id, running the removal
    leaves exactly the notifications that were there before, in order. *)
Theorem notification_is_removed_by_its_timer (msg : string)
  (type : App.NotificationType) (duration : Z) (w : App.World) :
  Forall (fun notif => App.notif_id notif <> App.next_id w)
    (App.notifications (App.state w)) ->
  let w' := App.addNotification msg type duration w in
  App.timers w'
  = App.timers w
    ++ (if 0 <? duration
        then [(duration, App.RemoveNotification (App.next_id w))]
        else []) /\
  App.notifications (App.state w')
  = App.notifications (App.state w)
    ++ [ {| App.notif_id := App.next_id w; App.message := msg;
            App.ntype := type |} ] /\
  App.notifications (App.state (App.removeNotification (App.next_id w) w'))
  = App.notifications (App.state w).
Proof.
  intros Hfresh w'. subst w'.
  split; [apply addNotification_timers |].
  split; [rewrite addNotification_state; reflexivity |].
  unfold App.removeNotification. cbn [App.state App.with_state].
  rewrite addNotification_state. cbn [App.notifications App.setNotifications].
  rewrite filter_app, filter_other_ids by exact Hfresh.
  rewrite filter_cons_False, filter_nil; [apply app_nil_r |].
  cbn [App.notif_id]. rewrite Nat.eqb_refl. cbn. tauto.
Qed.

(** Removing a notification never adds or reorders: what stays is a
    sublist of what was shown, no entry with the removed id stays, and
    every entry with another id stays. *)
Lemma removeNotification_removes_only_that_id (n : nat) (w : App.World) :
  let before := App.notifications (App.state w) in
  let after := App.notifications (App.state (App.removeNotification n w)) in
  sublist after before /\
  (forall notif, notif ∈ after <->
     notif ∈ before /\ App.notif_id notif <> n) /\
  App.localStorage (App.removeNotification n w) = App.localStorage w.
Proof.
  cbv zeta. unfold App.removeNotification.
  cbn [App.state App.with_state App.notifications App.setNotifications
       App.localStorage].
  split; [apply sublist_filter |]. split; [| reflexivity].
  intros notif. rewrite list_elem_of_filter.
  destruct (Nat.eqb_spec (App.notif_id notif) n) as [Heq | Hne]; cbn;
    tauto.
Qed.

End NotificationFrame.

Lemma notification_is_removed_by_its_timer_witness :
  Forall (fun notif => App.notif_id notif <> App.next_id Fixture.saved_world)
    (App.notifications (App.state Fixture.saved_world)) /\
  App.notifications
    (App.state
       (App.removeNotification 0
          (App.addNotification "Using stored location" App.Info 2000
             Fixture.saved_world)))
  = [].
Proof.
  assert (Hfresh :
            Forall (fun notif =>
                      App.notif_id notif <> App.next_id Fixture.saved_world)
              (App.notifications (App.state Fixture.saved_world)))
    by constructor.
  split; [exact Hfresh |].
  exact (proj2 (proj2 (notification_is_removed_by_its_timer
                         "Using stored location" App.Info 2000
                         Fixture.saved_world Hfresh))).
Defined.

(** ** Reporting the same error twice *)

Section ErrorReporting.

(** X2. Reporting an error a second time changes nothing: [fetchTideData]
    reports a failed response and rethrows, and the caller's [catch]
    reports the same error again. *)
Theorem handleAPIError_twice (err : App.Thrown)
  (response : option App.HttpResponse) (w : App.World) :
  App.handleAPIError err response (App.handleAPIError err response w)
  = App.handleAPIError err response w.
Proof.
  rewrite !handleAPIError_with_state. reflexivity.
Qed.

(** Whatever is reported, some text is shown. *)
Lemma category_message_not_empty (err : App.Thrown)
  (response : option App.HttpResponse) :
  App.category_message err response <> "".
Proof.
  unfold App.category_message, App.message_or_default.
  destruct (App.status_is response 422); [discriminate |].
  destruct (App.status_is response 500); [discriminate |].
  destruct (App.status_is response 404); [discriminate |].
  destruct (App.thrown_message err) as [m|]; [| discriminate].
  cbn [JS.ToBoolean]. destruct (String.eqb_spec m ""); cbn;
    [discriminate | assumption].
Qed.

End ErrorReporting.

(** ** Saving, clearing and loading the location *)

Section LocationStorage.
Context `{Platform}.
Variable JSON_stringify : JS.value -> string.

Lemma age_test_integral (now t0 : Z) :
  JS.lt (JS.sub (Some (inject_Z now)) (Some (inject_Z t0)))
        (Some (inject_Z 3600000))
  = (now - t0 <? 3600000).
Proof.
  cbn [JS.sub JS.lt].
  destruct (Z.ltb_spec (now - t0) 3600000) as [Hlt | Hge].
  - apply Qlt_bool_iff. unfold Qminus. rewrite <- inject_Z_opp, <- inject_Z_plus.
    rewrite <- Zlt_Qlt. lia.
  - destruct (JS.Qlt_bool _ _) eqn:Hq; [| reflexivity].
    apply Qlt_bool_iff in Hq.
    unfold Qminus in Hq. rewrite <- inject_Z_opp, <- inject_Z_plus in Hq.
    rewrite <- Zlt_Qlt in Hq. lia.
Qed.

Lemma saveLocation_stored (now : Z) (coords : JS.value) (w : App.World) :
  App.localStorage (AppFlow.saveLocation JSON_stringify true now coords w)
  = <["tideApp_location" :=
        JSON_stringify (AppFlow.locationData coords now)]>
      (App.localStorage w).
Proof.
  unfold AppFlow.saveLocation. rewrite addNotification_localStorage.
  reflexivity.
Qed.

(** X3. What [saveLocation] stores is what [loadStoredLocation] reads
    back: when [JSON.parse] inverts [JSON.stringify] on the stored object
    (whose text is not empty), loading at time [now] after a successful save
    at time [t0] returns the saved coordinates if less than an hour
    (3,600,000 ms) has passed, and null from then on. *)
Theorem saved_location_round_trip (t0 now : Z) (coords : JS.value)
  (w : App.World) :
  JSON_parse (JSON_stringify (AppFlow.locationData coords t0))
  = Some (AppFlow.locationData coords t0) ->
  JSON_stringify (AppFlow.locationData coords t0) <> "" ->
  fst (App.loadStoredLocation now
         (AppFlow.saveLocation JSON_stringify true t0 coords w))
  = JS.Normal (if now - t0 <? 3600000 then coords else JS.VNull).
Proof.
  intros Hparse Hnonempty.
  rewrite loadStoredLocation_result, saveLocation_stored.
  change App.LOCATION_KEY with "tideApp_location".
  rewrite lookup_insert_eq.
  cbn [JS.ToBoolean].
  destruct (String.eqb_spec (JSON_stringify (AppFlow.locationData coords t0)) "")
    as [Heq | _]; [contradiction |].
  cbn [negb]. rewrite Hparse.
  cbn [AppFlow.locationData JS.Get JS.own_property String.eqb Ascii.eqb
       Bool.eqb JSCoercions.ToNumber].
  rewrite age_test_integral. reflexivity.
Qed.

(** X4. A failed write ([setItem] throws) leaves local storage as it was
    and only adds the warning notification; a successful one replaces the
    entry under 'tideApp_location' and touches no other key.  Either way
    the component state is changed in its notifications only. *)
Theorem saveLocation_touches_one_key (written : bool) (now : Z)
  (coords : JS.value) (w : App.World) :
  let w' := AppFlow.saveLocation JSON_stringify written now coords w in
  (written = false -> App.localStorage w' = App.localStorage w) /\
  (forall key, key <> "tideApp_location" ->
     App.localStorage w' !! key = App.localStorage w !! key) /\
  (written = true ->
   App.localStorage w' !! "tideApp_location"
   = Some (JSON_stringify (AppFlow.locationData coords now))) /\
  App.location (App.state w') = App.location (App.state w) /\
  App.tideData (App.state w') = App.tideData (App.state w) /\
  App.error (App.state w') = App.error (App.state w).
Proof.
  cbv zeta. destruct written.
  - rewrite saveLocation_stored. repeat split; try discriminate.
    + intros key Hkey. apply lookup_insert_ne. congruence.
    + intros _. apply lookup_insert_eq.
  - unfold AppFlow.saveLocation. rewrite addNotification_localStorage.
    repeat split; discriminate.
Qed.

(** X5. After [clearStoredLocation] no location is loaded, whatever the
    time, and every other key of local storage is as before. *)
Theorem cleared_location_is_not_loaded (now : Z) (w : App.World) :
  fst (App.loadStoredLocation now (AppFlow.clearStoredLocation w))
  = JS.Normal JS.VNull /\
  App.localStorage (AppFlow.clearStoredLocation w) !! "tideApp_location"
  = None /\
  (forall key, key <> "tideApp_location" ->
     App.localStorage (AppFlow.clearStoredLocation w) !! key
     = App.localStorage w !! key).
Proof.
  assert (Hstorage :
            App.localStorage (AppFlow.clearStoredLocation w)
            = delete "tideApp_location" (App.localStorage w)).
  { unfold AppFlow.clearStoredLocation.
    rewrite addNotification_localStorage. reflexivity. }
  split; [| split].
  - rewrite loadStoredLocation_result, Hstorage.
    change App.LOCATION_KEY with "tideApp_location".
    rewrite lookup_delete_eq. reflexivity.
  - rewrite Hstorage. apply lookup_delete_eq.
  - intros key Hkey. rewrite Hstorage. apply lookup_delete_ne. congruence.
Qed.

(** X6. After a confirmed [clearAllLocalStorage] no location is loaded,
    whatever the time, and the storage report lists no item. *)
Theorem confirmed_clear_empties_storage_report (now : Z) (w : App.World) :
  let w' := App.clearAllLocalStorage true w in
  fst (App.loadStoredLocation now w') = JS.Normal JS.VNull /\
  AppFlow.itemCount (AppFlow.getLocalStorageInfo w') = 0 /\
  AppFlow.items (AppFlow.getLocalStorageInfo w') = [].
Proof.
  cbv zeta.
  assert (Hstorage : App.localStorage (App.clearAllLocalStorage true w) = ∅)
    by reflexivity.
  split; [| split].
  - rewrite loadStoredLocation_result, Hstorage, lookup_empty. reflexivity.
  - unfold AppFlow.getLocalStorageInfo. cbn [AppFlow.itemCount].
    rewrite Hstorage, map_to_list_empty. reflexivity.
  - unfold AppFlow.getLocalStorageInfo. cbn [AppFlow.items].
    rewrite Hstorage, map_to_list_empty. reflexivity.
Qed.

End LocationStorage.

Lemma saved_location_round_trip_witness :
  JSON_parse (Platform := Fixture.browser) Fixture.stored_document
  = Some (AppFlow.locationData Fixture.stored_coords 1000) /\
  fst (App.loadStoredLocation (H := Fixture.browser) 2000
         (AppFlow.saveLocation (fun _ => Fixture.stored_document) true 1000
            Fixture.stored_coords Fixture.saved_world))
  = JS.Normal Fixture.stored_coords.
Proof.
  split; [reflexivity |].
  exact (saved_location_round_trip (H := Fixture.browser)
           (fun _ => Fixture.stored_document) 1000 2000 Fixture.stored_coords
           Fixture.saved_world eq_refl
           (fun Heq : Fixture.stored_document = "" =>
              eq_ind Fixture.stored_document
                (fun s => match s with EmptyString => False | _ => True end)
                I "" Heq)).
Defined.

(** ** The storage report and its labels *)

Section StorageReport.
Context `{Platform}.

Lemma insert_by_size_permutation (x : AppFlow.StorageItem)
  (l : list AppFlow.StorageItem) :
  Permutation (AppFlow.insert_by_size x l) (x :: l).
Proof.
  induction l as [|y l IH]; cbn; [reflexivity |].
  destruct (AppFlow.item_size x <? AppFlow.item_size y); [| reflexivity].
  rewrite IH. apply perm_swap.
Qed.

Lemma sort_by_size_permutation (l : list AppFlow.StorageItem) :
  Permutation (AppFlow.sort_by_size l) l.
Proof.
  induction l as [|x l IH]; cbn; [reflexivity |].
  rewrite insert_by_size_permutation. now constructor.
Qed.

Lemma insert_by_size_sorted (x : AppFlow.StorageItem)
  (l : list AppFlow.StorageItem) :
  Sorted AppFlow.largest_first l -> Sorted AppFlow.largest_first (AppFlow.insert_by_size x l).
Proof.
  induction 1 as [|y l Hl IH Hhd]; cbn; [repeat constructor |].
  destruct (Z.ltb_spec (AppFlow.item_size x) (AppFlow.item_size y))
    as [Hlt | Hge].
  - constructor; [exact IH |].
    destruct l as [|z l]; cbn.
    + constructor. unfold AppFlow.largest_first. lia.
    + destruct (Z.ltb_spec (AppFlow.item_size x) (AppFlow.item_size z));
        constructor; unfold AppFlow.largest_first in *.
      * inversion Hhd; assumption.
      * lia.
  - constructor; [constructor; assumption |].
    constructor. unfold AppFlow.largest_first. lia.
Qed.

Lemma sort_by_size_sorted (l : list AppFlow.StorageItem) :
  Sorted AppFlow.largest_first (AppFlow.sort_by_size l).
Proof.
  induction l as [|x l IH]; cbn; [constructor |].
  apply insert_by_size_sorted. exact IH.
Qed.

(** The code units of short texts: an accented letter is one unit where
    its UTF-8 form has two bytes, and a character beyond the basic plane is
    a pair of surrogates. *)
Example utf16_of_accented_letters :
  JSText.utf16 "aé€" = [97; 233; 8364] /\ JSText.length "éü" = 2%nat.
Proof. split; reflexivity. Qed.

Example utf16_of_surrogate_pair :
  JSText.utf16 "😀" = [55357; 56832].
Proof. reflexivity. Qed.

(** X7. [getLocalStorageInfo] reports every stored key exactly once, each
    with the length, in UTF-16 code units, of its key and value together,
    the largest first, and counts as many items as local storage has
    entries. *)
Theorem getLocalStorageInfo_lists_every_key (w : App.World) :
  let info := AppFlow.getLocalStorageInfo w in
  AppFlow.itemCount info = Z.of_nat (size (App.localStorage w)) /\
  length (AppFlow.items info) = size (App.localStorage w) /\
  Sorted (fun a b => AppFlow.item_size b <= AppFlow.item_size a)
    (AppFlow.items info) /\
  NoDup (map AppFlow.item_key (AppFlow.items info)) /\
  (forall key n,
     {| AppFlow.item_key := key; AppFlow.item_size := n |}
       ∈ AppFlow.items info
     <-> exists value,
           App.localStorage w !! key = Some value /\
           n = Z.of_nat (length (JSText.utf16 (key +:+ value)))).
Proof.
  cbv zeta. unfold AppFlow.getLocalStorageInfo.
  cbn [AppFlow.itemCount AppFlow.items].
  set (entries := map_to_list (App.localStorage w)).
  assert (Hperm : Permutation
                    (AppFlow.sort_by_size (map AppFlow.storage_item entries))
                    (map AppFlow.storage_item entries))
    by apply sort_by_size_permutation.
  split; [| split; [| split; [| split]]].
  - rewrite length_map. subst entries. now rewrite length_map_to_list.
  - rewrite (Permutation_length Hperm), length_map. subst entries.
    apply length_map_to_list.
  - apply sort_by_size_sorted.
  - rewrite (Permutation_map AppFlow.item_key Hperm), map_map. cbn.
    subst entries. apply NoDup_fst_map_to_list.
  - intros key n. rewrite Hperm.
    change (map AppFlow.storage_item entries)
      with (AppFlow.storage_item <$> entries).
    rewrite list_elem_of_fmap. split.
    + intros ([k v] & Hitem & Hin). injection Hitem as -> ->.
      exists v. split; [| reflexivity]. subst entries.
      now apply elem_of_map_to_list.
    + intros (value & Hlookup & ->). exists (key, value).
      split; [reflexivity |]. subst entries.
      now apply elem_of_map_to_list.
Qed.

(** [length] adds up over [+]: how many units a byte gives depends on the
    byte alone. *)
Lemma utf16_length_append (s1 s2 : string) :
  JSText.length (s1 +:+ s2) = (JSText.length s1 + JSText.length s2)%nat.
Proof.
  unfold JSText.length.
  induction s1 as [|c s1 IH]; [reflexivity |].
  change (String c s1 +:+ s2) with (String c (s1 +:+ s2)).
  cbn [JSText.utf16]. cbv zeta.
  destruct (JSText.byte c <? 128); [cbn [length]; now rewrite IH |].
  destruct (JSText.byte c <? 192); [exact IH |].
  destruct (JSText.byte c <? 224); [cbn [length]; now rewrite IH |].
  destruct (JSText.byte c <? 240); [cbn [length]; now rewrite IH |].
  rewrite !length_app, IH. cbn [length JSText.surrogates]. lia.
Qed.

(** X8. The label of a stored key in the storage details, in UTF-16 code
    units: it is the key itself when the key has at most 20 units, and
    otherwise the first 20 units of the key followed by three dots; a label
    never has more than 23 units. *)
Theorem key_label_is_bounded (key : string) :
  ((length (JSText.utf16 key) <= 20)%nat ->
   StorageDetails.key_label key = JSText.utf16 key) /\
  ((20 < length (JSText.utf16 key))%nat ->
   exists head tail,
     StorageDetails.key_label key = head ++ [46; 46; 46] /\
     length head = 20%nat /\
     JSText.utf16 key = head ++ tail) /\
  (length (StorageDetails.key_label key) <= 23)%nat.
Proof.
  unfold StorageDetails.key_label, JSText.length.
  destruct (Nat.ltb_spec 20 (length (JSText.utf16 key))) as [Hlong | Hshort].
  - split; [lia |]. split.
    + intros _.
      exists (take 20 (JSText.utf16 key)), (drop 20 (JSText.utf16 key)).
      split; [reflexivity |].
      split; [rewrite length_take; lia | symmetry; apply take_drop].
    + rewrite length_app, length_take.
      change (length (JSText.utf16 "...")) with 3%nat. lia.
  - split; [reflexivity |]. split; [lia | lia].
Qed.

(** A key of fifteen accented letters has fifteen units and is shown as it
    is; a key of twenty-one letters is cut. *)
Example key_label_of_accented_key :
  StorageDetails.key_label "ééééééééééééééé"
  = JSText.utf16 "ééééééééééééééé" /\
  StorageDetails.key_label "tideApp_location_old1"
  = JSText.utf16 "tideApp_location_old...".
Proof. split; reflexivity. Qed.

End StorageReport.

(** ** The tide timeline and the forecast rows *)

Section Timeline.
Context `{Platform}.

(** X9. [TideChart] renders nothing exactly for an empty list of tides;
    otherwise it shows one row per event among the first six, in order,
    with the event's type, formatted time, relative time and height, and no
    row beyond. *)
Theorem TideChart_shows_first_six (tides : list Wire.TideEvent) :
  (TideChart.TideChart tides = None <-> tides = []) /\
  (forall rows, TideChart.TideChart tides = Some rows ->
     length rows = Nat.min 6 (length tides) /\
     (forall i tide, (i < 6)%nat -> tides !! i = Some tide ->
        rows !! i
        = Some {| TideChart.row_title :=
                    Wire.TideType_text (Wire.type tide) +:+ " Tide";
                  TideChart.row_time :=
                    toLocaleTimeString false (Wire.time tide);
                  TideChart.row_relative := Wire.relative_time tide;
                  TideChart.row_height :=
                    "Height: " +:+ NumberToString (Wire.height tide)
                    +:+ "m" |}) /\
     (forall i, (6 <= i)%nat -> rows !! i = None)).
Proof.
  unfold TideChart.TideChart.
  destruct (Nat.eqb_spec (length tides) 0) as [Hempty | Hsome].
  - apply length_zero_iff_nil in Hempty.
    split; [split; auto | discriminate].
  - split.
    { split; [discriminate | intros ->; contradiction]. }
    intros rows Hrows. injection Hrows as <-.
    split; [| split].
    + rewrite length_map. apply length_take.
    + intros i tide Hi Hlookup.
      rewrite lookup_of_map, lookup_take_lt, Hlookup by exact Hi. reflexivity.
    + intros i Hi. rewrite lookup_of_map, lookup_take_ge by exact Hi.
      reflexivity.
Qed.


End Timeline.

(** ** Fetching, refreshing and starting up *)

Section Flows.
Context `{Platform}.
Variable JSON_stringify : JS.value -> string.

(** *** What each step leaves of the data *)

Lemma unnotified_addNotification (msg : string) (type : App.NotificationType)
  (duration : Z) (w : App.World) :
  AppFlow.unnotified (App.addNotification msg type duration w)
  = AppFlow.unnotified w.
Proof. unfold App.addNotification. destruct (0 <? duration); reflexivity. Qed.

Lemma unnotified_with_state (f : App.AppState -> App.AppState) (w : App.World) :
  (forall g s, App.setNotifications g (f s) = f (App.setNotifications g s)) ->
  AppFlow.unnotified (App.with_state f w)
  = App.with_state f (AppFlow.unnotified w).
Proof.
  intros Hcommute. unfold AppFlow.unnotified, App.with_state. cbn.
  now rewrite Hcommute.
Qed.

Lemma unnotified_handleAPIError (err : App.Thrown)
  (response : option App.HttpResponse) (w : App.World) :
  AppFlow.unnotified (App.handleAPIError err response w)
  = App.with_state
      (App.setError (Some (App.category_message err response)))
      (AppFlow.unnotified w).
Proof. rewrite handleAPIError_with_state. reflexivity. Qed.

Lemma unnotified_loadStoredLocation (now : Z) (w : App.World) :
  AppFlow.unnotified (snd (App.loadStoredLocation now w))
  = AppFlow.unnotified w.
Proof.
  unfold App.loadStoredLocation, App.try_catch, App.loadStoredLocation_try,
    App.bind, App.ret, App.throw, App.lift, App.exec.
  destruct (App.localStorage w !! App.LOCATION_KEY) as [stored|];
    [| reflexivity].
  destruct (JS.ToBoolean (JS.VStr stored)); [| reflexivity].
  destruct (JSON_parse stored) as [parsed|]; [| reflexivity].
  destruct (JS.Get parsed "timestamp") as [timestamp | e] eqn:Hts;
    [| reflexivity].
  destruct (JS.lt _ _); [| reflexivity].
  destruct (Get_timestamp_then_coords _ _ Hts) as (coords & ->).
  reflexivity.
Qed.

(** What is loaded depends on local storage only. *)
Lemma loadStoredLocation_reads_storage (now : Z) (w1 w2 : App.World) :
  App.localStorage w1 = App.localStorage w2 ->
  fst (App.loadStoredLocation now w1) = fst (App.loadStoredLocation now w2).
Proof. intros Hsame. rewrite !loadStoredLocation_result, Hsame. reflexivity. Qed.

Lemma unnotified_storage (w1 w2 : App.World) :
  AppFlow.unnotified w1 = AppFlow.unnotified w2 ->
  App.localStorage w1 = App.localStorage w2.
Proof. intros Heq. exact (f_equal App.localStorage Heq). Qed.

Lemma unnotified_getCurrentLocation (geo : AppFlow.GeoResult) (w : App.World) :
  AppFlow.unnotified (snd (AppFlow.getCurrentLocation geo w))
  = AppFlow.unnotified w.
Proof. destruct geo; reflexivity. Qed.

Lemma getCurrentLocation_result (geo : AppFlow.GeoResult) (w : App.World) :
  fst (AppFlow.getCurrentLocation geo w)
  = match geo with
    | AppFlow.Unsupported =>
        AppFlow.RejectedWith
          (AppFlow.new_Error "Geolocation is not supported by this browser")
    | AppFlow.Position latitude longitude accuracy =>
        AppFlow.Resolved
          (JS.VObj [ ("lat", JS.VNum latitude); ("lon", JS.VNum longitude);
                     ("accuracy", JS.VNum accuracy) ])
    | AppFlow.GeoError code =>
        AppFlow.RejectedWith
          (AppFlow.new_Error (AppFlow.geolocation_message code))
    end.
Proof. destruct geo; reflexivity. Qed.

Lemma unnotified_checkBackendHealth
  (outcome : App.FetchOutcome Wire.Health) (w : App.World) :
  AppFlow.unnotified (App.checkBackendHealth outcome w)
  = AppFlow.unnotified
      (App.checkBackendHealth outcome (AppFlow.unnotified w)).
Proof.
  destruct outcome as [|r [health|]]; cbn; [reflexivity | |];
    destruct (App.ok r); reflexivity.
Qed.

(** The answer of [fetchTideData] depends on the response only. *)
Lemma fetchTideData_result (response : AppFlow.TideResponse) (w : App.World) :
  fst (AppFlow.fetchTideData response w)
  = match response with
    | AppFlow.NoResponse message =>
        AppFlow.RejectedWith
          {| App.thrown_message := message; App.thrown_response := None |}
    | AppFlow.HttpAnswer r text json =>
        if App.ok r then
          match json with
          | AppFlow.Parsed data => AppFlow.Resolved data
          | AppFlow.Unreadable message =>
              AppFlow.RejectedWith
                {| App.thrown_message := message;
                   App.thrown_response := None |}
          end
        else AppFlow.RejectedWith (AppFlow.api_error r text)
    end.
Proof.
  destruct response as [message | r text [data | message]]; cbn;
    try reflexivity; destruct (App.ok r); reflexivity.
Qed.

Lemma unnotified_fetchTideData_resolved (response : AppFlow.TideResponse)
  (w : App.World) (data : Wire.TideWeatherBundle) :
  fst (AppFlow.fetchTideData response w) = AppFlow.Resolved data ->
  AppFlow.unnotified (snd (AppFlow.fetchTideData response w))
  = AppFlow.unnotified w.
Proof.
  rewrite fetchTideData_result.
  unfold AppFlow.fetchTideData, AppFlow.fetchTideData_catch.
  destruct response as [message | r text [d | message]];
    try (destruct (App.ok r)); try discriminate; intros _;
    cbn [snd]; apply unnotified_addNotification.
Qed.

(** After a rejected fetch, the caller's report settles the error text. *)
Lemma unnotified_report_after_fetch (response : AppFlow.TideResponse)
  (w : App.World) (err : App.Thrown) :
  fst (AppFlow.fetchTideData response w) = AppFlow.RejectedWith err ->
  AppFlow.unnotified
    (AppFlow.report err (snd (AppFlow.fetchTideData response w)))
  = App.with_state
      (App.setError
         (Some (App.category_message err (App.thrown_response err))))
      (AppFlow.unnotified w).
Proof.
  intros Hrejected. rewrite fetchTideData_result in Hrejected.
  unfold AppFlow.report. rewrite unnotified_handleAPIError.
  unfold AppFlow.fetchTideData, AppFlow.fetchTideData_catch.
  destruct response as [message | r text [d | message]];
    try (destruct (App.ok r)); try discriminate;
    injection Hrejected as <-;
    cbn [snd App.thrown_response AppFlow.api_error];
    rewrite unnotified_addNotification, ?unnotified_handleAPIError;
    reflexivity.
Qed.

(** *** Failed responses *)

(** X11. For a response that is not ok, [fetchTideData] rejects with the
    response attached and the message "API Error: <status> - <detail>",
    where the detail is the body text itself when the body is not JSON; it
    sets the error text by status (the message itself outside 422, 500 and
    404, never the generic text), leaves the tide data alone, and adds the
    one notification 'Failed to fetch tide data'. *)
Theorem fetchTideData_reports_failed_response (r : App.HttpResponse)
  (text : string) (json : AppFlow.Body) (w : App.World) :
  App.ok r = false ->
  let result := AppFlow.fetchTideData (AppFlow.HttpAnswer r text json) w in
  exists detail,
    let msg :=
      "API Error: " +:+ JS.Number_toString (App.status r) +:+ " - "
      +:+ detail in
    fst result
    = AppFlow.RejectedWith
        {| App.thrown_message := Some msg; App.thrown_response := Some r |} /\
    (JSON_parse text = None -> detail = text) /\
    App.error (App.state (snd result))
    = Some (if App.status r =? 422 then
              "Invalid location coordinates provided. Please check your location settings."
            else if App.status r =? 500 then
              "Server error occurred. This might be due to missing API keys or service unavailability."
            else if App.status r =? 404 then
              "API endpoint not found. Please check if the backend server is running."
            else msg) /\
    App.tideData (App.state (snd result)) = App.tideData (App.state w) /\
    App.notifications (App.state (snd result))
    = App.notifications (App.state w)
      ++ [ {| App.notif_id := App.next_id w;
              App.message := "Failed to fetch tide data";
              App.ntype := App.Error |} ].
Proof.
  intros Hnot_ok. cbv zeta.
  exists (AppFlow.ToString (AppFlow.errorDetail text)).
  unfold AppFlow.fetchTideData. rewrite Hnot_ok.
  unfold AppFlow.fetchTideData_catch.
  cbn [fst snd AppFlow.api_error App.thrown_response].
  split; [reflexivity |]. split.
  { intros Hparse. unfold AppFlow.errorDetail. rewrite Hparse. reflexivity. }
  rewrite addNotification_state, handleAPIError_with_state.
  cbn [App.with_state App.state App.next_id App.error App.tideData
       App.notifications App.setNotifications App.setError].
  split; [| split; reflexivity].
  unfold App.category_message. cbn [App.status_is].
  destruct (App.status r =? 422); [reflexivity |].
  destruct (App.status r =? 500); [reflexivity |].
  destruct (App.status r =? 404); reflexivity.
Qed.

(** *** Refreshing *)

Lemma unnotified_tideData (w : App.World) :
  App.tideData (App.state (AppFlow.unnotified w)) = App.tideData (App.state w).
Proof. reflexivity. Qed.

(** X12. A refresh whose fetch is rejected keeps the tide data, the time
    of the last update, the backend status and local storage as they were;
    without a location on display it changes nothing at all, and with one
    it ends with a non-empty error text on display. *)
Theorem failed_refresh_keeps_tide_data (tide : AppFlow.TideResponse)
  (health : App.FetchOutcome Wire.Health) (now : Z) (w : App.World)
  (err : App.Thrown) :
  fst (AppFlow.fetchTideData tide w) = AppFlow.RejectedWith err ->
  let w' := AppFlow.refreshData tide health now w in
  App.tideData (App.state w') = App.tideData (App.state w) /\
  App.lastUpdated (App.state w') = App.lastUpdated (App.state w) /\
  App.backendStatus (App.state w') = App.backendStatus (App.state w) /\
  App.localStorage w' = App.localStorage w /\
  (JS.ToBoolean (App.location (App.state w)) = false -> w' = w) /\
  (JS.ToBoolean (App.location (App.state w)) = true ->
   exists shown, App.error (App.state w') = Some shown /\ shown <> "").
Proof.
  intros Hrejected. cbv zeta. unfold AppFlow.refreshData.
  destruct (JS.ToBoolean (App.location (App.state w))) eqn:Hlocated;
    cbn [negb].
  2: { repeat split; try reflexivity. discriminate. }
  set (w0 := App.addNotification "Refreshing data..." App.Info 1000
               (App.with_state (App.setError None) w)).
  assert (Hfetch : fst (AppFlow.fetchTideData tide w0)
                   = AppFlow.RejectedWith err).
  { rewrite fetchTideData_result. rewrite fetchTideData_result in Hrejected.
    exact Hrejected. }
  pose proof (unnotified_report_after_fetch tide w0 err Hfetch) as Hdata.
  destruct (AppFlow.fetchTideData tide w0) as [result w1].
  cbn [fst snd] in Hfetch, Hdata. subst result.
  subst w0. rewrite unnotified_addNotification in Hdata.
  set (w2 := AppFlow.report err w1) in *.
  assert (Hfield : forall (A : Type) (f : App.World -> A),
             (forall x, f (AppFlow.unnotified x) = f x) ->
             f w2 = f (AppFlow.unnotified w2)) by (intros A f Hf; now rewrite Hf).
  rewrite (Hfield _ (fun x => App.tideData (App.state x))) by reflexivity.
  rewrite (Hfield _ (fun x => App.lastUpdated (App.state x))) by reflexivity.
  rewrite (Hfield _ (fun x => App.backendStatus (App.state x))) by reflexivity.
  rewrite (Hfield _ App.localStorage) by reflexivity.
  rewrite (Hfield _ (fun x => App.error (App.state x))) by reflexivity.
  rewrite Hdata. cbn.
  repeat split; try reflexivity; try discriminate.
  intros _. eexists. split; [reflexivity | apply category_message_not_empty].
Qed.

(** X13. With a location on display, a refresh whose fetch resolves shows
    the new bundle, clears the error text, records the time, and ends with
    the backend status and API health that the health check gives; local
    storage and the location are as before. *)
Theorem successful_refresh_shows_data (tide : AppFlow.TideResponse)
  (health : App.FetchOutcome Wire.Health) (now : Z) (w : App.World)
  (data : Wire.TideWeatherBundle) :
  JS.ToBoolean (App.location (App.state w)) = true ->
  fst (AppFlow.fetchTideData tide w) = AppFlow.Resolved data ->
  let w' := AppFlow.refreshData tide health now w in
  App.tideData (App.state w') = Some data /\
  App.error (App.state w') = None /\
  App.lastUpdated (App.state w') = Some now /\
  App.backendStatus (App.state w')
  = App.backendStatus (App.state (App.checkBackendHealth health w)) /\
  App.apiHealth (App.state w')
  = App.apiHealth (App.state (App.checkBackendHealth health w)) /\
  App.location (App.state w') = App.location (App.state w) /\
  App.localStorage w' = App.localStorage w.
Proof.
  intros Hlocated Hresolved. cbv zeta. unfold AppFlow.refreshData.
  rewrite Hlocated. cbn [negb].
  set (w0 := App.addNotification "Refreshing data..." App.Info 1000
               (App.with_state (App.setError None) w)).
  assert (Hfetch : fst (AppFlow.fetchTideData tide w0) = AppFlow.Resolved data).
  { rewrite fetchTideData_result. rewrite fetchTideData_result in Hresolved.
    exact Hresolved. }
  pose proof (unnotified_fetchTideData_resolved tide w0 data Hfetch) as Hdata.
  destruct (AppFlow.fetchTideData tide w0) as [result w1].
  cbn [fst snd] in Hfetch, Hdata. subst result.
  subst w0. rewrite unnotified_addNotification in Hdata.
  set (w2 := App.checkBackendHealth health (AppFlow.show_data data now w1)).
  assert (Hw2 : AppFlow.unnotified w2
                = AppFlow.unnotified
                    (App.checkBackendHealth health
                       (AppFlow.show_data data now
                          (App.with_state (App.setError None)
                             (AppFlow.unnotified w))))).
  { subst w2. rewrite unnotified_checkBackendHealth.
    unfold AppFlow.show_data.
    rewrite !unnotified_with_state by reflexivity. rewrite Hdata.
    rewrite unnotified_with_state by reflexivity. reflexivity. }
  assert (Hfield : forall (A : Type) (f : App.World -> A),
             (forall x, f (AppFlow.unnotified x) = f x) ->
             f w2 = f (AppFlow.unnotified w2)) by (intros A f Hf; now rewrite Hf).
  rewrite (Hfield _ (fun x => App.tideData (App.state x))) by reflexivity.
  rewrite (Hfield _ (fun x => App.lastUpdated (App.state x))) by reflexivity.
  rewrite (Hfield _ (fun x => App.backendStatus (App.state x))) by reflexivity.
  rewrite (Hfield _ (fun x => App.apiHealth (App.state x))) by reflexivity.
  rewrite (Hfield _ (fun x => App.location (App.state x))) by reflexivity.
  rewrite (Hfield _ App.localStorage) by reflexivity.
  rewrite (Hfield _ (fun x => App.error (App.state x))) by reflexivity.
  rewrite Hw2.
  destruct health as [|r [h|]]; cbn; try destruct (App.ok r);
    repeat split; reflexivity.
Qed.

(** *** Starting up *)

Lemma unnotified_show_data (data : Wire.TideWeatherBundle) (now : Z)
  (w : App.World) :
  AppFlow.unnotified (AppFlow.show_data data now w)
  = AppFlow.show_data data now (AppFlow.unnotified w).
Proof. reflexivity. Qed.

Lemma unnotified_saveLocation (written : bool) (now : Z) (coords : JS.value)
  (w : App.World) :
  AppFlow.unnotified (AppFlow.saveLocation JSON_stringify written now coords w)
  = if written
    then AppFlow.localStorage_setItem "tideApp_location"
           (JSON_stringify (AppFlow.locationData coords now))
           (AppFlow.unnotified w)
    else AppFlow.unnotified w.
Proof.
  unfold AppFlow.saveLocation. destruct written;
    rewrite unnotified_addNotification; reflexivity.
Qed.

(** The error text a [catch] block leaves for a caught error. *)
Lemma unnotified_report (err : App.Thrown) (w : App.World) :
  AppFlow.unnotified (AppFlow.report err w)
  = App.with_state
      (App.setError
         (Some (App.category_message err (App.thrown_response err))))
      (AppFlow.unnotified w).
Proof. apply unnotified_handleAPIError. Qed.

Lemma fetchTideData_same_answer (response : AppFlow.TideResponse)
  (w1 w2 : App.World) :
  fst (AppFlow.fetchTideData response w1)
  = fst (AppFlow.fetchTideData response w2).
Proof. now rewrite !fetchTideData_result. Qed.

(** The data left by the end of [initializeApp]'s [try] and [catch] once
    the location is known. *)
Lemma initializeApp_after_fetch (tide : AppFlow.TideResponse) (now : Z)
  (w : App.World) :
  AppFlow.unnotified
    match AppFlow.fetchTideData tide w with
    | (AppFlow.RejectedWith err, w1) =>
        App.addNotification "Application initialization failed" App.Error
          App.DEFAULT_DURATION (AppFlow.report err w1)
    | (AppFlow.Resolved data, w1) =>
        App.addNotification "Application initialized successfully"
          App.Success App.DEFAULT_DURATION (AppFlow.show_data data now w1)
    end
  = match fst (AppFlow.fetchTideData tide w) with
    | AppFlow.Resolved data =>
        AppFlow.show_data data now (AppFlow.unnotified w)
    | AppFlow.RejectedWith err =>
        App.with_state
          (App.setError
             (Some (App.category_message err (App.thrown_response err))))
          (AppFlow.unnotified w)
    end.
Proof.
  pose proof (unnotified_fetchTideData_resolved tide w) as Hresolved.
  pose proof (unnotified_report_after_fetch tide w) as Hrejected.
  destruct (AppFlow.fetchTideData tide w) as [[data | err] w1];
    cbn [fst snd] in *; rewrite unnotified_addNotification.
  - rewrite unnotified_show_data, (Hresolved data) by reflexivity.
    reflexivity.
  - apply Hrejected. reflexivity.
Qed.

Lemma loadStoredLocation_completes (now : Z) (w : App.World) :
  exists stored, fst (App.loadStoredLocation now w) = JS.Normal stored.
Proof. rewrite loadStoredLocation_result. eauto. Qed.

(** The answer and the data left by the search for a location. *)
Lemma locate_data (i : AppFlow.Inputs) (w : App.World) :
  exists stored,
    fst (App.loadStoredLocation (AppFlow.load_time i) w) = JS.Normal stored /\
    if JS.ToBoolean stored then
      fst (AppFlow.locate JSON_stringify i w) = AppFlow.Resolved stored /\
      AppFlow.unnotified (snd (AppFlow.locate JSON_stringify i w))
      = App.with_state (App.setLocation stored) (AppFlow.unnotified w)
    else
      match AppFlow.geo i with
      | AppFlow.Position latitude longitude accuracy =>
          let coords :=
            JS.VObj [ ("lat", JS.VNum latitude); ("lon", JS.VNum longitude);
                      ("accuracy", JS.VNum accuracy) ] in
          fst (AppFlow.locate JSON_stringify i w) = AppFlow.Resolved coords /\
          AppFlow.unnotified (snd (AppFlow.locate JSON_stringify i w))
          = App.with_state (App.setLocation coords)
              (if AppFlow.written i
               then AppFlow.localStorage_setItem "tideApp_location"
                      (JSON_stringify
                         (AppFlow.locationData coords (AppFlow.save_time i)))
                      (AppFlow.unnotified w)
               else AppFlow.unnotified w)
      | AppFlow.Unsupported =>
          fst (AppFlow.locate JSON_stringify i w)
          = AppFlow.RejectedWith
              (AppFlow.new_Error
                 "Geolocation is not supported by this browser") /\
          AppFlow.unnotified (snd (AppFlow.locate JSON_stringify i w))
          = AppFlow.unnotified w
      | AppFlow.GeoError code =>
          fst (AppFlow.locate JSON_stringify i w)
          = AppFlow.RejectedWith
              (AppFlow.new_Error (AppFlow.geolocation_message code)) /\
          AppFlow.unnotified (snd (AppFlow.locate JSON_stringify i w))
          = AppFlow.unnotified w
      end.
Proof.
  destruct (loadStoredLocation_completes (AppFlow.load_time i) w)
    as (stored & Hstored).
  exists stored. split; [exact Hstored |].
  pose proof (unnotified_loadStoredLocation (AppFlow.load_time i) w) as Hdata.
  unfold AppFlow.locate.
  destruct (App.loadStoredLocation (AppFlow.load_time i) w) as [result w1].
  cbn [fst snd] in Hstored, Hdata. subst result.
  destruct (JS.ToBoolean stored).
  - cbn [fst snd]. split; [reflexivity |].
    rewrite unnotified_with_state by reflexivity. now rewrite Hdata.
  - pose proof (unnotified_getCurrentLocation (AppFlow.geo i) w1) as Hgeo.
    pose proof (getCurrentLocation_result (AppFlow.geo i) w1) as Hanswer.
    destruct (AppFlow.getCurrentLocation (AppFlow.geo i) w1) as [answer w2].
    cbn [fst snd] in Hgeo, Hanswer. rewrite Hdata in Hgeo.
    destruct (AppFlow.geo i); subst answer; cbn [fst snd]; cbv zeta.
    + split; [reflexivity | exact Hgeo].
    + split; [reflexivity |].
      rewrite unnotified_with_state by reflexivity.
      rewrite unnotified_saveLocation, Hgeo. reflexivity.
    + split; [reflexivity | exact Hgeo].
Qed.

Lemma checkBackendHealth_localStorage
  (outcome : App.FetchOutcome Wire.Health) (w : App.World) :
  App.localStorage (App.checkBackendHealth outcome w) = App.localStorage w.
Proof.
  destruct outcome as [|r [health|]]; cbn [App.checkBackendHealth];
    try destruct (App.ok r); now rewrite addNotification_localStorage.
Qed.

Lemma geolocation_message_shown (code : Z) :
  App.category_message
    (AppFlow.new_Error (AppFlow.geolocation_message code)) None
  = AppFlow.geolocation_message code.
Proof.
  unfold AppFlow.geolocation_message.
  destruct (code =? 1); [reflexivity |].
  destruct (code =? 2); [reflexivity |].
  destruct (code =? 3); reflexivity.
Qed.

(** The data [initializeApp] ends with, case by case. *)
Lemma initializeApp_data (i : AppFlow.Inputs) (w : App.World) :
  exists stored,
    fst (App.loadStoredLocation (AppFlow.load_time i) w) = JS.Normal stored /\
    AppFlow.unnotified (AppFlow.initializeApp JSON_stringify i w)
    = let w0 :=
        AppFlow.unnotified
          (App.checkBackendHealth (AppFlow.health_outcome i)
             (App.with_state (App.setError None)
                (App.with_state (AppFlow.setLoading true)
                   (AppFlow.unnotified w)))) in
      let settle x :=
        match fst (AppFlow.fetchTideData (AppFlow.tide_response i) w) with
        | AppFlow.Resolved data =>
            AppFlow.show_data data (AppFlow.updated_time i) x
        | AppFlow.RejectedWith err =>
            App.with_state
              (App.setError
                 (Some (App.category_message err (App.thrown_response err))))
              x
        end in
      App.with_state (AppFlow.setLoading false)
        (if JS.ToBoolean stored then
           settle (App.with_state (App.setLocation stored) w0)
         else
           match AppFlow.geo i with
           | AppFlow.Position latitude longitude accuracy =>
               let coords :=
                 JS.VObj [ ("lat", JS.VNum latitude);
                           ("lon", JS.VNum longitude);
                           ("accuracy", JS.VNum accuracy) ] in
               settle
                 (App.with_state (App.setLocation coords)
                    (if AppFlow.written i
                     then AppFlow.localStorage_setItem "tideApp_location"
                            (JSON_stringify
                               (AppFlow.locationData coords
                                  (AppFlow.save_time i)))
                            w0
                     else w0))
           | AppFlow.Unsupported =>
               App.with_state
                 (App.setError
                    (Some "Geolocation is not supported by this browser"))
                 w0
           | AppFlow.GeoError code =>
               App.with_state
                 (App.setError (Some (AppFlow.geolocation_message code)))
                 w0
           end).
Proof.
  unfold AppFlow.initializeApp.
  set (w4 := App.checkBackendHealth (AppFlow.health_outcome i)
               (App.addNotification "Initializing TideTracker Pro..."
                  App.Info 2000
                  (App.with_state (App.setError None)
                     (App.with_state (AppFlow.setLoading true) w)))).
  assert (Hw4 : AppFlow.unnotified w4
                = AppFlow.unnotified
                    (App.checkBackendHealth (AppFlow.health_outcome i)
                       (App.with_state (App.setError None)
                          (App.with_state (AppFlow.setLoading true)
                             (AppFlow.unnotified w))))).
  { subst w4. rewrite unnotified_checkBackendHealth,
      unnotified_addNotification.
    rewrite !unnotified_with_state by reflexivity. reflexivity. }
  assert (Hstorage : App.localStorage w4 = App.localStorage w).
  { subst w4. rewrite checkBackendHealth_localStorage,
      addNotification_localStorage. reflexivity. }
  destruct (locate_data i w4) as (stored & Hstored & Hcases).
  rewrite (loadStoredLocation_reads_storage _ w4 w Hstorage) in Hstored.
  exists stored. split; [exact Hstored |].
  cbv zeta. rewrite unnotified_with_state by reflexivity. f_equal.
  rewrite <- Hw4.
  rewrite (fetchTideData_same_answer (AppFlow.tide_response i) w
             (snd (AppFlow.locate JSON_stringify i w4))).
  destruct (AppFlow.locate JSON_stringify i w4) as [answer w5].
  cbn [fst snd] in *.
  destruct (JS.ToBoolean stored).
  - destruct Hcases as [-> Hw5].
    rewrite initializeApp_after_fetch, Hw5. reflexivity.
  - destruct (AppFlow.geo i); cbv zeta in Hcases;
      destruct Hcases as [-> Hw5].
    + rewrite unnotified_addNotification, unnotified_report, Hw5.
      reflexivity.
    + rewrite initializeApp_after_fetch, Hw5. reflexivity.
    + rewrite unnotified_addNotification, unnotified_report, Hw5.
      cbn [App.thrown_response AppFlow.new_Error].
      change (App.category_message
                {| App.thrown_message := Some (AppFlow.geolocation_message code);
                   App.thrown_response := None |} None)
        with (App.category_message
                (AppFlow.new_Error (AppFlow.geolocation_message code)) None).
      rewrite geolocation_message_shown. reflexivity.
Qed.

Lemma geolocation_message_not_empty (code : Z) :
  AppFlow.geolocation_message code <> "".
Proof.
  unfold AppFlow.geolocation_message.
  destruct (code =? 1); [discriminate |].
  destruct (code =? 2); [discriminate |].
  destruct (code =? 3); discriminate.
Qed.

Lemma checkBackendHealth_data (outcome : App.FetchOutcome Wire.Health)
  (w : App.World) :
  let w' := AppFlow.unnotified (App.checkBackendHealth outcome w) in
  App.tideData (App.state w') = App.tideData (App.state w) /\
  App.error (App.state w') = App.error (App.state w) /\
  App.location (App.state w') = App.location (App.state w) /\
  App.lastUpdated (App.state w') = App.lastUpdated (App.state w) /\
  App.loading (App.state w') = App.loading (App.state w) /\
  App.localStorage w' = App.localStorage w.
Proof.
  destruct outcome as [|r [health|]]; cbn; try destruct (App.ok r);
    repeat split; reflexivity.
Qed.

(** X14. However its requests end, [initializeApp] takes the loading
    screen down and leaves either the fetched bundle on display, with no
    error text and the time of the update, or a non-empty error text, with
    the tide data and the time of the last update as they were. *)
Theorem initializeApp_ends_with_data_or_error (i : AppFlow.Inputs)
  (w : App.World) :
  let w' := AppFlow.initializeApp JSON_stringify i w in
  App.loading (App.state w') = false /\
  ((exists data,
      fst (AppFlow.fetchTideData (AppFlow.tide_response i) w)
      = AppFlow.Resolved data /\
      App.tideData (App.state w') = Some data /\
      App.error (App.state w') = None /\
      App.lastUpdated (App.state w') = Some (AppFlow.updated_time i)) \/
   (exists shown,
      App.error (App.state w') = Some shown /\ shown <> "" /\
      App.tideData (App.state w') = App.tideData (App.state w) /\
      App.lastUpdated (App.state w') = App.lastUpdated (App.state w))).
Proof.
  cbv zeta. destruct (initializeApp_data i w) as (stored & _ & Hdata).
  set (W := AppFlow.initializeApp JSON_stringify i w) in *.
  change (App.loading (App.state W))
    with (App.loading (App.state (AppFlow.unnotified W))).
  change (App.tideData (App.state W))
    with (App.tideData (App.state (AppFlow.unnotified W))).
  change (App.error (App.state W))
    with (App.error (App.state (AppFlow.unnotified W))).
  change (App.lastUpdated (App.state W))
    with (App.lastUpdated (App.state (AppFlow.unnotified W))).
  rewrite Hdata. clear Hdata W. cbv zeta.
  split; [reflexivity |].
  destruct (checkBackendHealth_data (AppFlow.health_outcome i)
              (App.with_state (App.setError None)
                 (App.with_state (AppFlow.setLoading true)
                    (AppFlow.unnotified w))))
    as (Htide & Herror & _ & Hupdated & _ & _).
  set (w0 := AppFlow.unnotified (App.checkBackendHealth _ _)) in *.
  cbn in Htide, Herror, Hupdated.
  destruct (fst (AppFlow.fetchTideData (AppFlow.tide_response i) w))
    as [data | err] eqn:Hfetch.
  - destruct (JS.ToBoolean stored); [| destruct (AppFlow.geo i)].
    + left. exists data. cbn. repeat split; first [reflexivity | assumption].
    + right. eexists. cbn.
      repeat split; first [discriminate | assumption].
    + left. exists data. cbn. split; [reflexivity |].
      destruct (AppFlow.written i); cbn;
        repeat split; first [reflexivity | assumption].
    + right. eexists. cbn.
      repeat split;
        first [apply geolocation_message_not_empty | assumption].
  - right.
    destruct (JS.ToBoolean stored); [| destruct (AppFlow.geo i)];
      eexists; cbn; (split; [reflexivity |]);
      (split; [first [ apply category_message_not_empty
                     | apply geolocation_message_not_empty
                     | discriminate ] |]).
    all: try (split; assumption).
    destruct (AppFlow.written i); split; assumption.
Qed.

(** X15. When a stored location is loaded, [initializeApp] shows it as
    the location, leaves local storage as it was, and does not consult
    geolocation: runs that differ only in what geolocation would answer and
    in how a save would go end in the same world. *)
Theorem initializeApp_uses_stored_location (i : AppFlow.Inputs)
  (w : App.World) (stored : JS.value) :
  fst (App.loadStoredLocation (AppFlow.load_time i) w) = JS.Normal stored ->
  JS.ToBoolean stored = true ->
  let w' := AppFlow.initializeApp JSON_stringify i w in
  App.location (App.state w') = stored /\
  App.localStorage w' = App.localStorage w /\
  (forall i',
     AppFlow.health_outcome i' = AppFlow.health_outcome i ->
     AppFlow.load_time i' = AppFlow.load_time i ->
     AppFlow.tide_response i' = AppFlow.tide_response i ->
     AppFlow.updated_time i' = AppFlow.updated_time i ->
     AppFlow.initializeApp JSON_stringify i' w = w').
Proof.
  intros Hstored Htruthy. cbv zeta. split; [| split].
  - destruct (initializeApp_data i w) as (stored' & Hstored' & Hdata).
    rewrite Hstored in Hstored'. injection Hstored' as <-.
    change (App.location (App.state (AppFlow.initializeApp JSON_stringify i w)))
      with (App.location
              (App.state
                 (AppFlow.unnotified
                    (AppFlow.initializeApp JSON_stringify i w)))).
    rewrite Hdata, Htruthy. cbv zeta.
    destruct (fst (AppFlow.fetchTideData (AppFlow.tide_response i) w));
      reflexivity.
  - destruct (initializeApp_data i w) as (stored' & Hstored' & Hdata).
    rewrite Hstored in Hstored'. injection Hstored' as <-.
    change (App.localStorage (AppFlow.initializeApp JSON_stringify i w))
      with (App.localStorage
              (AppFlow.unnotified (AppFlow.initializeApp JSON_stringify i w))).
    rewrite Hdata, Htruthy. cbv zeta.
    pose proof (checkBackendHealth_data (AppFlow.health_outcome i)
                  (App.with_state (App.setError None)
                     (App.with_state (AppFlow.setLoading true)
                        (AppFlow.unnotified w))))
      as (_ & _ & _ & _ & _ & Hstorage).
    cbv zeta in Hstorage.
    destruct (fst (AppFlow.fetchTideData (AppFlow.tide_response i) w));
      exact Hstorage.
  - intros i' Hhealth Hload Htide Hupdated.
    unfold AppFlow.initializeApp. rewrite Hhealth, Htide, Hupdated.
    set (w4 := App.checkBackendHealth (AppFlow.health_outcome i) _).
    assert (Hstorage : App.localStorage w4 = App.localStorage w).
    { subst w4. rewrite checkBackendHealth_localStorage,
        addNotification_localStorage. reflexivity. }
    assert (Hlocate : AppFlow.locate JSON_stringify i' w4
                      = AppFlow.locate JSON_stringify i w4).
    { unfold AppFlow.locate. rewrite Hload.
      pose proof (loadStoredLocation_reads_storage (AppFlow.load_time i)
                    w4 w Hstorage) as Hsame.
      rewrite Hstored in Hsame.
      destruct (App.loadStoredLocation (AppFlow.load_time i) w4)
        as [result w5].
      cbn [fst] in Hsame. subst result. rewrite Htruthy. reflexivity. }
    rewrite Hlocate. reflexivity.
Qed.

(** X16. With nothing stored under 'tideApp_location' and geolocation
    missing or failing, [initializeApp] ends with the geolocation message
    as the error text ('Location access denied by user' for code 1, ...),
    takes the loading screen down, and leaves the location, the tide data
    and local storage as they were; no tide request is made, so its answer
    does not matter. *)
Theorem initializeApp_reports_geolocation_failure (i : AppFlow.Inputs)
  (w : App.World) :
  App.localStorage w !! "tideApp_location" = None ->
  (AppFlow.geo i = AppFlow.Unsupported \/
   exists code, AppFlow.geo i = AppFlow.GeoError code) ->
  let w' := AppFlow.initializeApp JSON_stringify i w in
  App.error (App.state w')
  = Some match AppFlow.geo i with
         | AppFlow.GeoError code =>
             if code =? 1 then "Location access denied by user"
             else if code =? 2 then "Location information unavailable"
             else if code =? 3 then "Location request timed out"
             else "Unable to retrieve location"
         | _ => "Geolocation is not supported by this browser"
         end /\
  App.loading (App.state w') = false /\
  App.location (App.state w') = App.location (App.state w) /\
  App.tideData (App.state w') = App.tideData (App.state w) /\
  App.localStorage w' = App.localStorage w.
Proof.
  intros Hnone Hgeo. cbv zeta.
  destruct (initializeApp_data i w) as (stored & Hstored & Hdata).
  rewrite loadStoredLocation_result in Hstored.
  change App.LOCATION_KEY with "tideApp_location" in Hstored.
  rewrite Hnone in Hstored. injection Hstored as <-.
  set (W := AppFlow.initializeApp JSON_stringify i w) in *.
  change (App.loading (App.state W))
    with (App.loading (App.state (AppFlow.unnotified W))).
  change (App.tideData (App.state W))
    with (App.tideData (App.state (AppFlow.unnotified W))).
  change (App.error (App.state W))
    with (App.error (App.state (AppFlow.unnotified W))).
  change (App.location (App.state W))
    with (App.location (App.state (AppFlow.unnotified W))).
  change (App.localStorage W)
    with (App.localStorage (AppFlow.unnotified W)).
  rewrite Hdata. clear Hdata W. cbv zeta. cbn [JS.ToBoolean].
  pose proof (checkBackendHealth_data (AppFlow.health_outcome i)
                (App.with_state (App.setError None)
                   (App.with_state (AppFlow.setLoading true)
                      (AppFlow.unnotified w))))
    as (Htide & _ & Hlocation & _ & _ & Hstorage).
  cbv zeta in Htide, Hlocation, Hstorage.
  destruct Hgeo as [-> | (code & ->)]; cbn;
    repeat split; assumption.
Qed.

(** X17. The settings panel's "Clear Stored Location" always ends up
    asking geolocation: afterwards the location on display is the position
    geolocation gave, or null when it gave none; the entry under
    'tideApp_location' is the newly saved one, or absent when there was no
    position or the save failed; the other keys of local storage are as
    before. *)
Theorem onClearLocation_asks_geolocation (i : AppFlow.Inputs) (w : App.World) :
  let w' := AppFlow.onClearLocation JSON_stringify i w in
  App.location (App.state w')
  = match AppFlow.geo i with
    | AppFlow.Position latitude longitude accuracy =>
        JS.VObj [ ("lat", JS.VNum latitude); ("lon", JS.VNum longitude);
                  ("accuracy", JS.VNum accuracy) ]
    | _ => JS.VNull
    end /\
  App.localStorage w' !! "tideApp_location"
  = match AppFlow.geo i with
    | AppFlow.Position latitude longitude accuracy =>
        if AppFlow.written i then
          Some (JSON_stringify
                  (AppFlow.locationData
                     (JS.VObj [ ("lat", JS.VNum latitude);
                                ("lon", JS.VNum longitude);
                                ("accuracy", JS.VNum accuracy) ])
                     (AppFlow.save_time i)))
        else None
    | _ => None
    end /\
  (forall key, key <> "tideApp_location" ->
     App.localStorage w' !! key = App.localStorage w !! key).
Proof.
  cbv zeta. unfold AppFlow.onClearLocation.
  set (wc := App.with_state (App.setTideData None)
               (App.with_state (App.setLocation JS.VNull)
                  (AppFlow.clearStoredLocation w))).
  assert (Hcleared : App.localStorage wc
                     = delete "tideApp_location" (App.localStorage w)).
  { subst wc. unfold AppFlow.clearStoredLocation.
    cbn [App.with_state App.localStorage].
    rewrite addNotification_localStorage. reflexivity. }
  destruct (initializeApp_data i wc) as (stored & Hstored & Hdata).
  rewrite loadStoredLocation_result in Hstored.
  change App.LOCATION_KEY with "tideApp_location" in Hstored.
  rewrite Hcleared, lookup_delete_eq in Hstored. injection Hstored as <-.
  set (W := AppFlow.initializeApp JSON_stringify i wc) in *.
  change (App.location (App.state W))
    with (App.location (App.state (AppFlow.unnotified W))).
  change (App.localStorage W)
    with (App.localStorage (AppFlow.unnotified W)).
  rewrite Hdata. clear Hdata W. cbv zeta. cbn [JS.ToBoolean].
  destruct (checkBackendHealth_data (AppFlow.health_outcome i)
              (App.with_state (App.setError None)
                 (App.with_state (AppFlow.setLoading true)
                    (AppFlow.unnotified wc))))
    as (_ & _ & Hlocation & _ & _ & Hstorage).
  set (w0 := AppFlow.unnotified (App.checkBackendHealth _ _)) in *.
  cbn [App.with_state App.state App.localStorage AppFlow.unnotified
       App.setError AppFlow.setLoading App.setNotifications App.location]
    in Hlocation, Hstorage.
  rewrite Hcleared in Hstorage.
  assert (Hwc : App.location (App.state wc) = JS.VNull).
  { subst wc. reflexivity. }
  rewrite Hwc in Hlocation. clearbody w0.
  destruct (AppFlow.geo i) as [| latitude longitude accuracy | code].
  - cbn. rewrite Hlocation, Hstorage.
    split; [reflexivity |]. split; [apply lookup_delete_eq |].
    intros key Hkey. apply lookup_delete_ne. congruence.
  - destruct (fst (AppFlow.fetchTideData (AppFlow.tide_response i) wc));
      destruct (AppFlow.written i); cbn; rewrite Hstorage;
      (split; [reflexivity |]); split;
      try apply lookup_insert_eq; try apply lookup_delete_eq;
      intros key Hkey;
      rewrite ?lookup_insert_ne by congruence;
      apply lookup_delete_ne; congruence.
  - cbn. rewrite Hlocation, Hstorage.
    split; [reflexivity |]. split; [apply lookup_delete_eq |].
    intros key Hkey. apply lookup_delete_ne. congruence.
Qed.

(** *** Health checks and the API cache *)

(** X18. A health check changes the API health, adds one notification,
    and replaces the backend status only when an ok response with a readable
    body arrives: a failed check keeps the last known status.  The API
    health is 'healthy' exactly in that case, and the tide data, error
    text, location and local storage are never touched. *)
Theorem checkBackendHealth_keeps_last_status
  (outcome : App.FetchOutcome Wire.Health) (w : App.World) :
  let w' := App.checkBackendHealth outcome w in
  (App.apiHealth (App.state w') = App.Healthy <->
   exists r health,
     outcome = App.Response r (Some health) /\ App.ok r = true) /\
  (forall r health,
     outcome = App.Response r (Some health) -> App.ok r = true ->
     App.backendStatus (App.state w') = Some health) /\
  (App.apiHealth (App.state w') <> App.Healthy ->
   App.backendStatus (App.state w') = App.backendStatus (App.state w)) /\
  length (App.notifications (App.state w'))
  = S (length (App.notifications (App.state w))) /\
  App.tideData (App.state w') = App.tideData (App.state w) /\
  App.error (App.state w') = App.error (App.state w) /\
  App.location (App.state w') = App.location (App.state w) /\
  App.localStorage w' = App.localStorage w.
Proof.
  cbv zeta.
  destruct outcome as [|r [health|]]; cbn [App.checkBackendHealth];
    try destruct (App.ok r) eqn:Hok;
    rewrite addNotification_state, addNotification_localStorage;
    cbn [App.with_state App.state App.localStorage App.setNotifications
         App.setApiHealth App.setBackendStatus App.apiHealth
         App.backendStatus App.notifications App.tideData App.error
         App.location];
    rewrite length_app; cbn [length].
  all: repeat split; try reflexivity; try discriminate; try lia;
    try congruence.
  all: try (intros (r' & health' & Heq & Hok'); congruence).
  all: try (intros _; eauto).
  all: try (intros r' health' Heq Hok'; congruence).
Qed.

(** X19. Clearing the API cache never touches local storage, and unless
    the server answers ok, it changes no data at all: the tide data, error
    text, location, update time, backend status and API health stay, and
    two notifications are added. *)
Theorem clearAPICache_unconfirmed_changes_no_data
  (response : AppFlow.CacheResponse) (tide : AppFlow.TideResponse)
  (health : App.FetchOutcome Wire.Health) (now : Z) (w : App.World) :
  (forall r, response = AppFlow.CacheAnswer r -> App.ok r = false) ->
  let w' := AppFlow.clearAPICache response tide health now w in
  App.tideData (App.state w') = App.tideData (App.state w) /\
  App.error (App.state w') = App.error (App.state w) /\
  App.location (App.state w') = App.location (App.state w) /\
  App.lastUpdated (App.state w') = App.lastUpdated (App.state w) /\
  App.backendStatus (App.state w') = App.backendStatus (App.state w) /\
  App.apiHealth (App.state w') = App.apiHealth (App.state w) /\
  App.localStorage w' = App.localStorage w /\
  length (App.notifications (App.state w'))
  = S (S (length (App.notifications (App.state w)))).
Proof.
  intros Hunconfirmed. cbv zeta. unfold AppFlow.clearAPICache.
  destruct response as [message | r].
  - rewrite !addNotification_state, !addNotification_localStorage.
    cbn. rewrite !length_app. cbn. repeat split; try reflexivity. lia.
  - rewrite (Hunconfirmed r eq_refl).
    rewrite !addNotification_state, !addNotification_localStorage.
    cbn. rewrite !length_app. cbn. repeat split; try reflexivity. lia.
Qed.

(** *** Updating the location *)

(** The data [updateLocation] ends with, case by case. *)
Lemma updateLocation_data (i : AppFlow.Inputs) (w : App.World) :
  AppFlow.unnotified (AppFlow.updateLocation JSON_stringify i w)
  = let w0 := App.with_state (AppFlow.setLoading true) (AppFlow.unnotified w) in
    App.with_state (AppFlow.setLoading false)
      match AppFlow.geo i with
      | AppFlow.Position latitude longitude accuracy =>
          let coords :=
            JS.VObj [ ("lat", JS.VNum latitude); ("lon", JS.VNum longitude);
                      ("accuracy", JS.VNum accuracy) ] in
          let located :=
            App.with_state (App.setLocation coords)
              (if AppFlow.written i
               then AppFlow.localStorage_setItem "tideApp_location"
                      (JSON_stringify
                         (AppFlow.locationData coords (AppFlow.save_time i)))
                      w0
               else w0) in
          match fst (AppFlow.fetchTideData (AppFlow.tide_response i) w) with
          | AppFlow.Resolved data =>
              AppFlow.show_data data (AppFlow.updated_time i) located
          | AppFlow.RejectedWith err =>
              App.with_state
                (App.setError
                   (Some (App.category_message err
                            (App.thrown_response err))))
                located
          end
      | AppFlow.Unsupported =>
          App.with_state
            (App.setError
               (Some "Geolocation is not supported by this browser"))
            w0
      | AppFlow.GeoError code =>
          App.with_state
            (App.setError (Some (AppFlow.geolocation_message code))) w0
      end.
Proof.
  unfold AppFlow.updateLocation. cbv zeta.
  rewrite unnotified_with_state by reflexivity. f_equal.
  set (w1 := App.with_state (AppFlow.setLoading true) w).
  assert (Hw1 : AppFlow.unnotified w1
                = App.with_state (AppFlow.setLoading true)
                    (AppFlow.unnotified w)) by reflexivity.
  rewrite <- Hw1.
  pose proof (unnotified_getCurrentLocation (AppFlow.geo i) w1) as Hgeo.
  pose proof (getCurrentLocation_result (AppFlow.geo i) w1) as Hanswer.
  destruct (AppFlow.getCurrentLocation (AppFlow.geo i) w1) as [answer w2].
  cbn [fst snd] in Hgeo, Hanswer.
  destruct (AppFlow.geo i) as [| latitude longitude accuracy | code];
    subst answer.
  - rewrite unnotified_report, Hgeo. reflexivity.
  - set (coords := JS.VObj _).
    set (w3 := App.with_state (App.setLocation coords)
                 (AppFlow.saveLocation JSON_stringify (AppFlow.written i)
                    (AppFlow.save_time i) coords w2)).
    assert (Hw3 : AppFlow.unnotified w3
                  = App.with_state (App.setLocation coords)
                      (if AppFlow.written i
                       then AppFlow.localStorage_setItem "tideApp_location"
                              (JSON_stringify
                                 (AppFlow.locationData coords
                                    (AppFlow.save_time i)))
                              (AppFlow.unnotified w1)
                       else AppFlow.unnotified w1)).
    { subst w3. rewrite unnotified_with_state by reflexivity.
      rewrite unnotified_saveLocation, Hgeo. reflexivity. }
    rewrite (fetchTideData_same_answer (AppFlow.tide_response i) w w3).
    pose proof (unnotified_fetchTideData_resolved (AppFlow.tide_response i) w3)
      as Hresolved.
    pose proof (unnotified_report_after_fetch (AppFlow.tide_response i) w3)
      as Hrejected.
    destruct (AppFlow.fetchTideData (AppFlow.tide_response i) w3)
      as [[data | err] w4]; cbn [fst snd] in *.
    + rewrite unnotified_show_data, (Hresolved data eq_refl), Hw3.
      reflexivity.
    + rewrite (Hrejected err eq_refl), Hw3. reflexivity.
  - rewrite unnotified_report, Hgeo.
    cbn [App.thrown_response AppFlow.new_Error].
    change (App.category_message
              {| App.thrown_message := Some (AppFlow.geolocation_message code);
                 App.thrown_response := None |} None)
      with (App.category_message
              (AppFlow.new_Error (AppFlow.geolocation_message code)) None).
    rewrite geolocation_message_shown. reflexivity.
Qed.

(** X20. When geolocation gives a position and the tide fetch resolves,
    [updateLocation] shows the position as the location and the fetched
    bundle as the tide data, records the time and takes the loading state
    down, but it does not clear the error text: an error shown before the
    update is still shown after it. *)
Theorem updateLocation_keeps_earlier_error (i : AppFlow.Inputs)
  (w : App.World) (latitude longitude accuracy : Q)
  (data : Wire.TideWeatherBundle) :
  AppFlow.geo i = AppFlow.Position latitude longitude accuracy ->
  fst (AppFlow.fetchTideData (AppFlow.tide_response i) w)
  = AppFlow.Resolved data ->
  let w' := AppFlow.updateLocation JSON_stringify i w in
  App.location (App.state w')
  = JS.VObj [ ("lat", JS.VNum latitude); ("lon", JS.VNum longitude);
              ("accuracy", JS.VNum accuracy) ] /\
  App.tideData (App.state w') = Some data /\
  App.lastUpdated (App.state w') = Some (AppFlow.updated_time i) /\
  App.loading (App.state w') = false /\
  App.error (App.state w') = App.error (App.state w).
Proof.
  intros Hgeo Hfetch. cbv zeta.
  pose proof (updateLocation_data i w) as Hdata.
  set (W := AppFlow.updateLocation JSON_stringify i w) in *.
  change (App.location (App.state W))
    with (App.location (App.state (AppFlow.unnotified W))).
  change (App.tideData (App.state W))
    with (App.tideData (App.state (AppFlow.unnotified W))).
  change (App.lastUpdated (App.state W))
    with (App.lastUpdated (App.state (AppFlow.unnotified W))).
  change (App.loading (App.state W))
    with (App.loading (App.state (AppFlow.unnotified W))).
  change (App.error (App.state W))
    with (App.error (App.state (AppFlow.unnotified W))).
  rewrite Hdata, Hgeo, Hfetch. cbv zeta.
  destruct (AppFlow.written i); repeat split; reflexivity.
Qed.

End Flows.

(** ** Worked examples of the properties above *)


(** A 422 answer with body 'Invalid coordinates' is reported as the
    invalid-coordinates text. *)
Lemma fetchTideData_reports_failed_response_witness :
  App.ok Scenario.unprocessable = false /\
  App.error
    (App.state
       (snd (AppFlow.fetchTideData (H := Fixture.browser)
               Scenario.tide_failure Scenario.located_world)))
  = Some "Invalid location coordinates provided. Please check your location settings.".
Proof.
  split; [reflexivity |].
  destruct (fetchTideData_reports_failed_response (H := Fixture.browser)
              Scenario.unprocessable "Invalid coordinates"
              (AppFlow.Unreadable None) Scenario.located_world eq_refl)
    as (detail & _ & _ & Herror & _).
  exact Herror.
Defined.

(** A refresh that meets the 422 answer keeps the bundle on display. *)
Lemma failed_refresh_keeps_tide_data_witness :
  fst (AppFlow.fetchTideData (H := Fixture.browser) Scenario.tide_failure
         Scenario.located_world)
  = AppFlow.RejectedWith
      (AppFlow.api_error (H := Fixture.browser) Scenario.unprocessable
         "Invalid coordinates") /\
  App.tideData
    (App.state
       (AppFlow.refreshData (H := Fixture.browser) Scenario.tide_failure
          App.NetworkFailure 3000 Scenario.located_world))
  = Some Fixture.tide_only_bundle.
Proof.
  split; [reflexivity |].
  exact (proj1 (failed_refresh_keeps_tide_data (H := Fixture.browser)
                  Scenario.tide_failure App.NetworkFailure 3000
                  Scenario.located_world _ eq_refl)).
Defined.

(** A refresh that gets the bundle shows it and records the time. *)
Lemma successful_refresh_shows_data_witness :
  JS.ToBoolean (App.location (App.state Scenario.located_world)) = true /\
  fst (AppFlow.fetchTideData (H := Fixture.browser) Scenario.tide_success
         Scenario.located_world)
  = AppFlow.Resolved Fixture.tide_only_bundle /\
  App.lastUpdated
    (App.state
       (AppFlow.refreshData (H := Fixture.browser) Scenario.tide_success
          App.NetworkFailure 3000 Scenario.located_world))
  = Some 3000.
Proof.
  split; [reflexivity |]. split; [reflexivity |].
  exact (proj1 (proj2 (proj2
           (successful_refresh_shows_data (H := Fixture.browser)
              Scenario.tide_success App.NetworkFailure 3000
              Scenario.located_world Fixture.tide_only_bundle
              eq_refl eq_refl)))).
Defined.

(** Started at time 2000 with the location saved at time 1000, the app
    shows the saved coordinates although geolocation would be denied. *)
Lemma initializeApp_uses_stored_location_witness :
  fst (App.loadStoredLocation (H := Fixture.browser)
         (AppFlow.load_time Scenario.inputs) Fixture.saved_world)
  = JS.Normal Fixture.stored_coords /\
  JS.ToBoolean Fixture.stored_coords = true /\
  App.location
    (App.state
       (AppFlow.initializeApp (H := Fixture.browser)
          (fun _ => Fixture.stored_document) Scenario.inputs
          Fixture.saved_world))
  = Fixture.stored_coords.
Proof.
  split; [vm_compute; reflexivity |]. split; [reflexivity |].
  exact (proj1 (initializeApp_uses_stored_location (H := Fixture.browser)
                  (fun _ => Fixture.stored_document) Scenario.inputs
                  Fixture.saved_world Fixture.stored_coords
                  (saved_location_is_loaded) eq_refl)).
Defined.

(** Started with nothing stored and geolocation denied (code 1), the app
    ends with 'Location access denied by user'. *)
Lemma initializeApp_reports_geolocation_failure_witness :
  App.localStorage Scenario.located_world !! "tideApp_location" = None /\
  AppFlow.geo Scenario.inputs = AppFlow.GeoError 1 /\
  App.error
    (App.state
       (AppFlow.initializeApp (H := Fixture.browser)
          (fun _ => Fixture.stored_document) Scenario.inputs
          Scenario.located_world))
  = Some "Location access denied by user".
Proof.
  split; [reflexivity |]. split; [reflexivity |].
  exact (proj1 (initializeApp_reports_geolocation_failure
                  (H := Fixture.browser) (fun _ => Fixture.stored_document)
                  Scenario.inputs Scenario.located_world eq_refl
                  (or_intror (ex_intro _ 1 eq_refl)))).
Defined.

(** A 422 answer to the cache request leaves the bundle on display. *)
Lemma clearAPICache_unconfirmed_changes_no_data_witness :
  App.ok Scenario.unprocessable = false /\
  App.tideData
    (App.state
       (AppFlow.clearAPICache (H := Fixture.browser)
          (AppFlow.CacheAnswer Scenario.unprocessable) Scenario.tide_success
          App.NetworkFailure 3000 Scenario.located_world))
  = Some Fixture.tide_only_bundle.
Proof.
  split; [reflexivity |].
  refine (proj1 (clearAPICache_unconfirmed_changes_no_data
                   (H := Fixture.browser)
                   (AppFlow.CacheAnswer Scenario.unprocessable)
                   Scenario.tide_success App.NetworkFailure 3000
                   Scenario.located_world _)).
  intros r Hr. injection Hr as <-. reflexivity.
Defined.

(** An update that succeeds right after a failed report still shows the
    error text of that report. *)
Lemma updateLocation_keeps_earlier_error_witness :
  App.error
    (App.state
       (AppFlow.updateLocation (H := Fixture.browser)
          (fun _ => Fixture.stored_document)
          {| AppFlow.health_outcome := App.NetworkFailure;
             AppFlow.load_time := 2000;
             AppFlow.geo := AppFlow.Position (407128 # 10000)
                              (-740060 # 10000) 25;
             AppFlow.written := true;
             AppFlow.save_time := 2000;
             AppFlow.tide_response := Scenario.tide_success;
             AppFlow.updated_time := 3000 |}
          (App.handleAPIError Fixture.silent_failure (Some Fixture.forbidden)
             Scenario.located_world)))
  = Some "An unexpected error occurred".
Proof.
  exact (proj2 (proj2 (proj2 (proj2
           (updateLocation_keeps_earlier_error (H := Fixture.browser)
              (fun _ => Fixture.stored_document)
              {| AppFlow.health_outcome := App.NetworkFailure;
                 AppFlow.load_time := 2000;
                 AppFlow.geo := AppFlow.Position (407128 # 10000)
                                  (-740060 # 10000) 25;
                 AppFlow.written := true;
                 AppFlow.save_time := 2000;
                 AppFlow.tide_response := Scenario.tide_success;
                 AppFlow.updated_time := 3000 |}
              (App.handleAPIError Fixture.silent_failure
                 (Some Fixture.forbidden) Scenario.located_world)
              (407128 # 10000) (-740060 # 10000) 25
              Fixture.tide_only_bundle eq_refl eq_refl))))).
Defined.
